(** * Taskist: the task-list REST service and its two storage variants

    A shallow embedding of the request handlers of the two servers of the
    repository,

    - [server/index.js], the Express server over Postgres (module
      [Postgres] below), and
    - the Express server over SQLite (module [Sqlite] below),

    together with the derived, sorted task view of the React client
    ([TaskApp.jsx], module [Client]).

    Conventions of the model.

    - A JavaScript string is a [string]: one [ascii] stands for one UTF-16
      code unit in the range U+0000..U+00FF, so [String.length] is the
      JavaScript [length].
    - A request body is a record of the JSON values found under the keys
      the handler reads; an absent key is [JUndefined].
    - The [:id] segment of a task route is an integer literal that both
      storage engines take as a key, so that [Number(req.params.id)] is
      that integer.
    - A table with an integer primary key is a finite map from the key to
      the remaining columns. The [created_at] columns are never read by a
      handler and are left out.
    - Storage statements succeed: a storage error, for which only the
      Postgres server has a [catch] that answers 500, is outside the
      model. So is the foreign key from [tasks] to [users]: no handler
      deletes a user, and the tokens the servers hand out name stored
      users.
    - [jsonwebtoken] and [bcryptjs] are libraries, not code of the
      repository. A token is modelled as its claims together with the key
      that signed it; the password hash functions are parameters. *)

From Stdlib Require Import ZArith String Ascii List Lia DecimalString.
From stdpp Require Import base gmap strings list sorting.

Local Open Scope string_scope.
Local Open Scope Z_scope.
Set Warnings "-register-all".

(** ** JavaScript values and the string operations the handlers use *)

Module Js.

(** JSON values as they arrive in [req.body]. [JNum] carries an integral
    number; [JObj] is a plain object, whose contents no handler reads. *)
Inductive jsval :=
  | JUndefined
  | JNull
  | JBool (b : bool)
  | JNum (z : Z)
  | JStr (s : string)
  | JArr (l : list jsval)
  | JObj.

(** Truthiness, as tested by [x || y]. *)
Definition truthy (v : jsval) : bool :=
  match v with
  | JUndefined | JNull => false
  | JBool b => b
  | JNum z => negb (z =? 0)
  | JStr s => negb (String.eqb s "")
  | JArr _ | JObj => true
  end.

(** [x || y] *)
Definition or_else (x y : jsval) : jsval := if truthy x then x else y.

Fixpoint join_with (sep : string) (l : list string) : string :=
  match l with
  | [] => ""
  | [s] => s
  | s :: l' => s +:+ sep +:+ join_with sep l'
  end.

(** [String(v)]. An array is the join of its elements with [","], where
    [null] and [undefined] elements contribute the empty string. *)
Fixpoint toString (v : jsval) : string :=
  match v with
  | JUndefined => "undefined"
  | JNull => "null"
  | JBool true => "true"
  | JBool false => "false"
  | JNum z => NilZero.string_of_int (Z.to_int z)
  | JStr s => s
  | JArr l =>
      join_with ","
        (List.map (fun e => match e with
                            | JUndefined | JNull => ""
                            | _ => toString e
                            end) l)
  | JObj => "[object Object]"
  end.

(** White space and line terminators of ECMAScript below U+0100:
    TAB, LF, VT, FF, CR, SP and NBSP. *)
Definition isWhiteSpace (c : ascii) : bool :=
  match nat_of_ascii c with
  | 9%nat | 10%nat | 11%nat | 12%nat | 13%nat | 32%nat | 160%nat => true
  | _ => false
  end.

Fixpoint trimStart (s : string) : string :=
  match s with
  | EmptyString => EmptyString
  | String c s' => if isWhiteSpace c then trimStart s' else s
  end.

Fixpoint trimEnd (s : string) : string :=
  match s with
  | EmptyString => EmptyString
  | String c s' =>
      match trimEnd s' with
      | EmptyString => if isWhiteSpace c then EmptyString else String c EmptyString
      | r => String c r
      end
  end.

(** [s.trim()] *)
Definition trim (s : string) : string := trimEnd (trimStart s).

(** Lower-casing of one code unit below U+0100: A-Z, and the letters
    U+00C0..U+00DE except the multiplication sign U+00D7. *)
Definition lowerChar (c : ascii) : ascii :=
  let n := nat_of_ascii c in
  if ((65 <=? n) && (n <=? 90))%nat then ascii_of_nat (n + 32)
  else if ((192 <=? n) && (n <=? 222) && negb (n =? 215))%nat
       then ascii_of_nat (n + 32)
  else c.

(** [s.toLowerCase()] *)
Fixpoint toLowerCase (s : string) : string :=
  match s with
  | EmptyString => EmptyString
  | String c s' => String (lowerChar c) (toLowerCase s')
  end.

(** [s.includes(sub)] *)
Fixpoint includes (s sub : string) : bool :=
  String.prefix sub s
  || match s with
     | EmptyString => false
     | String _ s' => includes s' sub
     end.

(** [String(v || "")], the coercion applied to every text field. *)
Definition text_field (v : jsval) : string := toString (or_else v (JStr "")).

End Js.

(** ** Signed session tokens ([jsonwebtoken]) *)

Module Jwt.

(** The claims of a token: the payload [{ id, email }] given to [jwt.sign]
    and the registered claims [iat] and [exp], in seconds. *)
Record claims := Claims {
  id : Z;
  email : string;
  iat : Z;
  exp : Z
}.

(** A token is either a well-formed one, given by its claims and the key
    its signature was computed with, or a text that does not decode. *)
Inductive token :=
  | Signed (c : claims) (key : string)
  | Malformed.

(** [jwt.sign({ id, email }, secret, { expiresIn })] on a clock that reads
    [now] seconds: [iat] is the clock and [exp] is [iat + expiresIn]. *)
Definition sign (uid : Z) (mail : string) (secret : string) (expiresIn : Z)
    (now : Z) : token :=
  Signed {| id := uid; email := mail; iat := now; exp := now + expiresIn |}
         secret.

(** [jwt.verify(token, secret)] on a clock that reads [now] seconds. It
    throws ([None]) for a text that does not decode, for a signature made
    with another key, and once the clock has reached [exp]. *)
Definition verify (t : token) (secret : string) (now : Z) : option claims :=
  match t with
  | Malformed => None
  | Signed c key =>
      if negb (String.eqb key secret) then None
      else if exp c <=? now then None
      else Some c
  end.

End Jwt.

(** ** Requests and responses *)

Module Http.

(** The [Authorization] header: absent, present without the prefix
    ["Bearer "], or that prefix followed by a token. *)
Inductive authorization :=
  | NoAuthorization
  | OtherScheme (s : string)
  | Bearer (t : Jwt.token).

(** What [req.body] holds under the keys the handlers read. *)
Record auth_body := AuthBody { body_email : Js.jsval; body_password : Js.jsval }.
Record create_body := CreateBody { new_title : Js.jsval }.
Record update_body := UpdateBody {
  body_title : Js.jsval;
  body_completed : Js.jsval
}.

Inductive request :=
  | GetHealth
  | PostRegister (b : auth_body)
  | PostLogin (b : auth_body)
  | GetTasks (auth : authorization)
  | PostTasks (auth : authorization) (b : create_body)
  | PutTask (auth : authorization) (taskId : Z) (b : update_body)
  | DeleteTask (auth : authorization) (taskId : Z).

(** A task as serialised to the client: [{ id, title, completed }]. *)
Record task_json := TaskJson {
  json_id : Z;
  json_title : string;
  json_completed : bool
}.

Inductive body :=
  | ErrorBody (error : string)          (* { error } *)
  | TokenBody (token : Jwt.token)       (* { token } *)
  | TasksBody (rows : list task_json)   (* [ ... ] *)
  | TaskBody (row : task_json)          (* { id, title, completed } *)
  | SuccessBody                         (* { success: true } *)
  | HealthBody.                         (* { ok: true } *)

Record response := Response { status : Z; json : body }.

(** What the handler reads besides the request: the clock, in seconds, and
    the salt that [bcrypt.hashSync] draws. *)
Record env := Env { now : Z; salt : string }.

End Http.

(** The process-wide constants and the password hashing library. *)
Class Runtime := {
  JWT_SECRET : string;
  (* bcrypt.hashSync(password, rounds), with the salt it draws *)
  bcrypt_hashSync : string -> string -> Z -> string;
  (* bcrypt.compareSync(password, hash) *)
  bcrypt_compareSync : string -> string -> bool
}.

(** The same users table is declared by both servers:
    [id], [email] (unique), [password_hash]. *)
Record user_row := UserRow {
  u_id : Z;
  u_email : string;
  u_password_hash : string
}.

(** ** The server over Postgres ([server/index.js]) *)

Module Postgres.
Import Js Http.

(** A row of [tasks] without its primary key:
    [owner_id INTEGER], [title TEXT], [completed BOOLEAN]. *)
Record task_row := TaskRow {
  owner_id : Z;
  title : string;
  completed : bool
}.

(** The database: the two tables and the last value of their [SERIAL]
    sequences. [users] is only ever scanned by [email]; [tasks] is keyed by
    its primary key [id]. *)
Record db := Db {
  users : list user_row;
  tasks : gmap Z task_row;
  users_id_seq : Z;
  tasks_id_seq : Z
}.

(** The database after [initDb] on a fresh instance. *)
Definition initDb : db :=
  {| users := []; tasks := ∅; users_id_seq := 0; tasks_id_seq := 0 |}.

(** [ORDER BY id DESC] *)
Definition id_desc (a b : Z * task_row) : Prop := b.1 ≤ a.1.

#[global] Instance id_desc_dec : RelDecision id_desc.
Proof. intros a b. unfold id_desc. apply _. Defined.

(** [SELECT id, email, password_hash FROM users WHERE email = $1], first row *)
Definition select_user (d : db) (mail : string) : option user_row :=
  List.find (fun u => String.eqb (u_email u) mail) (users d).

(** [INSERT INTO users (email, password_hash) VALUES ($1, $2)
     RETURNING id, email] *)
Definition insert_user (d : db) (mail hash : string) : db * user_row :=
  let row := {| u_id := users_id_seq d + 1; u_email := mail;
                u_password_hash := hash |} in
  ({| users := users d ++ [row]; tasks := tasks d;
      users_id_seq := users_id_seq d + 1; tasks_id_seq := tasks_id_seq d |},
   row).

(** [SELECT id, title, completed FROM tasks WHERE owner_id = $1
     ORDER BY id DESC] *)
Definition select_tasks (d : db) (uid : Z) : list (Z * task_row) :=
  merge_sort id_desc
    (filter (fun kv => owner_id kv.2 = uid) (map_to_list (tasks d))).

(** [INSERT INTO tasks (owner_id, title, completed) VALUES ($1, $2, FALSE)
     RETURNING id, title, completed] *)
Definition insert_task (d : db) (uid : Z) (t : string) : db * (Z * task_row) :=
  let i := tasks_id_seq d + 1 in
  let row := {| owner_id := uid; title := t; completed := false |} in
  ({| users := users d; tasks := <[i := row]> (tasks d);
      users_id_seq := users_id_seq d; tasks_id_seq := i |},
   (i, row)).

(** The rows selected by [WHERE id = $2 AND owner_id = $3]: at most one. *)
Definition owned_row (d : db) (taskId uid : Z) : option task_row :=
  match tasks d !! taskId with
  | Some r => if decide (owner_id r = uid) then Some r else None
  | None => None
  end.

Definition with_tasks (d : db) (m : gmap Z task_row) : db :=
  {| users := users d; tasks := m;
     users_id_seq := users_id_seq d; tasks_id_seq := tasks_id_seq d |}.

(** [UPDATE tasks SET title = $1 WHERE id = $2 AND owner_id = $3];
    the second component is [rowCount]. *)
Definition update_title (d : db) (t : string) (taskId uid : Z) : db * Z :=
  match owned_row d taskId uid with
  | Some r =>
      (with_tasks d (<[taskId := {| owner_id := owner_id r; title := t;
                                    completed := completed r |}]> (tasks d)), 1)
  | None => (d, 0)
  end.

(** [UPDATE tasks SET completed = $1 WHERE id = $2 AND owner_id = $3] *)
Definition update_completed (d : db) (c : bool) (taskId uid : Z) : db * Z :=
  match owned_row d taskId uid with
  | Some r =>
      (with_tasks d (<[taskId := {| owner_id := owner_id r; title := title r;
                                    completed := c |}]> (tasks d)), 1)
  | None => (d, 0)
  end.

(** [DELETE FROM tasks WHERE id = $1 AND owner_id = $2] *)
Definition delete_task (d : db) (taskId uid : Z) : db * Z :=
  match owned_row d taskId uid with
  | Some _ => (with_tasks d (delete taskId (tasks d)), 1)
  | None => (d, 0)
  end.

Section Handlers.
Context `{Runtime}.

(** [createToken(user)]: [expiresIn: "2h"] is 7200 seconds. *)
Definition createToken (uid : Z) (mail : string) (now : Z) : Jwt.token :=
  Jwt.sign uid mail JWT_SECRET (2 * 60 * 60) now.

(** [requireAuth]: the response it sends itself, or the payload it stores
    in [req.user] before calling [next()]. *)
Definition requireAuth (auth : authorization) (now : Z)
    : response + Jwt.claims :=
  match auth with
  | NoAuthorization | OtherScheme _ =>
      inl (Response 401 (ErrorBody "Missing token"))
  | Bearer token =>
      match Jwt.verify token JWT_SECRET now with
      | Some payload => inr payload
      | None => inl (Response 401 (ErrorBody "Invalid or expired token"))
      end
  end.

(** [POST /api/auth/register] *)
Definition register (d : db) (e : env) (b : auth_body) : db * response :=
  let email := toLowerCase (trim (text_field (body_email b))) in
  let password := text_field (body_password b) in
  if negb (includes email "@") then
    (d, Response 400 (ErrorBody "Enter a valid email."))
  else if (String.length password <? 4)%nat then
    (d, Response 400 (ErrorBody "Password must be at least 4 characters."))
  else
    match select_user d email with
    | Some _ => (d, Response 409 (ErrorBody "Email already registered."))
    | None =>
        let password_hash := bcrypt_hashSync (salt e) password 10 in
        let '(d', user) := insert_user d email password_hash in
        let token := createToken (u_id user) (u_email user) (now e) in
        (d', Response 201 (TokenBody token))
    end.

(** [POST /api/auth/login] *)
Definition login (d : db) (e : env) (b : auth_body) : db * response :=
  let email := toLowerCase (trim (text_field (body_email b))) in
  let password := text_field (body_password b) in
  match select_user d email with
  | None => (d, Response 401 (ErrorBody "Invalid credentials."))
  | Some user =>
      let ok := bcrypt_compareSync password (u_password_hash user) in
      if negb ok then (d, Response 401 (ErrorBody "Invalid credentials."))
      else
        let token := createToken (u_id user) (u_email user) (now e) in
        (d, Response 200 (TokenBody token))
  end.

Definition to_json (kv : Z * task_row) : task_json :=
  {| json_id := kv.1; json_title := title kv.2;
     json_completed := completed kv.2 |}.

(** [GET /api/tasks], after [requireAuth] *)
Definition list_tasks (d : db) (uid : Z) : db * response :=
  (d, Response 200 (TasksBody (to_json <$> select_tasks d uid))).

(** [POST /api/tasks], after [requireAuth] *)
Definition create_task (d : db) (uid : Z) (b : create_body) : db * response :=
  let title := trim (text_field (new_title b)) in
  if (String.length title <? 2)%nat then
    (d, Response 400 (ErrorBody "Title must be at least 2 characters."))
  else
    let '(d', created) := insert_task d uid title in
    (d', Response 201 (TaskBody (to_json created))).

(** [PUT /api/tasks/:id], after [requireAuth]. The two statements run one
    after the other; [changed] adds up their row counts. *)
Definition put_task (d : db) (uid taskId : Z) (b : update_body)
    : db * response :=
  let rest (d1 : db) (changed : Z) : db * response :=
    let '(d2, changed) :=
      match body_completed b with
      | JBool completed =>
          let '(d2, rowCount) := update_completed d1 completed taskId uid in
          (d2, changed + rowCount)
      | _ => (d1, changed)
      end in
    if changed =? 0 then (d2, Response 404 (ErrorBody "Task not found."))
    else (d2, Response 200 SuccessBody) in
  match body_title b with
  | JStr title =>
      let trimmed := trim title in
      if (String.length trimmed <? 2)%nat then
        (d, Response 400 (ErrorBody "Title must be at least 2 characters."))
      else
        let '(d1, rowCount) := update_title d trimmed taskId uid in
        rest d1 (0 + rowCount)
  | _ => rest d 0
  end.

(** [DELETE /api/tasks/:id], after [requireAuth] *)
Definition remove_task (d : db) (uid taskId : Z) : db * response :=
  let '(d', rowCount) := delete_task d taskId uid in
  if rowCount =? 0 then (d', Response 404 (ErrorBody "Task not found."))
  else (d', Response 200 SuccessBody).

(** A protected route: [requireAuth] first, then the handler with
    [req.user.id]. *)
Definition protected (d : db) (e : env) (auth : authorization)
    (k : Z -> db * response) : db * response :=
  match requireAuth auth (now e) with
  | inl r => (d, r)
  | inr payload => k (Jwt.id payload)
  end.

(** The router. *)
Definition handle (d : db) (e : env) (r : request) : db * response :=
  match r with
  | GetHealth => (d, Response 200 HealthBody)
  | PostRegister b => register d e b
  | PostLogin b => login d e b
  | GetTasks auth => protected d e auth (fun uid => list_tasks d uid)
  | PostTasks auth b => protected d e auth (fun uid => create_task d uid b)
  | PutTask auth taskId b =>
      protected d e auth (fun uid => put_task d uid taskId b)
  | DeleteTask auth taskId =>
      protected d e auth (fun uid => remove_task d uid taskId)
  end.

(** The server answering a sequence of requests, each at its own time. *)
Fixpoint serve (d : db) (rs : list (env * request)) : db * list response :=
  match rs with
  | [] => (d, [])
  | (e, r) :: rs' =>
      let '(d1, a) := handle d e r in
      let '(d2, answers) := serve d1 rs' in
      (d2, a :: answers)
  end.

End Handlers.
End Postgres.

(** ** The server over SQLite *)

Module Sqlite.
Import Js Http.

(** A row of [tasks] without its primary key:
    [owner_id INTEGER], [title TEXT], [completed INTEGER]. *)
Record task_row := TaskRow {
  owner_id : Z;
  title : string;
  completed : Z
}.

(** The database file: the two tables and, for each, the largest row id
    ever used, which [AUTOINCREMENT] keeps in [sqlite_sequence]. *)
Record db := Db {
  users : list user_row;
  tasks : gmap Z task_row;
  users_seq : Z;
  tasks_seq : Z
}.

(** The database after the two [CREATE TABLE IF NOT EXISTS] on a fresh
    file. *)
Definition fresh : db :=
  {| users := []; tasks := ∅; users_seq := 0; tasks_seq := 0 |}.

(** What [Statement.run] returns. Every statement is prepared on a
    connection of its own, so [lastInsertRowid] is 0 for a statement that
    does not insert. *)
Record run_result := RunResult { changes : Z; lastInsertRowid : Z }.

(** [ORDER BY id DESC] *)
Definition id_desc (a b : Z * task_row) : Prop := b.1 ≤ a.1.

#[global] Instance id_desc_dec : RelDecision id_desc.
Proof. intros a b. unfold id_desc. apply _. Defined.

(** [stmtFindUserByEmail.get(email)] *)
Definition stmtFindUserByEmail (d : db) (mail : string) : option user_row :=
  List.find (fun u => String.eqb (u_email u) mail) (users d).

(** [stmtCreateUser.run(email, password_hash)] *)
Definition stmtCreateUser (d : db) (mail hash : string) : db * run_result :=
  let i := users_seq d + 1 in
  ({| users := users d ++ [{| u_id := i; u_email := mail;
                              u_password_hash := hash |}];
      tasks := tasks d; users_seq := i; tasks_seq := tasks_seq d |},
   {| changes := 1; lastInsertRowid := i |}).

(** [stmtGetAllTasksForUser.all(owner_id)] *)
Definition stmtGetAllTasksForUser (d : db) (uid : Z) : list (Z * task_row) :=
  merge_sort id_desc
    (filter (fun kv => owner_id kv.2 = uid) (map_to_list (tasks d))).

(** [stmtInsertTask.run(owner_id, title)] *)
Definition stmtInsertTask (d : db) (uid : Z) (t : string) : db * run_result :=
  let i := tasks_seq d + 1 in
  ({| users := users d;
      tasks := <[i := {| owner_id := uid; title := t; completed := 0 |}]>
                 (tasks d);
      users_seq := users_seq d; tasks_seq := i |},
   {| changes := 1; lastInsertRowid := i |}).

(** The rows selected by [WHERE id = ? AND owner_id = ?]: at most one. *)
Definition owned_row (d : db) (taskId uid : Z) : option task_row :=
  match tasks d !! taskId with
  | Some r => if decide (owner_id r = uid) then Some r else None
  | None => None
  end.

Definition with_tasks (d : db) (m : gmap Z task_row) : db :=
  {| users := users d; tasks := m;
     users_seq := users_seq d; tasks_seq := tasks_seq d |}.

(** [stmtDeleteTask.run(id, owner_id)] *)
Definition stmtDeleteTask (d : db) (taskId uid : Z) : db * run_result :=
  match owned_row d taskId uid with
  | Some _ =>
      (with_tasks d (delete taskId (tasks d)),
       {| changes := 1; lastInsertRowid := 0 |})
  | None => (d, {| changes := 0; lastInsertRowid := 0 |})
  end.

(** [stmtUpdateTitle.run(title, id, owner_id)] *)
Definition stmtUpdateTitle (d : db) (t : string) (taskId uid : Z)
    : db * run_result :=
  match owned_row d taskId uid with
  | Some r =>
      (with_tasks d (<[taskId := {| owner_id := owner_id r; title := t;
                                    completed := completed r |}]> (tasks d)),
       {| changes := 1; lastInsertRowid := 0 |})
  | None => (d, {| changes := 0; lastInsertRowid := 0 |})
  end.

(** [stmtUpdateCompleted.run(completed, id, owner_id)] *)
Definition stmtUpdateCompleted (d : db) (c : Z) (taskId uid : Z)
    : db * run_result :=
  match owned_row d taskId uid with
  | Some r =>
      (with_tasks d (<[taskId := {| owner_id := owner_id r; title := title r;
                                    completed := c |}]> (tasks d)),
       {| changes := 1; lastInsertRowid := 0 |})
  | None => (d, {| changes := 0; lastInsertRowid := 0 |})
  end.

Section Handlers.
Context `{Runtime}.

(** [createToken(user)]: [expiresIn: "2h"] is 7200 seconds. *)
Definition createToken (uid : Z) (mail : string) (now : Z) : Jwt.token :=
  Jwt.sign uid mail JWT_SECRET (2 * 60 * 60) now.

(** [requireAuth]: the response it sends itself, or the payload it stores
    in [req.user] before calling [next()]. *)
Definition requireAuth (auth : authorization) (now : Z)
    : response + Jwt.claims :=
  match auth with
  | NoAuthorization | OtherScheme _ =>
      inl (Response 401 (ErrorBody "Missing token"))
  | Bearer token =>
      match Jwt.verify token JWT_SECRET now with
      | Some payload => inr payload
      | None => inl (Response 401 (ErrorBody "Invalid or expired token"))
      end
  end.

(** [POST /api/auth/register] *)
Definition register (d : db) (e : env) (b : auth_body) : db * response :=
  let email := toLowerCase (trim (text_field (body_email b))) in
  let password := text_field (body_password b) in
  if negb (includes email "@") then
    (d, Response 400 (ErrorBody "Enter a valid email."))
  else if (String.length password <? 4)%nat then
    (d, Response 400 (ErrorBody "Password must be at least 4 characters."))
  else
    match stmtFindUserByEmail d email with
    | Some _ => (d, Response 409 (ErrorBody "Email already registered."))
    | None =>
        let password_hash := bcrypt_hashSync (salt e) password 10 in
        let '(d', result) := stmtCreateUser d email password_hash in
        let id := lastInsertRowid result in
        let token := createToken id email (now e) in
        (d', Response 201 (TokenBody token))
    end.

(** [POST /api/auth/login] *)
Definition login (d : db) (e : env) (b : auth_body) : db * response :=
  let email := toLowerCase (trim (text_field (body_email b))) in
  let password := text_field (body_password b) in
  match stmtFindUserByEmail d email with
  | None => (d, Response 401 (ErrorBody "Invalid credentials."))
  | Some user =>
      let ok := bcrypt_compareSync password (u_password_hash user) in
      if negb ok then (d, Response 401 (ErrorBody "Invalid credentials."))
      else
        let token := createToken (u_id user) (u_email user) (now e) in
        (d, Response 200 (TokenBody token))
  end.

(** [(t) => ({ ...t, completed: !!t.completed })] *)
Definition to_json (kv : Z * task_row) : task_json :=
  {| json_id := kv.1; json_title := title kv.2;
     json_completed := negb (completed kv.2 =? 0) |}.

(** [GET /api/tasks], after [requireAuth] *)
Definition list_tasks (d : db) (uid : Z) : db * response :=
  let rows := stmtGetAllTasksForUser d uid in
  let tasks := to_json <$> rows in
  (d, Response 200 (TasksBody tasks)).

(** [POST /api/tasks], after [requireAuth] *)
Definition create_task (d : db) (uid : Z) (b : create_body) : db * response :=
  let title := trim (text_field (new_title b)) in
  if (String.length title <? 2)%nat then
    (d, Response 400 (ErrorBody "Title must be at least 2 characters."))
  else
    let '(d', result) := stmtInsertTask d uid title in
    let id := lastInsertRowid result in
    (d', Response 201
           (TaskBody {| json_id := id; json_title := title;
                        json_completed := false |})).

(** [PUT /api/tasks/:id], after [requireAuth]. The two statements run one
    after the other; [changed] adds up their [changes]. *)
Definition put_task (d : db) (uid taskId : Z) (b : update_body)
    : db * response :=
  let rest (d1 : db) (changed : Z) : db * response :=
    let '(d2, changed) :=
      match body_completed b with
      | JBool completed =>
          let '(d2, r) :=
            stmtUpdateCompleted d1 (if completed then 1 else 0) taskId uid in
          (d2, changed + changes r)
      | _ => (d1, changed)
      end in
    if changed =? 0 then (d2, Response 404 (ErrorBody "Task not found."))
    else (d2, Response 200 SuccessBody) in
  match body_title b with
  | JStr title =>
      let trimmed := trim title in
      if (String.length trimmed <? 2)%nat then
        (d, Response 400 (ErrorBody "Title must be at least 2 characters."))
      else
        let '(d1, r) := stmtUpdateTitle d trimmed taskId uid in
        rest d1 (0 + changes r)
  | _ => rest d 0
  end.

(** [DELETE /api/tasks/:id], after [requireAuth] *)
Definition remove_task (d : db) (uid taskId : Z) : db * response :=
  let '(d', r) := stmtDeleteTask d taskId uid in
  if changes r =? 0 then (d', Response 404 (ErrorBody "Task not found."))
  else (d', Response 200 SuccessBody).

(** A protected route: [requireAuth] first, then the handler with
    [req.user.id]. *)
Definition protected (d : db) (e : env) (auth : authorization)
    (k : Z -> db * response) : db * response :=
  match requireAuth auth (now e) with
  | inl r => (d, r)
  | inr payload => k (Jwt.id payload)
  end.

(** The router. *)
Definition handle (d : db) (e : env) (r : request) : db * response :=
  match r with
  | GetHealth => (d, Response 200 HealthBody)
  | PostRegister b => register d e b
  | PostLogin b => login d e b
  | GetTasks auth => protected d e auth (fun uid => list_tasks d uid)
  | PostTasks auth b => protected d e auth (fun uid => create_task d uid b)
  | PutTask auth taskId b =>
      protected d e auth (fun uid => put_task d uid taskId b)
  | DeleteTask auth taskId =>
      protected d e auth (fun uid => remove_task d uid taskId)
  end.

(** The server answering a sequence of requests, each at its own time. *)
Fixpoint serve (d : db) (rs : list (env * request)) : db * list response :=
  match rs with
  | [] => (d, [])
  | (e, r) :: rs' =>
      let '(d1, a) := handle d e r in
      let '(d2, answers) := serve d1 rs' in
      (d2, a :: answers)
  end.

End Handlers.
End Sqlite.

(** ** The client's derived task list ([TaskApp.jsx], [visibleTasks]) *)

Module Client.

(** A task object held in the component state. A field that is absent or
    [null] is [None]. *)
Record task := Task {
  id : option Z;
  title : string;
  completed : bool;
  priority : option string;
  status : option string;
  dueDate : option string;
  due_date : option string
}.

(** [x ?? y] *)
Definition nullish {A} (x : option A) (y : A) : A :=
  match x with Some v => v | None => y end.

(** The property names every object inherits from [Object.prototype]. *)
Definition inherited_keys : list string :=
  ["constructor"; "hasOwnProperty"; "isPrototypeOf"; "propertyIsEnumerable";
   "toLocaleString"; "toString"; "valueOf"; "__proto__";
   "__defineGetter__"; "__defineSetter__"; "__lookupGetter__";
   "__lookupSetter__"].

(** [priorityRank[key] ?? 2] for [priorityRank = { high: 3, medium: 2,
    low: 1 }]. An inherited key yields a value that is not a number
    ([None]). *)
Definition priorityRank (key : string) : option Z :=
  if String.eqb key "high" then Some 3
  else if String.eqb key "medium" then Some 2
  else if String.eqb key "low" then Some 1
  else if bool_decide (key ∈ inherited_keys) then None
  else Some 2.

Section VisibleTasks.
(** [a.localeCompare(b)] depends on the locale of the browser. *)
Variable localeCompare : string -> string -> Z.

(** The comparator given to [sort]. A result that is [NaN] is written 0,
    which is how [sort] reads it. *)
Definition compare (sortBy : string) (a b : task) : Z :=
  if String.eqb sortBy "priority" then
    let ap := priorityRank (nullish (priority a) "medium") in
    let bp := priorityRank (nullish (priority b) "medium") in
    match ap, bp with
    | Some ap, Some bp => bp - ap
    | _, _ => 0
    end
  else if String.eqb sortBy "due_date" then
    let ad := nullish (dueDate a) (nullish (due_date a) "") in
    let bd := nullish (dueDate b) (nullish (due_date b) "") in
    if String.eqb ad "" && String.eqb bd "" then 0
    else if String.eqb ad "" then 1
    else if String.eqb bd "" then -1
    else localeCompare ad bd
  else nullish (id b) 0 - nullish (id a) 0.

(** [Array.prototype.sort(cmp)], which is stable: an element goes before
    the first element it does not compare greater than. *)
Fixpoint sort_insert (cmp : task -> task -> Z) (x : task) (l : list task)
    : list task :=
  match l with
  | [] => [x]
  | y :: l' => if cmp x y <=? 0 then x :: l else y :: sort_insert cmp x l'
  end.

Fixpoint sort (cmp : task -> task -> Z) (l : list task) : list task :=
  match l with
  | [] => []
  | x :: l' => sort_insert cmp x (sort cmp l')
  end.

(** [visibleTasks] *)
Definition visibleTasks (tasks : option (list task))
    (filterStatus sortBy : string) : list task :=
  sort (compare sortBy)
    (List.filter
       (fun t =>
          let s := nullish (status t) "todo" in
          if String.eqb filterStatus "all" then true
          else String.eqb s filterStatus)
       (nullish tasks [])).

End VisibleTasks.
End Client.

(** ** The origin check given to [cors] (both servers) *)

Module Cors.

(** [list.filter(Boolean)] on strings that may be undefined. *)
Fixpoint filterBoolean (l : list (option string)) : list string :=
  match l with
  | [] => []
  | Some (String c s) :: l' => String c s :: filterBoolean l'
  | _ :: l' => filterBoolean l'
  end.

(** [allowedOrigins], given [process.env.CLIENT_URL]. *)
Definition allowedOrigins (CLIENT_URL : option string) : list string :=
  filterBoolean
    [Some "http://localhost:5173"; Some "https://yourtaskist.com";
     Some "https://www.yourtaskist.com"; CLIENT_URL].

(** What the callback [cb] is called with: [cb(null, true)], or
    [cb(new Error(message))]. *)
Inductive verdict :=
  | Allowed
  | Blocked (message : string).

(** [origin(origin, cb)]; an absent [Origin] header is [None]. *)
Definition origin (CLIENT_URL : option string) (o : option string) : verdict :=
  match o with
  | None | Some EmptyString => Allowed
  | Some o =>
      if bool_decide (o ∈ allowedOrigins CLIENT_URL) then Allowed
      else Blocked ("CORS blocked for origin: " +:+ o)
  end.

End Cors.

(** ** The client component ([TaskApp.jsx]) *)

Module TaskApp.
Import Js Http.

(** The component state, one field per [useState], and the ["token"] entry
    of [localStorage]. A token is held as the token itself; [None] stands
    for the empty string and for [undefined], which are both falsy and
    both give a header the servers cannot decode. *)
Record state := State {
  localStorage_token : option Jwt.token;
  token : option Jwt.token;
  mode : string;
  email : string;
  password : string;
  tasks : list Client.task;
  title : string;
  priority : string;
  status : string;
  dueDate : string;
  filterStatus : string;
  sortBy : string;
  editingId : option Z;
  editingTitle : string;
  error : string
}.

(** The state of a component mounted with [stored] in [localStorage]. *)
Definition initial (stored : option Jwt.token) : state :=
  {| localStorage_token := stored; token := stored; mode := "login";
     email := ""; password := ""; tasks := []; title := "";
     priority := "medium"; status := "todo"; dueDate := "";
     filterStatus := "all"; sortBy := "newest"; editingId := None;
     editingTitle := ""; error := "" |}.

Definition setStored (v : option Jwt.token) (s : state) : state :=
  let '(State _ a b c d e f g h i j k l m n) := s in
  State v a b c d e f g h i j k l m n.
Definition setToken (v : option Jwt.token) (s : state) : state :=
  let '(State z _ b c d e f g h i j k l m n) := s in
  State z v b c d e f g h i j k l m n.
Definition setEmail (v : string) (s : state) : state :=
  let '(State z a b _ d e f g h i j k l m n) := s in
  State z a b v d e f g h i j k l m n.
Definition setPassword (v : string) (s : state) : state :=
  let '(State z a b c _ e f g h i j k l m n) := s in
  State z a b c v e f g h i j k l m n.
Definition setTasks (v : list Client.task) (s : state) : state :=
  let '(State z a b c d _ f g h i j k l m n) := s in
  State z a b c d v f g h i j k l m n.
Definition setTitle (v : string) (s : state) : state :=
  let '(State z a b c d e _ g h i j k l m n) := s in
  State z a b c d e v g h i j k l m n.
Definition setPriority (v : string) (s : state) : state :=
  let '(State z a b c d e f _ h i j k l m n) := s in
  State z a b c d e f v h i j k l m n.
Definition setStatus (v : string) (s : state) : state :=
  let '(State z a b c d e f g _ i j k l m n) := s in
  State z a b c d e f g v i j k l m n.
Definition setDueDate (v : string) (s : state) : state :=
  let '(State z a b c d e f g h _ j k l m n) := s in
  State z a b c d e f g h v j k l m n.
Definition setEditingId (v : option Z) (s : state) : state :=
  let '(State z a b c d e f g h i j k _ m n) := s in
  State z a b c d e f g h i j k v m n.
Definition setEditingTitle (v : string) (s : state) : state :=
  let '(State z a b c d e f g h i j k l _ n) := s in
  State z a b c d e f g h i j k l v n.
Definition setError (v : string) (s : state) : state :=
  let '(State z a b c d e f g h i j k l m _) := s in
  State z a b c d e f g h i j k l m v.

(** An [async] function that awaits at most one [fetch]: it returns
    without a request, or sends one and goes on with the response. The
    continuation is [None] where the body is not one the servers send on
    that route, which leaves the model. *)
Inductive fetching :=
  | Done (s : state)
  | Fetch (r : request) (k : response -> option state).

(** [res.ok] *)
Definition ok (res : response) : bool :=
  (200 <=? Http.status res) && (Http.status res <=? 299).

(** [data.error || fallback] *)
Definition error_or (data : body) (fallback : string) : string :=
  match data with
  | ErrorBody EmptyString => fallback
  | ErrorBody e => e
  | _ => fallback
  end.

(** A task object as parsed from the JSON the servers send. *)
Definition parsed (j : task_json) : Client.task :=
  Client.Task (Some (json_id j)) (json_title j) (json_completed j)
              None None None None.

(** [isAuthed] *)
Definition isAuthed (s : state) : bool :=
  match token s with Some _ => true | None => false end.

(** [authHeaders()] *)
Definition authHeaders (s : state) : authorization :=
  match token s with
  | Some t => Bearer t
  | None => Bearer Jwt.Malformed
  end.

(** [loadTasks] *)
Definition loadTasks (s : state) : fetching :=
  if negb (isAuthed s) then Done s
  else
    let s := setError "" s in
    Fetch (GetTasks (authHeaders s)) (fun res =>
      let data := json res in
      if negb (ok res) then
        Some (setError (error_or data "Failed to load tasks") s)
      else
        match data with
        | TasksBody rows => Some (setTasks (parsed <$> rows) s)
        | _ => None
        end).

(** [submitAuth] *)
Definition submitAuth (s : state) : fetching :=
  let s := setError "" s in
  let body := AuthBody (JStr (email s)) (JStr (password s)) in
  let request :=
    if String.eqb (mode s) "register" then PostRegister body
    else PostLogin body in
  Fetch request (fun res =>
    let data := json res in
    if negb (ok res) then Some (setError (error_or data "Auth failed") s)
    else
      let '(t, stored) :=
        match data with
        | TokenBody t => (Some t, Some t)
        | _ => (None, Some Jwt.Malformed)
        end in
      Some (setPassword "" (setEmail "" (setToken t (setStored stored s))))).


(** [addTask] *)
Definition addTask (s : state) : fetching :=
  let trimmed := trim (title s) in
  if (String.length trimmed <? 2)%nat then Done s
  else
    let s := setError "" s in
    Fetch (PostTasks (authHeaders s) (CreateBody (JStr trimmed))) (fun res =>
      let data := json res in
      if negb (ok res) then
        Some (setError (error_or data "Failed to add task") s)
      else
        match data with
        | TaskBody row =>
            Some (setDueDate ""
                    (setStatus "todo"
                       (setPriority "medium"
                          (setTitle ""
                             (setTasks (parsed row :: tasks s) s)))))
        | _ => None
        end).

(** [deleteTask(id)] *)
Definition deleteTask (s : state) (id : Z) : fetching :=
  let s := setError "" s in
  Fetch (DeleteTask (authHeaders s) id) (fun res =>
    let data := json res in
    if negb (ok res) then
      Some (setError (error_or data "Failed to delete task") s)
    else
      Some (setTasks
              (List.filter
                 (fun t => negb (bool_decide (Client.id t = Some id)))
                 (tasks s)) s)).

(** [toggleCompleted(task)], for a task that has an id. *)
Definition toggleCompleted (s : state) (task : Client.task)
    : option fetching :=
  match Client.id task with
  | None => None
  | Some taskId =>
      let s := setError "" s in
      Some
        (Fetch (PutTask (authHeaders s) taskId
                  (UpdateBody JUndefined
                              (JBool (negb (Client.completed task)))))
           (fun res =>
              let data := json res in
              if negb (ok res) then
                Some (setError (error_or data "Failed to update task") s)
              else
                Some (setTasks
                        (List.map
                           (fun t =>
                              if bool_decide (Client.id t = Client.id task)
                              then Client.Task (Client.id t) (Client.title t)
                                     (negb (Client.completed t))
                                     (Client.priority t) (Client.status t)
                                     (Client.dueDate t) (Client.due_date t)
                              else t)
                           (tasks s)) s)))
  end.

(** [startEdit(task)] *)
Definition startEdit (s : state) (task : Client.task) : state :=
  setEditingTitle (Client.title task) (setEditingId (Client.id task) s).

(** [cancelEdit] *)
Definition cancelEdit (s : state) : state :=
  setEditingTitle "" (setEditingId None s).

(** [saveEdit(taskId)] *)
Definition saveEdit (s : state) (taskId : Z) : fetching :=
  let trimmed := trim (editingTitle s) in
  if (String.length trimmed <? 2)%nat then
    Done (setError "Title must be at least 2 characters." s)
  else
    let s := setError "" s in
    Fetch (PutTask (authHeaders s) taskId
             (UpdateBody (JStr trimmed) JUndefined))
      (fun res =>
         let data := json res in
         if negb (ok res) then
           Some (setError (error_or data "Failed to update title") s)
         else
           Some (cancelEdit
                   (setTasks
                      (List.map
                         (fun t =>
                            if bool_decide (Client.id t = Some taskId)
                            then Client.Task (Client.id t) trimmed
                                   (Client.completed t) (Client.priority t)
                                   (Client.status t) (Client.dueDate t)
                                   (Client.due_date t)
                            else t)
                         (tasks s)) s))).

End TaskApp.

(** ** A runtime to run the handlers on examples *)

Module Demo.
Import Js Http.

Fixpoint salt_of (hash : string) : string :=
  match hash with
  | EmptyString => EmptyString
  | String c h => if Ascii.eqb c "$" then EmptyString else String c (salt_of h)
  end.

(** A stand-in for [bcryptjs]: the hash is the salt, a dollar sign and the
    password; comparing recomputes the hash with the salt found in it. *)
Definition runtime : Runtime := {|
  JWT_SECRET := "dev-fallback";
  bcrypt_hashSync := fun salt password _ => salt +:+ "$" +:+ password;
  bcrypt_compareSync := fun password hash =>
    String.eqb hash (salt_of hash +:+ "$" +:+ password)
|}.
#[local] Existing Instance runtime.

Definition alice : auth_body :=
  AuthBody (JStr "  Alice@Example.org ") (JStr "secret").
Definition bob : auth_body := AuthBody (JStr "bob@example.org") (JStr "hunter2").

Definition alice_token (t : Z) : authorization :=
  Bearer (Jwt.sign 1 "alice@example.org" "dev-fallback" 7200 t).
Definition bob_token (t : Z) : authorization :=
  Bearer (Jwt.sign 2 "bob@example.org" "dev-fallback" 7200 t).

(** Alice and Bob register; Alice creates two tasks and Bob one. *)
Definition script : list (env * request) :=
  [ (Env 100 "s1", PostRegister alice);
    (Env 101 "s2", PostRegister bob);
    (Env 102 "", PostTasks (alice_token 100) (CreateBody (JStr " Buy milk ")));
    (Env 103 "", PostTasks (bob_token 101) (CreateBody (JStr "Pay rent")));
    (Env 104 "", PostTasks (alice_token 100) (CreateBody (JStr "Call mum"))) ].

Definition pg : Postgres.db := (Postgres.serve Postgres.initDb script).1.
Definition lite : Sqlite.db := (Sqlite.serve Sqlite.fresh script).1.

End Demo.

(** * Properties *)

(** ** Strings *)

Lemma trim_blank_examples :
  Js.trim "" = "" /\ Js.trim "a" = "a" /\ Js.trim "ok" = "ok" /\
  Js.trim "  a b  " = "a b".
Proof. repeat split; reflexivity. Qed.

Lemma text_field_string s : Js.text_field (Js.JStr s) = s.
Proof.
  unfold Js.text_field, Js.or_else. simpl.
  destruct (String.eqb_spec s ""); simpl; congruence.
Qed.

Lemma text_field_absent : Js.text_field Js.JUndefined = "".
Proof. reflexivity. Qed.

(** A string of white space only. *)
Fixpoint blank (s : string) : bool :=
  match s with
  | EmptyString => true
  | String c s' => Js.isWhiteSpace c && blank s'
  end.

Lemma trimStart_blank ws : blank ws = true -> Js.trimStart ws = "".
Proof.
  induction ws as [|c ws IH]; [done|]. simpl.
  intros [Hc Hws]%andb_prop. rewrite Hc. auto.
Qed.

Lemma trimEnd_blank ws : blank ws = true -> Js.trimEnd ws = "".
Proof.
  induction ws as [|c ws IH]; [done|]. simpl.
  intros [Hc Hws]%andb_prop. by rewrite IH, Hc.
Qed.

Lemma trimStart_blank_app ws s :
  blank ws = true -> Js.trimStart (ws +:+ s) = Js.trimStart s.
Proof.
  induction ws as [|c ws IH]; [done|]. simpl.
  intros [Hc Hws]%andb_prop. rewrite Hc. auto.
Qed.

Lemma trimEnd_app_blank s ws :
  blank ws = true -> Js.trimEnd (s +:+ ws) = Js.trimEnd s.
Proof.
  intros Hws. induction s as [|c s IH]; simpl.
  - by apply trimEnd_blank.
  - by rewrite IH.
Qed.

(** White space around a text does not change what [trim] returns. *)
Lemma trim_surrounded ws1 s ws2 :
  blank ws1 = true -> blank ws2 = true ->
  Js.trim (ws1 +:+ s +:+ ws2) = Js.trim s.
Proof.
  intros H1 H2. unfold Js.trim. rewrite trimStart_blank_app by done.
  induction s as [|c s IH]; simpl.
  - by rewrite trimStart_blank.
  - destruct (Js.isWhiteSpace c); [done|].
    change (String c (s +:+ ws2)) with (String c s +:+ ws2).
    by rewrite trimEnd_app_blank.
Qed.

(** ** Tokens *)

Lemma verify_sign uid mail secret ttl t now :
  Jwt.verify (Jwt.sign uid mail secret ttl t) secret now =
    if t + ttl <=? now then None
    else Some (Jwt.Claims uid mail t (t + ttl)).
Proof.
  unfold Jwt.verify, Jwt.sign. simpl. rewrite String.eqb_refl. simpl.
  reflexivity.
Qed.

(** ** The Postgres server *)

Module PostgresFacts.
Import Js Http Postgres.

(** The title a request asks for, trimmed, and the flag it asks for. *)
Definition requested_title (b : update_body) : option string :=
  match body_title b with JStr s => Some (trim s) | _ => None end.

Definition requested_completed (b : update_body) : option bool :=
  match body_completed b with JBool c => Some c | _ => None end.

(** The row [r] after the field changes of [b]. *)
Definition updated (r : task_row) (b : update_body) : task_row :=
  {| owner_id := owner_id r;
     title := default (title r) (requested_title b);
     completed := default (completed r) (requested_completed b) |}.

(** Every id in use was issued by the sequence. *)
Definition db_wf (d : db) : Prop :=
  forall i r, tasks d !! i = Some r -> i <= tasks_id_seq d.

Lemma with_tasks_id d : with_tasks d (tasks d) = d.
Proof. by destruct d. Qed.

Lemma owned_row_Some d taskId uid r :
  owned_row d taskId uid = Some r <->
  tasks d !! taskId = Some r /\ owner_id r = uid.
Proof.
  unfold owned_row. destruct (tasks d !! taskId) as [r'|]; [|naive_solver].
  case_decide; naive_solver.
Qed.

Lemma owned_row_None d taskId uid :
  owned_row d taskId uid = None <->
  forall r, tasks d !! taskId = Some r -> owner_id r <> uid.
Proof.
  unfold owned_row. destruct (tasks d !! taskId) as [r'|]; [|naive_solver].
  case_decide; naive_solver.
Qed.

Lemma owned_row_with_tasks d taskId uid r :
  owner_id r = uid ->
  owned_row (with_tasks d (<[taskId := r]> (tasks d))) taskId uid = Some r.
Proof.
  intros Ho. apply owned_row_Some. simpl. by rewrite lookup_insert_eq.
Qed.

#[local] Instance id_desc_trans : Transitive id_desc.
Proof. unfold id_desc. intros a b c. lia. Qed.

#[local] Instance id_desc_total : Total id_desc.
Proof. unfold id_desc. intros a b. lia. Qed.

Lemma elem_of_select_tasks d uid i r :
  (i, r) ∈ select_tasks d uid <->
  tasks d !! i = Some r /\ owner_id r = uid.
Proof.
  unfold select_tasks. rewrite merge_sort_Permutation.
  rewrite list_elem_of_filter, elem_of_map_to_list. simpl. tauto.
Qed.

Lemma select_tasks_NoDup d uid : NoDup (select_tasks d uid).*1.
Proof.
  unfold select_tasks. rewrite merge_sort_Permutation.
  apply NoDup_fmap_fst.
  - intros i x y [_ Hx]%list_elem_of_filter [_ Hy]%list_elem_of_filter.
    apply elem_of_map_to_list in Hx, Hy. congruence.
  - apply NoDup_filter, NoDup_map_to_list.
Qed.

Lemma select_tasks_sorted d uid :
  StronglySorted (fun a b => b.1 < a.1) (select_tasks d uid).
Proof.
  pose proof (select_tasks_NoDup d uid) as Hnd.
  assert (Hs : StronglySorted id_desc (select_tasks d uid))
    by (apply StronglySorted_merge_sort; apply _).
  induction Hs as [|a l Hs IH Hall]; [constructor|].
  rewrite fmap_cons in Hnd. apply NoDup_cons in Hnd as [Hnot Hnd].
  constructor; [by apply IH|].
  rewrite Forall_forall in Hall |- *. intros b Hb.
  specialize (Hall b Hb). unfold id_desc in Hall.
  assert (b.1 <> a.1); [|lia].
  intros Heq. apply Hnot. rewrite <- Heq. by apply list_elem_of_fmap_2.
Qed.

Section Handlers.
Context `{Runtime}.

Lemma put_task_rejected d uid taskId b t :
  requested_title b = Some t -> (String.length t < 2)%nat ->
  put_task d uid taskId b =
    (d, Response 400 (ErrorBody "Title must be at least 2 characters.")).
Proof.
  unfold requested_title, put_task. intros Ht Hlen.
  destruct (body_title b); try discriminate. injection Ht as <-.
  apply Nat.ltb_lt in Hlen. by rewrite Hlen.
Qed.

Lemma put_task_nothing d uid taskId b :
  requested_title b = None -> requested_completed b = None ->
  put_task d uid taskId b = (d, Response 404 (ErrorBody "Task not found.")).
Proof.
  unfold requested_title, requested_completed, put_task. intros Ht Hc.
  destruct (body_title b); try discriminate;
    destruct (body_completed b); try discriminate; reflexivity.
Qed.

Lemma put_task_missing d uid taskId b :
  (forall t, requested_title b = Some t -> (2 <= String.length t)%nat) ->
  owned_row d taskId uid = None ->
  put_task d uid taskId b = (d, Response 404 (ErrorBody "Task not found.")).
Proof.
  unfold requested_title, put_task, update_title, update_completed.
  intros Hok Hrow.
  destruct (body_title b) as [| | | |s| |];
    try (destruct (body_completed b); rewrite ?Hrow; reflexivity).
  specialize (Hok _ eq_refl). apply Nat.ltb_ge in Hok. rewrite Hok, Hrow.
  destruct (body_completed b); rewrite ?Hrow; reflexivity.
Qed.

Lemma put_task_found d uid taskId b r :
  (forall t, requested_title b = Some t -> (2 <= String.length t)%nat) ->
  owned_row d taskId uid = Some r ->
  is_Some (requested_title b) \/ is_Some (requested_completed b) ->
  put_task d uid taskId b =
    (with_tasks d (<[taskId := updated r b]> (tasks d)),
     Response 200 SuccessBody).
Proof.
  unfold updated, requested_title, requested_completed, put_task,
    update_title, update_completed.
  intros Hok Hrow Hsome. pose proof Hrow as [_ Ho]%owned_row_Some.
  destruct (body_title b) as [| | | |s| |];
    try (destruct (body_completed b);
         first [ by destruct Hsome as [[? ?]|[? ?]]
               | rewrite Hrow; reflexivity ]).
  specialize (Hok _ eq_refl). apply Nat.ltb_ge in Hok. rewrite Hok, Hrow.
  destruct (body_completed b); try reflexivity.
  rewrite owned_row_with_tasks by done. simpl.
  unfold with_tasks. simpl. by rewrite insert_insert_eq.
Qed.

Lemma remove_task_missing d uid taskId :
  owned_row d taskId uid = None ->
  remove_task d uid taskId = (d, Response 404 (ErrorBody "Task not found.")).
Proof. unfold remove_task, delete_task. by intros ->. Qed.

Lemma remove_task_found d uid taskId r :
  owned_row d taskId uid = Some r ->
  remove_task d uid taskId =
    (with_tasks d (delete taskId (tasks d)), Response 200 SuccessBody).
Proof. unfold remove_task, delete_task. by intros ->. Qed.

Lemma list_tasks_rows d uid :
  exists rows,
    list_tasks d uid = (d, Response 200 (TasksBody rows)) /\
    (forall j, j ∈ rows <->
       exists r, tasks d !! json_id j = Some r /\ owner_id r = uid /\
                 j = TaskJson (json_id j) (title r) (completed r)) /\
    StronglySorted (fun a b => json_id b < json_id a) rows.
Proof.
  exists (to_json <$> select_tasks d uid). split; [reflexivity|]. split.
  - intros j. rewrite list_elem_of_fmap. split.
    + intros ([i r] & -> & Hin). apply elem_of_select_tasks in Hin.
      exists r. simpl. tauto.
    + intros (r & Hr & Ho & Hj). exists (json_id j, r). split; [done|].
      by apply elem_of_select_tasks.
  - eapply StronglySorted_fmap; [|apply select_tasks_sorted]. by intros [] [].
Qed.

Lemma create_task_rejected d uid b :
  (String.length (trim (text_field (new_title b))) < 2)%nat ->
  create_task d uid b =
    (d, Response 400 (ErrorBody "Title must be at least 2 characters.")).
Proof. unfold create_task. intros Hlen%Nat.ltb_lt. by rewrite Hlen. Qed.

Lemma create_task_created d uid b :
  (2 <= String.length (trim (text_field (new_title b))))%nat ->
  create_task d uid b =
    (Db (users d)
        (<[tasks_id_seq d + 1 :=
             TaskRow uid (trim (text_field (new_title b))) false]> (tasks d))
        (users_id_seq d) (tasks_id_seq d + 1),
     Response 201
       (TaskBody (TaskJson (tasks_id_seq d + 1)
                           (trim (text_field (new_title b))) false))).
Proof. unfold create_task. intros Hlen%Nat.ltb_ge. by rewrite Hlen. Qed.

Lemma select_user_None d mail :
  select_user d mail = None <-> forall u, u ∈ users d -> u_email u <> mail.
Proof.
  unfold select_user. split.
  - intros Hnone u Hu%list_elem_of_In Heq.
    apply (find_none _ _ Hnone) in Hu. simpl in Hu.
    rewrite Heq, String.eqb_refl in Hu. discriminate.
  - intros Hall. destruct (find _ _) as [u|] eqn:Hfind; [|done].
    apply find_some in Hfind as [Hu%list_elem_of_In Heq%String.eqb_eq].
    by destruct (Hall u Hu).
Qed.

Lemma select_user_Some d mail u :
  select_user d mail = Some u -> u ∈ users d /\ u_email u = mail.
Proof.
  unfold select_user.
  by intros [Hu%list_elem_of_In Heq%String.eqb_eq]%find_some.
Qed.

Lemma register_no_at d e b :
  includes (toLowerCase (trim (text_field (body_email b)))) "@" = false ->
  register d e b = (d, Response 400 (ErrorBody "Enter a valid email.")).
Proof. unfold register. by intros ->. Qed.

Lemma register_short d e b :
  includes (toLowerCase (trim (text_field (body_email b)))) "@" = true ->
  (String.length (text_field (body_password b)) < 4)%nat ->
  register d e b =
    (d, Response 400 (ErrorBody "Password must be at least 4 characters.")).
Proof. unfold register. intros -> Hlen%Nat.ltb_lt. by rewrite Hlen. Qed.

Lemma register_taken d e b u :
  includes (toLowerCase (trim (text_field (body_email b)))) "@" = true ->
  (4 <= String.length (text_field (body_password b)))%nat ->
  select_user d (toLowerCase (trim (text_field (body_email b)))) = Some u ->
  register d e b = (d, Response 409 (ErrorBody "Email already registered.")).
Proof.
  unfold register. intros -> Hlen%Nat.ltb_ge Hsel. by rewrite Hlen, Hsel.
Qed.

Lemma register_created d e b :
  includes (toLowerCase (trim (text_field (body_email b)))) "@" = true ->
  (4 <= String.length (text_field (body_password b)))%nat ->
  select_user d (toLowerCase (trim (text_field (body_email b)))) = None ->
  register d e b =
    (Db (users d ++
           [UserRow (users_id_seq d + 1)
              (toLowerCase (trim (text_field (body_email b))))
              (bcrypt_hashSync (salt e) (text_field (body_password b)) 10)])
        (tasks d) (users_id_seq d + 1) (tasks_id_seq d),
     Response 201
       (TokenBody
          (createToken (users_id_seq d + 1)
             (toLowerCase (trim (text_field (body_email b)))) (now e)))).
Proof.
  unfold register. intros -> Hlen%Nat.ltb_ge Hsel. by rewrite Hlen, Hsel.
Qed.

Lemma select_user_app d mail row :
  u_email row = mail ->
  is_Some (select_user
             (Db (users d ++ [row]) (tasks d) (users_id_seq d + 1)
                 (tasks_id_seq d)) mail).
Proof.
  intros Hrow. destruct (select_user _ _) eqn:Hsel; [by eexists|].
  rewrite select_user_None in Hsel. destruct (Hsel row); [|done].
  simpl. apply elem_of_app. right. by apply list_elem_of_singleton.
Qed.

Lemma login_unknown d e b :
  select_user d (toLowerCase (trim (text_field (body_email b)))) = None ->
  login d e b = (d, Response 401 (ErrorBody "Invalid credentials.")).
Proof. unfold login. by intros ->. Qed.

Lemma login_mismatch d e b u :
  select_user d (toLowerCase (trim (text_field (body_email b)))) = Some u ->
  bcrypt_compareSync (text_field (body_password b)) (u_password_hash u)
    = false ->
  login d e b = (d, Response 401 (ErrorBody "Invalid credentials.")).
Proof. unfold login. by intros -> ->. Qed.

Lemma login_granted d e b u :
  select_user d (toLowerCase (trim (text_field (body_email b)))) = Some u ->
  bcrypt_compareSync (text_field (body_password b)) (u_password_hash u)
    = true ->
  login d e b =
    (d, Response 200 (TokenBody (createToken (u_id u) (u_email u) (now e)))).
Proof. unfold login. by intros -> ->. Qed.

Lemma requireAuth_issued uid mail t now :
  requireAuth (Bearer (createToken uid mail t)) now =
    if t + 7200 <=? now
    then inl (Response 401 (ErrorBody "Invalid or expired token"))
    else inr (Jwt.Claims uid mail t (t + 7200)).
Proof.
  unfold requireAuth, createToken. rewrite verify_sign.
  change (2 * 60 * 60) with 7200. by destruct (t + 7200 <=? now).
Qed.

(** *** Ids in use stay below the sequence *)

Lemma initDb_wf : db_wf initDb.
Proof. intros i r. simpl. by rewrite lookup_empty. Qed.

Lemma update_title_wf d t taskId uid :
  db_wf d -> db_wf (update_title d t taskId uid).1.
Proof.
  unfold update_title. intros Hwf.
  destruct (owned_row d taskId uid) as [r|] eqn:Hrow; [|done].
  apply owned_row_Some in Hrow as [Hr _]. intros i r'. simpl.
  rewrite lookup_insert. case_decide; [subst i|]; eauto.
Qed.

Lemma update_completed_wf d c taskId uid :
  db_wf d -> db_wf (update_completed d c taskId uid).1.
Proof.
  unfold update_completed. intros Hwf.
  destruct (owned_row d taskId uid) as [r|] eqn:Hrow; [|done].
  apply owned_row_Some in Hrow as [Hr _]. intros i r'. simpl.
  rewrite lookup_insert. case_decide; [subst i|]; eauto.
Qed.

Lemma put_task_wf d uid taskId b : db_wf d -> db_wf (put_task d uid taskId b).1.
Proof.
  intros Hwf. unfold put_task.
  assert (Hrest : forall d1 n, db_wf d1 ->
    db_wf (let '(d2, changed) :=
             match body_completed b with
             | JBool completed =>
                 let '(d2, rowCount) :=
                   update_completed d1 completed taskId uid in
                 (d2, n + rowCount)
             | _ => (d1, n)
             end in
           if changed =? 0
           then (d2, Response 404 (ErrorBody "Task not found."))
           else (d2, Response 200 SuccessBody)).1).
  { intros d1 n Hd1. destruct (body_completed b) as [| |c| | | |];
      try (by destruct (n =? 0)).
    pose proof (update_completed_wf d1 c taskId uid Hd1) as Hc.
    destruct (update_completed d1 c taskId uid) as [d2 k].
    by destruct (n + k =? 0). }
  destruct (body_title b) as [| | | |s| |]; try by apply Hrest.
  destruct (String.length (trim s) <? 2)%nat; [done|].
  pose proof (update_title_wf d (trim s) taskId uid Hwf) as Ht.
  destruct (update_title d (trim s) taskId uid) as [d1 k]. by apply Hrest.
Qed.

Lemma remove_task_wf d uid taskId : db_wf d -> db_wf (remove_task d uid taskId).1.
Proof.
  intros Hwf. unfold remove_task, delete_task.
  destruct (owned_row d taskId uid); [|done].
  intros i r. simpl. intros [_ Hi]%lookup_delete_Some. eauto.
Qed.

Lemma create_task_wf d uid b : db_wf d -> db_wf (create_task d uid b).1.
Proof.
  intros Hwf. unfold create_task, insert_task.
  destruct (String.length _ <? 2)%nat; [done|].
  intros i r. simpl. rewrite lookup_insert. case_decide; [lia|].
  intros Hi. apply Hwf in Hi. lia.
Qed.

Lemma protected_wf d e auth k :
  db_wf d -> (forall uid, db_wf (k uid).1) -> db_wf (protected d e auth k).1.
Proof. intros Hwf Hk. unfold protected. by destruct (requireAuth _ _). Qed.

Lemma register_wf d e b : db_wf d -> db_wf (register d e b).1.
Proof.
  intros Hwf. unfold register, insert_user.
  destruct (negb _); [done|]. destruct (_ <? _)%nat; [done|].
  by destruct (select_user _ _).
Qed.

Lemma login_wf d e b : db_wf d -> db_wf (login d e b).1.
Proof.
  intros Hwf. unfold login. destruct (select_user _ _); [|done].
  by destruct (negb _).
Qed.

Lemma handle_wf d e r : db_wf d -> db_wf (handle d e r).1.
Proof.
  intros Hwf. destruct r as [|b|b|auth|auth b|auth taskId b|auth taskId];
    cbn [handle];
    auto using register_wf, login_wf, protected_wf, create_task_wf,
      put_task_wf, remove_task_wf.
Qed.

Lemma serve_wf d rs : db_wf d -> db_wf (serve d rs).1.
Proof.
  revert d. induction rs as [|[e r] rs IH]; intros d Hwf; [done|]. simpl.
  pose proof (handle_wf d e r Hwf) as H1.
  destruct (handle d e r) as [d1 a]. specialize (IH d1 H1).
  by destruct (serve d1 rs).
Qed.


(** *** What an update or a removal does to the table *)

Lemma put_task_cases d uid taskId b :
  (exists t, requested_title b = Some t /\ (String.length t < 2)%nat /\
     put_task d uid taskId b =
       (d, Response 400 (ErrorBody "Title must be at least 2 characters.")))
  \/ ((owned_row d taskId uid = None \/
       (requested_title b = None /\ requested_completed b = None)) /\
      put_task d uid taskId b =
        (d, Response 404 (ErrorBody "Task not found.")))
  \/ (exists r, owned_row d taskId uid = Some r /\
        put_task d uid taskId b =
          (with_tasks d (<[taskId := updated r b]> (tasks d)),
           Response 200 SuccessBody)).
Proof.
  destruct (requested_title b) as [t|] eqn:Ht.
  - destruct (Nat.lt_ge_cases (String.length t) 2) as [Hlt|Hge].
    + left. exists t. eauto using put_task_rejected.
    + right.
      assert (Hok : forall t', requested_title b = Some t' ->
                               (2 <= String.length t')%nat)
        by (intros t' Ht'; congruence).
      destruct (owned_row d taskId uid) as [r|] eqn:Hrow.
      * right. exists r. split; [done|].
        apply put_task_found; [done..|]. left. by eexists.
      * left. eauto using put_task_missing.
  - right.
    assert (Hok : forall t', requested_title b = Some t' ->
                             (2 <= String.length t')%nat)
      by (intros t' Ht'; congruence).
    destruct (owned_row d taskId uid) as [r|] eqn:Hrow.
    + destruct (requested_completed b) as [c|] eqn:Hc.
      * right. exists r. split; [done|].
        apply put_task_found; [done..|]. right. by eexists.
      * left. eauto using put_task_nothing.
    + left. eauto using put_task_missing.
Qed.

(** A row that [uid] does not own is the same after any update by [uid]. *)
Lemma put_task_frame d uid taskId b i t :
  tasks d !! i = Some t -> owner_id t <> uid ->
  tasks (put_task d uid taskId b).1 !! i = Some t.
Proof.
  intros Hi Ho.
  destruct (put_task_cases d uid taskId b)
    as [(? & _ & _ & ->)|[[_ ->]|(r & Hrow & ->)]]; try done.
  apply owned_row_Some in Hrow as [Hr Hor]. simpl.
  rewrite lookup_insert_ne; [done|]. intros <-. congruence.
Qed.

Lemma remove_task_frame d uid taskId i t :
  tasks d !! i = Some t -> owner_id t <> uid ->
  tasks (remove_task d uid taskId).1 !! i = Some t.
Proof.
  intros Hi Ho. destruct (owned_row d taskId uid) as [r|] eqn:Hrow.
  - rewrite (remove_task_found _ _ _ r) by done.
    apply owned_row_Some in Hrow as [Hr Hor]. simpl.
    rewrite lookup_delete_ne; [done|]. intros <-. congruence.
  - by rewrite remove_task_missing.
Qed.

Lemma create_task_frame d uid b i t :
  db_wf d -> tasks d !! i = Some t ->
  tasks (create_task d uid b).1 !! i = Some t.
Proof.
  intros Hwf Hi. unfold create_task, insert_task.
  destruct (_ <? _)%nat; [done|]. simpl.
  rewrite lookup_insert_ne; [done|]. apply Hwf in Hi. lia.
Qed.

Lemma list_tasks_hides d uid i t :
  tasks d !! i = Some t -> owner_id t <> uid ->
  exists rows,
    list_tasks d uid = (d, Response 200 (TasksBody rows)) /\
    forall j, j ∈ rows -> json_id j <> i.
Proof.
  intros Hi Ho. destruct (list_tasks_rows d uid) as (rows & Heq & Hin & _).
  exists rows. split; [done|]. intros j Hj <-.
  apply Hin in Hj as (r & Hr & Hor & _). congruence.
Qed.


(** *** The tokens the server hands out *)

Lemma select_user_found d mail u :
  u ∈ users d -> u_email u = mail -> is_Some (select_user d mail).
Proof.
  intros Hu Hmail. destruct (select_user d mail) eqn:Hsel; [by eexists|].
  rewrite select_user_None in Hsel. by destruct (Hsel u Hu).
Qed.

Lemma register_token d e b d' tok :
  register d e b = (d', Response 201 (TokenBody tok)) ->
  exists u, u ∈ users d' /\
    tok = Jwt.Signed (Jwt.Claims (u_id u) (u_email u) (now e) (now e + 7200))
                     JWT_SECRET.
Proof.
  unfold register, insert_user. destruct (negb _); [discriminate|].
  destruct (_ <? _)%nat; [discriminate|].
  destruct (select_user _ _); [discriminate|]. intros [= <- <-].
  eexists (UserRow _ _ _). split; [|reflexivity]. simpl.
  apply elem_of_app. right. by apply list_elem_of_singleton.
Qed.

Lemma login_token d e b d' tok :
  login d e b = (d', Response 200 (TokenBody tok)) ->
  exists u, u ∈ users d' /\
    tok = Jwt.Signed (Jwt.Claims (u_id u) (u_email u) (now e) (now e + 7200))
                     JWT_SECRET.
Proof.
  unfold login. destruct (select_user _ _) as [u|] eqn:Hsel; [|discriminate].
  destruct (negb _); [discriminate|]. intros [= <- <-].
  apply select_user_Some in Hsel as [Hu _]. by exists u.
Qed.

Lemma requireAuth_signed uid mail t now :
  requireAuth (Bearer (Jwt.Signed (Jwt.Claims uid mail t (t + 7200))
                                  JWT_SECRET)) now =
    if t + 7200 <=? now
    then inl (Response 401 (ErrorBody "Invalid or expired token"))
    else inr (Jwt.Claims uid mail t (t + 7200)).
Proof. apply (requireAuth_issued uid mail t now). Qed.

(** *** Updates and removals touch the caller's row only *)





End Handlers.
End PostgresFacts.

(** ** The SQLite server *)

Module SqliteFacts.
Import Js Http Sqlite.

(** The title a request asks for, trimmed, and the flag it asks for. *)
Definition requested_title (b : update_body) : option string :=
  match body_title b with JStr s => Some (trim s) | _ => None end.

Definition requested_completed (b : update_body) : option Z :=
  match body_completed b with
  | JBool c => Some (if c then 1 else 0)
  | _ => None
  end.

(** The row [r] after the field changes of [b]. *)
Definition updated (r : task_row) (b : update_body) : task_row :=
  {| owner_id := owner_id r;
     title := default (title r) (requested_title b);
     completed := default (completed r) (requested_completed b) |}.

(** Every id in use was issued by the sequence. *)
Definition db_wf (d : db) : Prop :=
  forall i r, tasks d !! i = Some r -> i <= tasks_seq d.

Lemma lite_with_tasks_id d : with_tasks d (tasks d) = d.
Proof. by destruct d. Qed.

Lemma lite_owned_row_Some d taskId uid r :
  owned_row d taskId uid = Some r <->
  tasks d !! taskId = Some r /\ owner_id r = uid.
Proof.
  unfold owned_row. destruct (tasks d !! taskId) as [r'|]; [|naive_solver].
  case_decide; naive_solver.
Qed.

Lemma lite_owned_row_None d taskId uid :
  owned_row d taskId uid = None <->
  forall r, tasks d !! taskId = Some r -> owner_id r <> uid.
Proof.
  unfold owned_row. destruct (tasks d !! taskId) as [r'|]; [|naive_solver].
  case_decide; naive_solver.
Qed.

Lemma lite_owned_row_with_tasks d taskId uid r :
  owner_id r = uid ->
  owned_row (with_tasks d (<[taskId := r]> (tasks d))) taskId uid = Some r.
Proof.
  intros Ho. apply lite_owned_row_Some. simpl. by rewrite lookup_insert_eq.
Qed.

#[local] Instance id_desc_trans : Transitive id_desc.
Proof. unfold id_desc. intros a b c. lia. Qed.

#[local] Instance id_desc_total : Total id_desc.
Proof. unfold id_desc. intros a b. lia. Qed.

Lemma elem_of_stmtGetAllTasksForUser d uid i r :
  (i, r) ∈ stmtGetAllTasksForUser d uid <->
  tasks d !! i = Some r /\ owner_id r = uid.
Proof.
  unfold stmtGetAllTasksForUser. rewrite merge_sort_Permutation.
  rewrite list_elem_of_filter, elem_of_map_to_list. simpl. tauto.
Qed.

Lemma stmtGetAllTasksForUser_NoDup d uid : NoDup (stmtGetAllTasksForUser d uid).*1.
Proof.
  unfold stmtGetAllTasksForUser. rewrite merge_sort_Permutation.
  apply NoDup_fmap_fst.
  - intros i x y [_ Hx]%list_elem_of_filter [_ Hy]%list_elem_of_filter.
    apply elem_of_map_to_list in Hx, Hy. congruence.
  - apply NoDup_filter, NoDup_map_to_list.
Qed.

Lemma stmtGetAllTasksForUser_sorted d uid :
  StronglySorted (fun a b => b.1 < a.1) (stmtGetAllTasksForUser d uid).
Proof.
  pose proof (stmtGetAllTasksForUser_NoDup d uid) as Hnd.
  assert (Hs : StronglySorted id_desc (stmtGetAllTasksForUser d uid))
    by (apply StronglySorted_merge_sort; apply _).
  induction Hs as [|a l Hs IH Hall]; [constructor|].
  rewrite fmap_cons in Hnd. apply NoDup_cons in Hnd as [Hnot Hnd].
  constructor; [by apply IH|].
  rewrite Forall_forall in Hall |- *. intros b Hb.
  specialize (Hall b Hb). unfold id_desc in Hall.
  assert (b.1 <> a.1); [|lia].
  intros Heq. apply Hnot. rewrite <- Heq. by apply list_elem_of_fmap_2.
Qed.

Section Handlers.
Context `{Runtime}.

Lemma lite_put_task_rejected d uid taskId b t :
  requested_title b = Some t -> (String.length t < 2)%nat ->
  put_task d uid taskId b =
    (d, Response 400 (ErrorBody "Title must be at least 2 characters.")).
Proof.
  unfold requested_title, put_task. intros Ht Hlen.
  destruct (body_title b); try discriminate. injection Ht as <-.
  apply Nat.ltb_lt in Hlen. by rewrite Hlen.
Qed.

Lemma lite_put_task_nothing d uid taskId b :
  requested_title b = None -> requested_completed b = None ->
  put_task d uid taskId b = (d, Response 404 (ErrorBody "Task not found.")).
Proof.
  unfold requested_title, requested_completed, put_task. intros Ht Hc.
  destruct (body_title b); try discriminate;
    destruct (body_completed b); try discriminate; reflexivity.
Qed.

Lemma lite_put_task_missing d uid taskId b :
  (forall t, requested_title b = Some t -> (2 <= String.length t)%nat) ->
  owned_row d taskId uid = None ->
  put_task d uid taskId b = (d, Response 404 (ErrorBody "Task not found.")).
Proof.
  unfold requested_title, put_task, stmtUpdateTitle, stmtUpdateCompleted.
  intros Hok Hrow.
  destruct (body_title b) as [| | | |s| |];
    try (destruct (body_completed b); rewrite ?Hrow; reflexivity).
  specialize (Hok _ eq_refl). apply Nat.ltb_ge in Hok. rewrite Hok, Hrow.
  destruct (body_completed b); rewrite ?Hrow; reflexivity.
Qed.

Lemma lite_put_task_found d uid taskId b r :
  (forall t, requested_title b = Some t -> (2 <= String.length t)%nat) ->
  owned_row d taskId uid = Some r ->
  is_Some (requested_title b) \/ is_Some (requested_completed b) ->
  put_task d uid taskId b =
    (with_tasks d (<[taskId := updated r b]> (tasks d)),
     Response 200 SuccessBody).
Proof.
  unfold updated, requested_title, requested_completed, put_task,
    stmtUpdateTitle, stmtUpdateCompleted.
  intros Hok Hrow Hsome. pose proof Hrow as [_ Ho]%lite_owned_row_Some.
  destruct (body_title b) as [| | | |s| |];
    try (destruct (body_completed b);
         first [ by destruct Hsome as [[? ?]|[? ?]]
               | rewrite Hrow; reflexivity ]).
  specialize (Hok _ eq_refl). apply Nat.ltb_ge in Hok. rewrite Hok, Hrow.
  destruct (body_completed b); try reflexivity.
  rewrite lite_owned_row_with_tasks by done. simpl.
  unfold with_tasks. simpl. by rewrite insert_insert_eq.
Qed.

Lemma lite_remove_task_missing d uid taskId :
  owned_row d taskId uid = None ->
  remove_task d uid taskId = (d, Response 404 (ErrorBody "Task not found.")).
Proof. unfold remove_task, stmtDeleteTask. by intros ->. Qed.

Lemma lite_remove_task_found d uid taskId r :
  owned_row d taskId uid = Some r ->
  remove_task d uid taskId =
    (with_tasks d (delete taskId (tasks d)), Response 200 SuccessBody).
Proof. unfold remove_task, stmtDeleteTask. by intros ->. Qed.

Lemma lite_list_tasks_rows d uid :
  exists rows,
    list_tasks d uid = (d, Response 200 (TasksBody rows)) /\
    (forall j, j ∈ rows <->
       exists r, tasks d !! json_id j = Some r /\ owner_id r = uid /\
                 j = TaskJson (json_id j) (title r)
                       (negb (completed r =? 0))) /\
    StronglySorted (fun a b => json_id b < json_id a) rows.
Proof.
  exists (to_json <$> stmtGetAllTasksForUser d uid). split; [reflexivity|]. split.
  - intros j. rewrite list_elem_of_fmap. split.
    + intros ([i r] & -> & Hin). apply elem_of_stmtGetAllTasksForUser in Hin.
      exists r. simpl. tauto.
    + intros (r & Hr & Ho & Hj). exists (json_id j, r). split; [done|].
      by apply elem_of_stmtGetAllTasksForUser.
  - eapply StronglySorted_fmap; [|apply stmtGetAllTasksForUser_sorted]. by intros [] [].
Qed.

Lemma lite_create_task_rejected d uid b :
  (String.length (trim (text_field (new_title b))) < 2)%nat ->
  create_task d uid b =
    (d, Response 400 (ErrorBody "Title must be at least 2 characters.")).
Proof. unfold create_task. intros Hlen%Nat.ltb_lt. by rewrite Hlen. Qed.

Lemma lite_create_task_created d uid b :
  (2 <= String.length (trim (text_field (new_title b))))%nat ->
  create_task d uid b =
    (Db (users d)
        (<[tasks_seq d + 1 :=
             TaskRow uid (trim (text_field (new_title b))) 0]> (tasks d))
        (users_seq d) (tasks_seq d + 1),
     Response 201
       (TaskBody (TaskJson (tasks_seq d + 1)
                           (trim (text_field (new_title b))) false))).
Proof. unfold create_task. intros Hlen%Nat.ltb_ge. by rewrite Hlen. Qed.

Lemma stmtFindUserByEmail_None d mail :
  stmtFindUserByEmail d mail = None <-> forall u, u ∈ users d -> u_email u <> mail.
Proof.
  unfold stmtFindUserByEmail. split.
  - intros Hnone u Hu%list_elem_of_In Heq.
    apply (find_none _ _ Hnone) in Hu. simpl in Hu.
    rewrite Heq, String.eqb_refl in Hu. discriminate.
  - intros Hall. destruct (find _ _) as [u|] eqn:Hfind; [|done].
    apply find_some in Hfind as [Hu%list_elem_of_In Heq%String.eqb_eq].
    by destruct (Hall u Hu).
Qed.

Lemma stmtFindUserByEmail_Some d mail u :
  stmtFindUserByEmail d mail = Some u -> u ∈ users d /\ u_email u = mail.
Proof.
  unfold stmtFindUserByEmail.
  by intros [Hu%list_elem_of_In Heq%String.eqb_eq]%find_some.
Qed.

Lemma lite_register_no_at d e b :
  includes (toLowerCase (trim (text_field (body_email b)))) "@" = false ->
  register d e b = (d, Response 400 (ErrorBody "Enter a valid email.")).
Proof. unfold register. by intros ->. Qed.

Lemma lite_register_short d e b :
  includes (toLowerCase (trim (text_field (body_email b)))) "@" = true ->
  (String.length (text_field (body_password b)) < 4)%nat ->
  register d e b =
    (d, Response 400 (ErrorBody "Password must be at least 4 characters.")).
Proof. unfold register. intros -> Hlen%Nat.ltb_lt. by rewrite Hlen. Qed.

Lemma lite_register_taken d e b u :
  includes (toLowerCase (trim (text_field (body_email b)))) "@" = true ->
  (4 <= String.length (text_field (body_password b)))%nat ->
  stmtFindUserByEmail d (toLowerCase (trim (text_field (body_email b)))) = Some u ->
  register d e b = (d, Response 409 (ErrorBody "Email already registered.")).
Proof.
  unfold register. intros -> Hlen%Nat.ltb_ge Hsel. by rewrite Hlen, Hsel.
Qed.

Lemma lite_register_created d e b :
  includes (toLowerCase (trim (text_field (body_email b)))) "@" = true ->
  (4 <= String.length (text_field (body_password b)))%nat ->
  stmtFindUserByEmail d (toLowerCase (trim (text_field (body_email b)))) = None ->
  register d e b =
    (Db (users d ++
           [UserRow (users_seq d + 1)
              (toLowerCase (trim (text_field (body_email b))))
              (bcrypt_hashSync (salt e) (text_field (body_password b)) 10)])
        (tasks d) (users_seq d + 1) (tasks_seq d),
     Response 201
       (TokenBody
          (createToken (users_seq d + 1)
             (toLowerCase (trim (text_field (body_email b)))) (now e)))).
Proof.
  unfold register. intros -> Hlen%Nat.ltb_ge Hsel. by rewrite Hlen, Hsel.
Qed.

Lemma stmtFindUserByEmail_app d mail row :
  u_email row = mail ->
  is_Some (stmtFindUserByEmail
             (Db (users d ++ [row]) (tasks d) (users_seq d + 1)
                 (tasks_seq d)) mail).
Proof.
  intros Hrow. destruct (stmtFindUserByEmail _ _) eqn:Hsel; [by eexists|].
  rewrite stmtFindUserByEmail_None in Hsel. destruct (Hsel row); [|done].
  simpl. apply elem_of_app. right. by apply list_elem_of_singleton.
Qed.

Lemma lite_login_unknown d e b :
  stmtFindUserByEmail d (toLowerCase (trim (text_field (body_email b)))) = None ->
  login d e b = (d, Response 401 (ErrorBody "Invalid credentials.")).
Proof. unfold login. by intros ->. Qed.

Lemma lite_login_mismatch d e b u :
  stmtFindUserByEmail d (toLowerCase (trim (text_field (body_email b)))) = Some u ->
  bcrypt_compareSync (text_field (body_password b)) (u_password_hash u)
    = false ->
  login d e b = (d, Response 401 (ErrorBody "Invalid credentials.")).
Proof. unfold login. by intros -> ->. Qed.

Lemma lite_login_granted d e b u :
  stmtFindUserByEmail d (toLowerCase (trim (text_field (body_email b)))) = Some u ->
  bcrypt_compareSync (text_field (body_password b)) (u_password_hash u)
    = true ->
  login d e b =
    (d, Response 200 (TokenBody (createToken (u_id u) (u_email u) (now e)))).
Proof. unfold login. by intros -> ->. Qed.

Lemma lite_requireAuth_issued uid mail t now :
  requireAuth (Bearer (createToken uid mail t)) now =
    if t + 7200 <=? now
    then inl (Response 401 (ErrorBody "Invalid or expired token"))
    else inr (Jwt.Claims uid mail t (t + 7200)).
Proof.
  unfold requireAuth, createToken. rewrite verify_sign.
  change (2 * 60 * 60) with 7200. by destruct (t + 7200 <=? now).
Qed.

(** *** Ids in use stay below the sequence *)

Lemma fresh_wf : db_wf fresh.
Proof. intros i r. simpl. by rewrite lookup_empty. Qed.

Lemma stmtUpdateTitle_wf d t taskId uid :
  db_wf d -> db_wf (stmtUpdateTitle d t taskId uid).1.
Proof.
  unfold stmtUpdateTitle. intros Hwf.
  destruct (owned_row d taskId uid) as [r|] eqn:Hrow; [|done].
  apply lite_owned_row_Some in Hrow as [Hr _]. intros i r'. simpl.
  rewrite lookup_insert. case_decide; [subst i|]; eauto.
Qed.

Lemma stmtUpdateCompleted_wf d c taskId uid :
  db_wf d -> db_wf (stmtUpdateCompleted d c taskId uid).1.
Proof.
  unfold stmtUpdateCompleted. intros Hwf.
  destruct (owned_row d taskId uid) as [r|] eqn:Hrow; [|done].
  apply lite_owned_row_Some in Hrow as [Hr _]. intros i r'. simpl.
  rewrite lookup_insert. case_decide; [subst i|]; eauto.
Qed.

Lemma lite_put_task_wf d uid taskId b : db_wf d -> db_wf (put_task d uid taskId b).1.
Proof.
  intros Hwf. unfold put_task.
  assert (Hrest : forall d1 n, db_wf d1 ->
    db_wf (let '(d2, changed) :=
             match body_completed b with
             | JBool completed =>
                 let '(d2, r) :=
                   stmtUpdateCompleted d1 (if completed then 1 else 0)
                     taskId uid in
                 (d2, n + changes r)
             | _ => (d1, n)
             end in
           if changed =? 0
           then (d2, Response 404 (ErrorBody "Task not found."))
           else (d2, Response 200 SuccessBody)).1).
  { intros d1 n Hd1. destruct (body_completed b) as [| |c| | | |];
      try (by destruct (n =? 0)).
    pose proof (stmtUpdateCompleted_wf d1 (if c then 1 else 0) taskId uid Hd1)
      as Hc.
    destruct (stmtUpdateCompleted d1 _ taskId uid) as [d2 k].
    by destruct (n + changes k =? 0). }
  destruct (body_title b) as [| | | |s| |]; try by apply Hrest.
  destruct (String.length (trim s) <? 2)%nat; [done|].
  pose proof (stmtUpdateTitle_wf d (trim s) taskId uid Hwf) as Ht.
  destruct (stmtUpdateTitle d (trim s) taskId uid) as [d1 k]. by apply Hrest.
Qed.

Lemma lite_remove_task_wf d uid taskId : db_wf d -> db_wf (remove_task d uid taskId).1.
Proof.
  intros Hwf. unfold remove_task, stmtDeleteTask.
  destruct (owned_row d taskId uid); [|done].
  intros i r. simpl. intros [_ Hi]%lookup_delete_Some. eauto.
Qed.

Lemma lite_create_task_wf d uid b : db_wf d -> db_wf (create_task d uid b).1.
Proof.
  intros Hwf. unfold create_task, stmtInsertTask.
  destruct (String.length _ <? 2)%nat; [done|].
  intros i r. simpl. rewrite lookup_insert. case_decide; [lia|].
  intros Hi. apply Hwf in Hi. lia.
Qed.

Lemma lite_protected_wf d e auth k :
  db_wf d -> (forall uid, db_wf (k uid).1) -> db_wf (protected d e auth k).1.
Proof. intros Hwf Hk. unfold protected. by destruct (requireAuth _ _). Qed.

Lemma lite_register_wf d e b : db_wf d -> db_wf (register d e b).1.
Proof.
  intros Hwf. unfold register, stmtCreateUser.
  destruct (negb _); [done|]. destruct (_ <? _)%nat; [done|].
  by destruct (stmtFindUserByEmail _ _).
Qed.

Lemma lite_login_wf d e b : db_wf d -> db_wf (login d e b).1.
Proof.
  intros Hwf. unfold login. destruct (stmtFindUserByEmail _ _); [|done].
  by destruct (negb _).
Qed.

Lemma lite_handle_wf d e r : db_wf d -> db_wf (handle d e r).1.
Proof.
  intros Hwf. destruct r as [|b|b|auth|auth b|auth taskId b|auth taskId];
    cbn [handle];
    auto using lite_register_wf, lite_login_wf, lite_protected_wf, lite_create_task_wf,
      lite_put_task_wf, lite_remove_task_wf.
Qed.

Lemma lite_serve_wf d rs : db_wf d -> db_wf (serve d rs).1.
Proof.
  revert d. induction rs as [|[e r] rs IH]; intros d Hwf; [done|]. simpl.
  pose proof (lite_handle_wf d e r Hwf) as H1.
  destruct (handle d e r) as [d1 a]. specialize (IH d1 H1).
  by destruct (serve d1 rs).
Qed.


(** *** What an update or a removal does to the table *)

Lemma lite_put_task_cases d uid taskId b :
  (exists t, requested_title b = Some t /\ (String.length t < 2)%nat /\
     put_task d uid taskId b =
       (d, Response 400 (ErrorBody "Title must be at least 2 characters.")))
  \/ ((owned_row d taskId uid = None \/
       (requested_title b = None /\ requested_completed b = None)) /\
      put_task d uid taskId b =
        (d, Response 404 (ErrorBody "Task not found.")))
  \/ (exists r, owned_row d taskId uid = Some r /\
        put_task d uid taskId b =
          (with_tasks d (<[taskId := updated r b]> (tasks d)),
           Response 200 SuccessBody)).
Proof.
  destruct (requested_title b) as [t|] eqn:Ht.
  - destruct (Nat.lt_ge_cases (String.length t) 2) as [Hlt|Hge].
    + left. exists t. eauto using lite_put_task_rejected.
    + right.
      assert (Hok : forall t', requested_title b = Some t' ->
                               (2 <= String.length t')%nat)
        by (intros t' Ht'; congruence).
      destruct (owned_row d taskId uid) as [r|] eqn:Hrow.
      * right. exists r. split; [done|].
        apply lite_put_task_found; [done..|]. left. by eexists.
      * left. eauto using lite_put_task_missing.
  - right.
    assert (Hok : forall t', requested_title b = Some t' ->
                             (2 <= String.length t')%nat)
      by (intros t' Ht'; congruence).
    destruct (owned_row d taskId uid) as [r|] eqn:Hrow.
    + destruct (requested_completed b) as [c|] eqn:Hc.
      * right. exists r. split; [done|].
        apply lite_put_task_found; [done..|]. right. by eexists.
      * left. eauto using lite_put_task_nothing.
    + left. eauto using lite_put_task_missing.
Qed.

(** A row that [uid] does not own is the same after any update by [uid]. *)
Lemma lite_put_task_frame d uid taskId b i t :
  tasks d !! i = Some t -> owner_id t <> uid ->
  tasks (put_task d uid taskId b).1 !! i = Some t.
Proof.
  intros Hi Ho.
  destruct (lite_put_task_cases d uid taskId b)
    as [(? & _ & _ & ->)|[[_ ->]|(r & Hrow & ->)]]; try done.
  apply lite_owned_row_Some in Hrow as [Hr Hor]. simpl.
  rewrite lookup_insert_ne; [done|]. intros <-. congruence.
Qed.

Lemma lite_remove_task_frame d uid taskId i t :
  tasks d !! i = Some t -> owner_id t <> uid ->
  tasks (remove_task d uid taskId).1 !! i = Some t.
Proof.
  intros Hi Ho. destruct (owned_row d taskId uid) as [r|] eqn:Hrow.
  - rewrite (lite_remove_task_found _ _ _ r) by done.
    apply lite_owned_row_Some in Hrow as [Hr Hor]. simpl.
    rewrite lookup_delete_ne; [done|]. intros <-. congruence.
  - by rewrite lite_remove_task_missing.
Qed.

Lemma lite_create_task_frame d uid b i t :
  db_wf d -> tasks d !! i = Some t ->
  tasks (create_task d uid b).1 !! i = Some t.
Proof.
  intros Hwf Hi. unfold create_task, stmtInsertTask.
  destruct (_ <? _)%nat; [done|]. simpl.
  rewrite lookup_insert_ne; [done|]. apply Hwf in Hi. lia.
Qed.

Lemma lite_list_tasks_hides d uid i t :
  tasks d !! i = Some t -> owner_id t <> uid ->
  exists rows,
    list_tasks d uid = (d, Response 200 (TasksBody rows)) /\
    forall j, j ∈ rows -> json_id j <> i.
Proof.
  intros Hi Ho. destruct (lite_list_tasks_rows d uid) as (rows & Heq & Hin & _).
  exists rows. split; [done|]. intros j Hj <-.
  apply Hin in Hj as (r & Hr & Hor & _). congruence.
Qed.


(** *** The tokens the server hands out *)

Lemma stmtFindUserByEmail_found d mail u :
  u ∈ users d -> u_email u = mail -> is_Some (stmtFindUserByEmail d mail).
Proof.
  intros Hu Hmail. destruct (stmtFindUserByEmail d mail) eqn:Hsel; [by eexists|].
  rewrite stmtFindUserByEmail_None in Hsel. by destruct (Hsel u Hu).
Qed.

Lemma lite_register_token d e b d' tok :
  register d e b = (d', Response 201 (TokenBody tok)) ->
  exists u, u ∈ users d' /\
    tok = Jwt.Signed (Jwt.Claims (u_id u) (u_email u) (now e) (now e + 7200))
                     JWT_SECRET.
Proof.
  unfold register, stmtCreateUser. destruct (negb _); [discriminate|].
  destruct (_ <? _)%nat; [discriminate|].
  destruct (stmtFindUserByEmail _ _); [discriminate|]. intros [= <- <-].
  eexists (UserRow _ _ _). split; [|reflexivity]. simpl.
  apply elem_of_app. right. by apply list_elem_of_singleton.
Qed.

Lemma lite_login_token d e b d' tok :
  login d e b = (d', Response 200 (TokenBody tok)) ->
  exists u, u ∈ users d' /\
    tok = Jwt.Signed (Jwt.Claims (u_id u) (u_email u) (now e) (now e + 7200))
                     JWT_SECRET.
Proof.
  unfold login. destruct (stmtFindUserByEmail _ _) as [u|] eqn:Hsel; [|discriminate].
  destruct (negb _); [discriminate|]. intros [= <- <-].
  apply stmtFindUserByEmail_Some in Hsel as [Hu _]. by exists u.
Qed.

Lemma lite_requireAuth_signed uid mail t now :
  requireAuth (Bearer (Jwt.Signed (Jwt.Claims uid mail t (t + 7200))
                                  JWT_SECRET)) now =
    if t + 7200 <=? now
    then inl (Response 401 (ErrorBody "Invalid or expired token"))
    else inr (Jwt.Claims uid mail t (t + 7200)).
Proof. apply (lite_requireAuth_issued uid mail t now). Qed.

(** *** Updates and removals touch the caller's row only *)





End Handlers.
End SqliteFacts.

(** ** The two servers side by side *)

Module Variants.
Import Js Http.
#[local] Existing Instances PostgresFacts.id_desc_trans
  PostgresFacts.id_desc_total SqliteFacts.id_desc_trans
  SqliteFacts.id_desc_total.










Section Handlers.
Context `{Runtime}.









End Handlers.
End Variants.

(** ** The client's view *)

Module ClientFacts.
Import Client.



End ClientFacts.

(** * The claims *)

Import Js Http.




(** C7. An update whose title is a string that trims to fewer than 2
    characters is answered 400 before any statement runs: the database,
    and so the title and the flag of every task, is as it was, also when
    the body carries a boolean [completed]. *)
Theorem invalid_title_changes_nothing
    (dp : Postgres.db) (ds : Sqlite.db) (uid taskId : Z) (s : string)
    (c : jsval) :
  (String.length (trim s) < 2)%nat ->
  Postgres.put_task dp uid taskId (UpdateBody (JStr s) c) =
    (dp, Response 400 (ErrorBody "Title must be at least 2 characters.")) /\
  Sqlite.put_task ds uid taskId (UpdateBody (JStr s) c) =
    (ds, Response 400 (ErrorBody "Title must be at least 2 characters.")).
Proof.
  intros Hlen. split.
  - by apply (PostgresFacts.put_task_rejected _ _ _ _ (trim s)).
  - by apply (SqliteFacts.lite_put_task_rejected _ _ _ _ (trim s)).
Qed.

(** Alice sends title [" a "] together with [completed: true] for her own
    task 1: 400, and task 1 is still open. *)
Lemma invalid_title_changes_nothing_witness :
  (String.length (trim " a ") < 2)%nat /\
  Postgres.put_task Demo.pg 1 1 (UpdateBody (JStr " a ") (JBool true)) =
    (Demo.pg, Response 400 (ErrorBody "Title must be at least 2 characters."))
  /\
  Sqlite.put_task Demo.lite 1 1 (UpdateBody (JStr " a ") (JBool true)) =
    (Demo.lite, Response 400 (ErrorBody "Title must be at least 2 characters.")).
Proof.
  split; [simpl; lia|].
  apply (invalid_title_changes_nothing Demo.pg Demo.lite 1 1 " a " (JBool true)).
  simpl; lia.
Defined.

(** C2. A login that fails because no user has the e-mail and a login that
    fails because the password does not match the stored hash get the same
    response, 401 with "Invalid credentials.", on both servers, whatever
    the databases and the submitted bodies; neither changes the
    database. *)
Theorem login_failures_indistinguishable `{Runtime}
    (e1 e2 : env) (b1 b2 : auth_body) (u : user_row) :
  let mail1 := toLowerCase (trim (text_field (body_email b1))) in
  let mail2 := toLowerCase (trim (text_field (body_email b2))) in
  (forall (dp1 dp2 : Postgres.db),
     (forall v, v ∈ Postgres.users dp1 -> u_email v <> mail1) ->
     Postgres.select_user dp2 mail2 = Some u ->
     bcrypt_compareSync (text_field (body_password b2)) (u_password_hash u)
       = false ->
     Postgres.login dp1 e1 b1 =
       (dp1, Response 401 (ErrorBody "Invalid credentials.")) /\
     Postgres.login dp2 e2 b2 =
       (dp2, Response 401 (ErrorBody "Invalid credentials."))) /\
  (forall (ds1 ds2 : Sqlite.db),
     (forall v, v ∈ Sqlite.users ds1 -> u_email v <> mail1) ->
     Sqlite.stmtFindUserByEmail ds2 mail2 = Some u ->
     bcrypt_compareSync (text_field (body_password b2)) (u_password_hash u)
       = false ->
     Sqlite.login ds1 e1 b1 =
       (ds1, Response 401 (ErrorBody "Invalid credentials.")) /\
     Sqlite.login ds2 e2 b2 =
       (ds2, Response 401 (ErrorBody "Invalid credentials."))).
Proof.
  intros mail1 mail2. split.
  - intros dp1 dp2 Hnone Hsome Hbad. split.
    + apply PostgresFacts.login_unknown.
      by apply PostgresFacts.select_user_None.
    + by apply (PostgresFacts.login_mismatch _ _ _ u).
  - intros ds1 ds2 Hnone Hsome Hbad. split.
    + apply SqliteFacts.lite_login_unknown.
      by apply SqliteFacts.stmtFindUserByEmail_None.
    + by apply (SqliteFacts.lite_login_mismatch _ _ _ u).
Qed.

(** Carol is not registered; Alice is, and the password sent for her is
    wrong: the two answers are the same. *)
Lemma login_failures_indistinguishable_witness :
  let carol := AuthBody (JStr "carol@example.org") (JStr "secret") in
  let alice := AuthBody (JStr "ALICE@example.org ") (JStr "Secret") in
  (@Postgres.login Demo.runtime Demo.pg (Env 200 "") carol).2 =
    (@Postgres.login Demo.runtime Demo.pg (Env 300 "") alice).2 /\
  (@Sqlite.login Demo.runtime Demo.lite (Env 200 "") carol).2 =
    (@Sqlite.login Demo.runtime Demo.lite (Env 300 "") alice).2.
Proof.
  intros carol alice.
  destruct (@login_failures_indistinguishable Demo.runtime
              (Env 200 "") (Env 300 "") carol alice
              (UserRow 1 "alice@example.org" "s1$secret")) as [Hp Hs].
  split.
  - destruct (Hp Demo.pg Demo.pg) as [-> ->]; [|reflexivity..].
    intros v Hv. vm_compute in Hv.
    repeat (apply elem_of_cons in Hv as [->|Hv]; [discriminate|]).
    by apply elem_of_nil in Hv.
  - destruct (Hs Demo.lite Demo.lite) as [-> ->]; [|reflexivity..].
    intros v Hv. vm_compute in Hv.
    repeat (apply elem_of_cons in Hv as [->|Hv]; [discriminate|]).
    by apply elem_of_nil in Hv.
Defined.



(** C4. Registration, on both servers. With [mail] the e-mail coerced to a
    string, trimmed and lower-cased and [password] the password coerced to
    a string: 400 if [mail] has no ["@"]; else 400 if [password] has fewer
    than 4 characters; else 409 if a user with e-mail [mail] exists; else
    the user is stored with the next id and the hash of the password, and
    the answer is 201 with a token for that user issued at the time of the
    request. After such a registration, registering an e-mail that
    normalises to the same [mail] is answered 409; white space around an
    e-mail does not change what it normalises to. *)
Theorem register_contract `{Runtime}
    (dp : Postgres.db) (ds : Sqlite.db) (e : env) (b : auth_body) :
  let mail := toLowerCase (trim (text_field (body_email b))) in
  let password := text_field (body_password b) in
  (includes mail "@" = false ->
     Postgres.register dp e b =
       (dp, Response 400 (ErrorBody "Enter a valid email.")) /\
     Sqlite.register ds e b =
       (ds, Response 400 (ErrorBody "Enter a valid email."))) /\
  (includes mail "@" = true -> (String.length password < 4)%nat ->
     Postgres.register dp e b =
       (dp, Response 400
              (ErrorBody "Password must be at least 4 characters.")) /\
     Sqlite.register ds e b =
       (ds, Response 400
              (ErrorBody "Password must be at least 4 characters."))) /\
  (includes mail "@" = true -> (4 <= String.length password)%nat ->
     ((exists u, u ∈ Postgres.users dp /\ u_email u = mail) ->
        Postgres.register dp e b =
          (dp, Response 409 (ErrorBody "Email already registered."))) /\
     ((exists u, u ∈ Sqlite.users ds /\ u_email u = mail) ->
        Sqlite.register ds e b =
          (ds, Response 409 (ErrorBody "Email already registered."))) /\
     ((forall u, u ∈ Postgres.users dp -> u_email u <> mail) ->
        Postgres.register dp e b =
          (Postgres.Db
             (Postgres.users dp ++
                [UserRow (Postgres.users_id_seq dp + 1) mail
                         (bcrypt_hashSync (salt e) password 10)])
             (Postgres.tasks dp) (Postgres.users_id_seq dp + 1)
             (Postgres.tasks_id_seq dp),
           Response 201
             (TokenBody
                (Jwt.Signed
                   (Jwt.Claims (Postgres.users_id_seq dp + 1) mail (now e)
                               (now e + 7200))
                   JWT_SECRET))) /\
        forall e' b',
          toLowerCase (trim (text_field (body_email b'))) = mail ->
          (4 <= String.length (text_field (body_password b')))%nat ->
          Postgres.register (Postgres.register dp e b).1 e' b' =
            ((Postgres.register dp e b).1,
             Response 409 (ErrorBody "Email already registered."))) /\
     ((forall u, u ∈ Sqlite.users ds -> u_email u <> mail) ->
        Sqlite.register ds e b =
          (Sqlite.Db
             (Sqlite.users ds ++
                [UserRow (Sqlite.users_seq ds + 1) mail
                         (bcrypt_hashSync (salt e) password 10)])
             (Sqlite.tasks ds) (Sqlite.users_seq ds + 1)
             (Sqlite.tasks_seq ds),
           Response 201
             (TokenBody
                (Jwt.Signed
                   (Jwt.Claims (Sqlite.users_seq ds + 1) mail (now e)
                               (now e + 7200))
                   JWT_SECRET))) /\
        forall e' b',
          toLowerCase (trim (text_field (body_email b'))) = mail ->
          (4 <= String.length (text_field (body_password b')))%nat ->
          Sqlite.register (Sqlite.register ds e b).1 e' b' =
            ((Sqlite.register ds e b).1,
             Response 409 (ErrorBody "Email already registered.")))) /\
  (forall ws1 ws2 s, blank ws1 = true -> blank ws2 = true ->
     toLowerCase (trim (ws1 +:+ s +:+ ws2)) = toLowerCase (trim s)).
Proof.
  intros mail password. split; [|split; [|split]];
    [| | |by intros ws1 ws2 s H1 H2; rewrite trim_surrounded].
  - intros Hat. split.
    + by apply PostgresFacts.register_no_at.
    + by apply SqliteFacts.lite_register_no_at.
  - intros Hat Hlen. split.
    + by apply PostgresFacts.register_short.
    + by apply SqliteFacts.lite_register_short.
  - intros Hat Hlen. split; [|split; [|split]].
    + intros (u & Hu & Hmail).
      destruct (PostgresFacts.select_user_found dp mail u Hu Hmail)
        as [v Hv].
      by apply (PostgresFacts.register_taken _ _ _ v).
    + intros (u & Hu & Hmail).
      destruct (SqliteFacts.stmtFindUserByEmail_found ds mail u Hu Hmail)
        as [v Hv].
      by apply (SqliteFacts.lite_register_taken _ _ _ v).
    + intros Hfree%PostgresFacts.select_user_None.
      rewrite (PostgresFacts.register_created dp e b Hat Hlen Hfree).
      split; [reflexivity|]. intros e' b' Hmail' Hlen'. simpl.
      destruct (PostgresFacts.select_user_app dp mail
                  (UserRow (Postgres.users_id_seq dp + 1) mail
                     (bcrypt_hashSync (salt e) password 10)) eq_refl)
        as [v Hv].
      apply (PostgresFacts.register_taken _ _ _ v); rewrite ?Hmail'; done.
    + intros Hfree%SqliteFacts.stmtFindUserByEmail_None.
      rewrite (SqliteFacts.lite_register_created ds e b Hat Hlen Hfree).
      split; [reflexivity|]. intros e' b' Hmail' Hlen'. simpl.
      destruct (SqliteFacts.stmtFindUserByEmail_app ds mail
                  (UserRow (Sqlite.users_seq ds + 1) mail
                     (bcrypt_hashSync (salt e) password 10)) eq_refl)
        as [v Hv].
      apply (SqliteFacts.lite_register_taken _ _ _ v); rewrite ?Hmail'; done.
Qed.

(** On the databases where Alice and Bob are registered: an e-mail without
    ["@"], a short password, Alice in other letter case and with blanks
    around, and Carol, who is new and at once taken. *)
Lemma register_contract_witness :
  let carol := AuthBody (JStr " Carol@Example.ORG") (JStr "pass") in
  (@Postgres.register Demo.runtime Demo.pg (Env 200 "s3")
     (AuthBody (JStr "carol.example.org") (JStr "pass"))).2 =
    Response 400 (ErrorBody "Enter a valid email.") /\
  (@Sqlite.register Demo.runtime Demo.lite (Env 200 "s3")
     (AuthBody (JStr "carol@example.org") (JStr "pas"))).2 =
    Response 400 (ErrorBody "Password must be at least 4 characters.") /\
  (@Postgres.register Demo.runtime Demo.pg (Env 200 "s3")
     (AuthBody (JStr "  ALICE@example.org  ") (JStr "other"))).2 =
    Response 409 (ErrorBody "Email already registered.") /\
  (@Sqlite.register Demo.runtime Demo.lite (Env 200 "s3") carol).2 =
    Response 201
      (TokenBody (Jwt.Signed (Jwt.Claims 3 "carol@example.org" 200 7400)
                             "dev-fallback")) /\
  (@Sqlite.register Demo.runtime
     (@Sqlite.register Demo.runtime Demo.lite (Env 200 "s3") carol).1
     (Env 201 "s4") (AuthBody (JStr "CAROL@example.org ") (JStr "word"))).2 =
    Response 409 (ErrorBody "Email already registered.").
Proof.
  intros carol. split; [|split; [|split; [|split]]].
  - destruct (@register_contract Demo.runtime Demo.pg Demo.lite (Env 200 "s3")
                (AuthBody (JStr "carol.example.org") (JStr "pass")))
      as (H1 & _).
    destruct H1 as [-> _]; reflexivity.
  - destruct (@register_contract Demo.runtime Demo.pg Demo.lite (Env 200 "s3")
                (AuthBody (JStr "carol@example.org") (JStr "pas")))
      as (_ & H2 & _).
    destruct H2 as [_ ->]; [reflexivity|simpl; lia|reflexivity].
  - destruct (@register_contract Demo.runtime Demo.pg Demo.lite (Env 200 "s3")
                (AuthBody (JStr "  ALICE@example.org  ") (JStr "other")))
      as (_ & _ & H3 & _).
    destruct H3 as (H3 & _); [reflexivity|simpl; lia|].
    rewrite H3; [reflexivity|].
    exists (UserRow 1 "alice@example.org" "s1$secret"). split; [|reflexivity].
    vm_compute. apply list_elem_of_here.
  - destruct (@register_contract Demo.runtime Demo.pg Demo.lite (Env 200 "s3")
                carol) as (_ & _ & H3 & _).
    destruct H3 as (_ & _ & _ & H3); [reflexivity|simpl; lia|].
    destruct H3 as [-> _]; [|reflexivity].
    intros v Hv. vm_compute in Hv.
    repeat (apply elem_of_cons in Hv as [->|Hv]; [discriminate|]).
    by apply elem_of_nil in Hv.
  - destruct (@register_contract Demo.runtime Demo.pg Demo.lite (Env 200 "s3")
                carol) as (_ & _ & H3 & _).
    destruct H3 as (_ & _ & _ & H3); [reflexivity|simpl; lia|].
    destruct H3 as [_ H4].
    { intros v Hv. vm_compute in Hv.
      repeat (apply elem_of_cons in Hv as [->|Hv]; [discriminate|]).
      by apply elem_of_nil in Hv. }
    rewrite H4; [reflexivity|reflexivity|simpl; lia].
Defined.

(** C8. Every token handed out by registration or login names a stored
    user and is issued at the time [t] of the request with expiry
    [t + 7200] seconds. [requireAuth] accepts such a token as that user at
    every time before [t + 7200] and answers 401 "Invalid or expired token"
    from [t + 7200] on, so at every time after issuance plus two hours;
    while it is unexpired, a protected
    route answers it on any database whatever, so nothing stored can
    revoke it. Both servers; the clock counts seconds. *)
Theorem issued_token_lifetime `{Runtime} :
  (forall (dp d' : Postgres.db) e b tok,
     Postgres.register dp e b = (d', Response 201 (TokenBody tok)) \/
     Postgres.login dp e b = (d', Response 200 (TokenBody tok)) ->
     exists u, u ∈ Postgres.users d' /\
       tok = Jwt.Signed
               (Jwt.Claims (u_id u) (u_email u) (now e) (now e + 7200))
               JWT_SECRET) /\
  (forall (ds d' : Sqlite.db) e b tok,
     Sqlite.register ds e b = (d', Response 201 (TokenBody tok)) \/
     Sqlite.login ds e b = (d', Response 200 (TokenBody tok)) ->
     exists u, u ∈ Sqlite.users d' /\
       tok = Jwt.Signed
               (Jwt.Claims (u_id u) (u_email u) (now e) (now e + 7200))
               JWT_SECRET) /\
  (forall uid mail t later,
     let claims := Jwt.Claims uid mail t (t + 7200) in
     let tok := Jwt.Signed claims JWT_SECRET in
     (later < t + 7200 ->
        Postgres.requireAuth (Bearer tok) later = inr claims /\
        Sqlite.requireAuth (Bearer tok) later = inr claims /\
        (forall (dp : Postgres.db) s,
           Postgres.handle dp (Env later s) (GetTasks (Bearer tok)) =
             Postgres.list_tasks dp uid) /\
        (forall (ds : Sqlite.db) s,
           Sqlite.handle ds (Env later s) (GetTasks (Bearer tok)) =
             Sqlite.list_tasks ds uid)) /\
     (t + 7200 <= later ->
        Postgres.requireAuth (Bearer tok) later =
          inl (Response 401 (ErrorBody "Invalid or expired token")) /\
        Sqlite.requireAuth (Bearer tok) later =
          inl (Response 401 (ErrorBody "Invalid or expired token")))).
Proof.
  split; [|split].
  - intros dp d' e b tok [Hreg|Hlog].
    + by apply (PostgresFacts.register_token dp e b).
    + by apply (PostgresFacts.login_token dp e b).
  - intros ds d' e b tok [Hreg|Hlog].
    + by apply (SqliteFacts.lite_register_token ds e b).
    + by apply (SqliteFacts.lite_login_token ds e b).
  - intros uid mail t later claims tok. split.
    + intros Hlt.
      assert (Hp : Postgres.requireAuth (Bearer tok) later = inr claims).
      { unfold tok, claims. rewrite PostgresFacts.requireAuth_signed.
        destruct (Z.leb_spec (t + 7200) later); [lia|done]. }
      assert (Hs : Sqlite.requireAuth (Bearer tok) later = inr claims).
      { unfold tok, claims. rewrite SqliteFacts.lite_requireAuth_signed.
        destruct (Z.leb_spec (t + 7200) later); [lia|done]. }
      split; [done|]. split; [done|]. split.
      * intros dp s. cbn [Postgres.handle]. unfold Postgres.protected.
        cbn [now]. by rewrite Hp.
      * intros ds s. cbn [Sqlite.handle]. unfold Sqlite.protected.
        cbn [now]. by rewrite Hs.
    + intros Hgt. split.
      * unfold tok, claims. rewrite PostgresFacts.requireAuth_signed.
        destruct (Z.leb_spec (t + 7200) later); [done|lia].
      * unfold tok, claims. rewrite SqliteFacts.lite_requireAuth_signed.
        destruct (Z.leb_spec (t + 7200) later); [done|lia].
Qed.

(** Alice's token of time 100: accepted at 7299, refused at 7301, one
    second after two hours; and it is the token her login at 100 returns. *)
Lemma issued_token_lifetime_witness :
  let tok := Jwt.Signed (Jwt.Claims 1 "alice@example.org" 100 7300)
                        "dev-fallback" in
  (@Postgres.login Demo.runtime Demo.pg (Env 100 "")
     (AuthBody (JStr "alice@example.org") (JStr "secret"))).2 =
    Response 200 (TokenBody tok) /\
  @Postgres.requireAuth Demo.runtime (Bearer tok) 7299 =
    inr (Jwt.Claims 1 "alice@example.org" 100 7300) /\
  @Sqlite.requireAuth Demo.runtime (Bearer tok) (100 + 7200 + 1) =
    inl (Response 401 (ErrorBody "Invalid or expired token")) /\
  exists u, u ∈ Postgres.users Demo.pg /\
    tok = Jwt.Signed (Jwt.Claims (u_id u) (u_email u) 100 7300) "dev-fallback".
Proof.
  intros tok.
  destruct (@issued_token_lifetime Demo.runtime) as (Hp & _ & Hlife).
  destruct (Hlife 1 "alice@example.org" 100 7299) as [Hbefore _].
  destruct (Hlife 1 "alice@example.org" 100 (100 + 7200 + 1)) as [_ Hafter].
  split; [reflexivity|]. split; [|split].
  - apply Hbefore. lia.
  - apply Hafter. lia.
  - apply (Hp Demo.pg Demo.pg (Env 100 "")
             (AuthBody (JStr "alice@example.org") (JStr "secret")) tok).
    right. reflexivity.
Defined.



(** C1, as the spec states it, fails: Bob owns task 2, and Alice's update
    of task 2 with the title ["a"] is answered 400, not 404, on both
    servers. *)
Lemma foreign_update_with_short_title_is_400 :
  Postgres.tasks Demo.pg !! 2 = Some (Postgres.TaskRow 2 "Pay rent" false) /\
  Postgres.put_task Demo.pg 1 2 (UpdateBody (JStr "a") JUndefined) =
    (Demo.pg, Response 400 (ErrorBody "Title must be at least 2 characters."))
  /\
  Sqlite.tasks Demo.lite !! 2 = Some (Sqlite.TaskRow 2 "Pay rent" 0) /\
  Sqlite.put_task Demo.lite 1 2 (UpdateBody (JStr "a") JUndefined) =
    (Demo.lite, Response 400 (ErrorBody "Title must be at least 2 characters.")).
Proof. repeat split; reflexivity. Qed.

(** C1, amended. Let task [i] be a row [t] that user [uid] does not own.
    Listing as [uid] returns no task with id [i]. An update of [i] as
    [uid] changes nothing in the database and is answered 404, or 400 when
    its title is a string that trims to fewer than 2 characters. A removal
    of [i] as [uid] changes nothing and is answered 404. And [t] is still
    the row [i] after any update or removal by [uid], whatever id it
    names, and after any creation by [uid] in a well-formed database. Both
    servers. *)
Theorem foreign_task_isolated :
  (forall (d : Postgres.db) uid i t,
     Postgres.tasks d !! i = Some t -> Postgres.owner_id t <> uid ->
     (exists rows,
        Postgres.list_tasks d uid = (d, Response 200 (TasksBody rows)) /\
        forall j, j ∈ rows -> json_id j <> i) /\
     (forall b,
        Postgres.put_task d uid i b =
          (d, Response 404 (ErrorBody "Task not found.")) \/
        (exists s, body_title b = JStr s /\
                   (String.length (trim s) < 2)%nat) /\
        Postgres.put_task d uid i b =
          (d, Response 400
                (ErrorBody "Title must be at least 2 characters."))) /\
     Postgres.remove_task d uid i =
       (d, Response 404 (ErrorBody "Task not found.")) /\
     (forall i' b,
        Postgres.tasks (Postgres.put_task d uid i' b).1 !! i = Some t) /\
     (forall i',
        Postgres.tasks (Postgres.remove_task d uid i').1 !! i = Some t) /\
     (forall b, PostgresFacts.db_wf d ->
        Postgres.tasks (Postgres.create_task d uid b).1 !! i = Some t)) /\
  (forall (d : Sqlite.db) uid i t,
     Sqlite.tasks d !! i = Some t -> Sqlite.owner_id t <> uid ->
     (exists rows,
        Sqlite.list_tasks d uid = (d, Response 200 (TasksBody rows)) /\
        forall j, j ∈ rows -> json_id j <> i) /\
     (forall b,
        Sqlite.put_task d uid i b =
          (d, Response 404 (ErrorBody "Task not found.")) \/
        (exists s, body_title b = JStr s /\
                   (String.length (trim s) < 2)%nat) /\
        Sqlite.put_task d uid i b =
          (d, Response 400
                (ErrorBody "Title must be at least 2 characters."))) /\
     Sqlite.remove_task d uid i =
       (d, Response 404 (ErrorBody "Task not found.")) /\
     (forall i' b,
        Sqlite.tasks (Sqlite.put_task d uid i' b).1 !! i = Some t) /\
     (forall i',
        Sqlite.tasks (Sqlite.remove_task d uid i').1 !! i = Some t) /\
     (forall b, SqliteFacts.db_wf d ->
        Sqlite.tasks (Sqlite.create_task d uid b).1 !! i = Some t)).
Proof.
  split.
  - intros d uid i t Hi Ho.
    assert (Hrow : Postgres.owned_row d i uid = None).
    { apply PostgresFacts.owned_row_None. intros r Hr. congruence. }
    split; [by apply (PostgresFacts.list_tasks_hides d uid i t)|].
    split; [|split; [|split; [|split]]].
    + intros b.
      destruct (PostgresFacts.put_task_cases d uid i b)
        as [(s & Hs & Hlen & Heq)|[[_ Heq]|(r & Hr & _)]].
      * right. split; [|done]. unfold PostgresFacts.requested_title in Hs.
        destruct (body_title b) as [| | | |s'| |]; try discriminate.
        injection Hs as <-. by exists s'.
      * by left.
      * congruence.
    + by apply PostgresFacts.remove_task_missing.
    + intros i' b. by apply PostgresFacts.put_task_frame.
    + intros i'. by apply PostgresFacts.remove_task_frame.
    + intros b Hwf. by apply PostgresFacts.create_task_frame.
  - intros d uid i t Hi Ho.
    assert (Hrow : Sqlite.owned_row d i uid = None).
    { apply SqliteFacts.lite_owned_row_None. intros r Hr. congruence. }
    split; [by apply (SqliteFacts.lite_list_tasks_hides d uid i t)|].
    split; [|split; [|split; [|split]]].
    + intros b.
      destruct (SqliteFacts.lite_put_task_cases d uid i b)
        as [(s & Hs & Hlen & Heq)|[[_ Heq]|(r & Hr & _)]].
      * right. split; [|done]. unfold SqliteFacts.requested_title in Hs.
        destruct (body_title b) as [| | | |s'| |]; try discriminate.
        injection Hs as <-. by exists s'.
      * by left.
      * congruence.
    + by apply SqliteFacts.lite_remove_task_missing.
    + intros i' b. by apply SqliteFacts.lite_put_task_frame.
    + intros i'. by apply SqliteFacts.lite_remove_task_frame.
    + intros b Hwf. by apply SqliteFacts.lite_create_task_frame.
Qed.

(** Bob's task 2 and Alice (user 1): her removal of task 2 is answered
    404, and task 2 is as it was after her update of it. *)
Lemma foreign_task_isolated_witness :
  Postgres.remove_task Demo.pg 1 2 =
    (Demo.pg, Response 404 (ErrorBody "Task not found.")) /\
  Sqlite.tasks
    (Sqlite.put_task Demo.lite 1 2 (UpdateBody (JStr "Mine") (JBool true))).1
    !! 2 = Some (Sqlite.TaskRow 2 "Pay rent" 0).
Proof.
  destruct foreign_task_isolated as [Hp Hs]. split.
  - destruct (Hp Demo.pg 1 2 (Postgres.TaskRow 2 "Pay rent" false))
      as (_ & _ & Hdel & _); [reflexivity|simpl; lia|exact Hdel].
  - destruct (Hs Demo.lite 1 2 (Sqlite.TaskRow 2 "Pay rent" 0))
      as (_ & _ & _ & Hput & _); [reflexivity|simpl; lia|apply Hput].
Defined.



(** * Further properties of the code *)

(** ** [trim] and [toLowerCase] *)

Lemma trimStart_length s :
  (String.length (Js.trimStart s) <= String.length s)%nat.
Proof.
  induction s as [|c s IH]; simpl; [lia|].
  destruct (Js.isWhiteSpace c); simpl; lia.
Qed.

Lemma trimStart_fixed_head c s :
  Js.trimStart (String c s) = String c s -> Js.isWhiteSpace c = false.
Proof.
  simpl. destruct (Js.isWhiteSpace c); [|done]. intros Heq.
  pose proof (trimStart_length s) as Hlen. rewrite Heq in Hlen.
  simpl in Hlen. lia.
Qed.

Lemma trimStart_idem s : Js.trimStart (Js.trimStart s) = Js.trimStart s.
Proof.
  induction s as [|c s IH]; [done|]. simpl.
  destruct (Js.isWhiteSpace c) eqn:Hc; [done|]. simpl. by rewrite Hc.
Qed.

Lemma trimEnd_idem s : Js.trimEnd (Js.trimEnd s) = Js.trimEnd s.
Proof.
  induction s as [|c s IH]; [done|]. simpl.
  destruct (Js.trimEnd s) as [|a r] eqn:Hr.
  - destruct (Js.isWhiteSpace c) eqn:Hc; [done|]. simpl. by rewrite Hc.
  - change (Js.trimEnd (String c (String a r)))
      with (match Js.trimEnd (String a r) with
            | EmptyString =>
                if Js.isWhiteSpace c then EmptyString
                else String c EmptyString
            | r' => String c r'
            end).
    by rewrite IH.
Qed.

Lemma trimEnd_keeps_start s :
  Js.trimStart s = s -> Js.trimStart (Js.trimEnd s) = Js.trimEnd s.
Proof.
  destruct s as [|c s]; [done|]. intros Hc%trimStart_fixed_head.
  simpl. destruct (Js.trimEnd s); rewrite ?Hc; simpl; by rewrite Hc.
Qed.

Lemma trim_idem s : Js.trim (Js.trim s) = Js.trim s.
Proof.
  unfold Js.trim.
  rewrite trimEnd_keeps_start by apply trimStart_idem.
  apply trimEnd_idem.
Qed.

Lemma lowerChar_idem c : Js.lowerChar (Js.lowerChar c) = Js.lowerChar c.
Proof. by destruct c as [[] [] [] [] [] [] [] []]. Qed.

Lemma isWhiteSpace_lowerChar c :
  Js.isWhiteSpace (Js.lowerChar c) = Js.isWhiteSpace c.
Proof. by destruct c as [[] [] [] [] [] [] [] []]. Qed.

Lemma toLowerCase_idem s :
  Js.toLowerCase (Js.toLowerCase s) = Js.toLowerCase s.
Proof.
  induction s as [|c s IH]; [done|]. simpl. by rewrite lowerChar_idem, IH.
Qed.

Lemma trimStart_toLowerCase s :
  Js.trimStart (Js.toLowerCase s) = Js.toLowerCase (Js.trimStart s).
Proof.
  induction s as [|c s IH]; [done|]. simpl. rewrite isWhiteSpace_lowerChar.
  by destruct (Js.isWhiteSpace c).
Qed.

Lemma trimEnd_toLowerCase s :
  Js.trimEnd (Js.toLowerCase s) = Js.toLowerCase (Js.trimEnd s).
Proof.
  induction s as [|c s IH]; [done|]. simpl.
  rewrite IH, isWhiteSpace_lowerChar.
  destruct (Js.trimEnd s); simpl; [|done]. by destruct (Js.isWhiteSpace c).
Qed.

Lemma trim_toLowerCase s :
  Js.trim (Js.toLowerCase s) = Js.toLowerCase (Js.trim s).
Proof.
  unfold Js.trim. by rewrite trimStart_toLowerCase, trimEnd_toLowerCase.
Qed.

(** What the handlers store as an e-mail is its own normal form. *)
Lemma normal_form_fixed s :
  Js.toLowerCase (Js.trim (Js.toLowerCase (Js.trim s))) =
    Js.toLowerCase (Js.trim s).
Proof. by rewrite trim_toLowerCase, trim_idem, toLowerCase_idem. Qed.

(** The row a client shows once an update with body [b] was accepted: the
    trimmed title if a string title was sent, the flag if a boolean
    [completed] was sent. *)
Definition patch_json (b : Http.update_body) (j : Http.task_json)
    : Http.task_json :=
  Http.TaskJson (Http.json_id j)
    (match Http.body_title b with
     | Js.JStr s => Js.trim s
     | _ => Http.json_title j
     end)
    (match Http.body_completed b with
     | Js.JBool c => c
     | _ => Http.json_completed j
     end).

(** The [Authorization] header of a request to a protected route. *)
Definition credentials (r : Http.request) : option Http.authorization :=
  match r with
  | Http.GetTasks auth | Http.PostTasks auth _ | Http.PutTask auth _ _
  | Http.DeleteTask auth _ => Some auth
  | _ => None
  end.

(** ** More on the Postgres server *)

Module PostgresMore.
Import Js Http Postgres PostgresFacts.
#[local] Existing Instances id_desc_trans id_desc_total.

(** *** Users are only ever added *)

Lemma select_user_grows d d' mail u extra :
  users d' = (users d ++ extra)%list ->
  select_user d mail = Some u -> select_user d' mail = Some u.
Proof.
  unfold select_user. intros ->. generalize (users d). intros l.
  induction l as [|v l IH]; simpl; [done|].
  destruct (String.eqb (u_email v) mail); [done|]. apply IH.
Qed.

Lemma select_user_appended d mail row :
  select_user d mail = None -> u_email row = mail ->
  select_user (Db (users d ++ [row]) (tasks d) (users_id_seq d + 1)
                  (tasks_id_seq d)) mail = Some row.
Proof.
  unfold select_user. simpl. generalize (users d). intros l Hnone Hrow.
  induction l as [|v l IH]; simpl in *.
  - by rewrite Hrow, String.eqb_refl.
  - destruct (String.eqb (u_email v) mail); [discriminate|]. by apply IH.
Qed.

Section Handlers.
Context `{Runtime}.

Lemma register_users d e b :
  exists extra, users (register d e b).1 = (users d ++ extra)%list.
Proof.
  unfold register, insert_user.
  destruct (negb _); [exists []; by rewrite app_nil_r|].
  destruct (_ <? _)%nat; [exists []; by rewrite app_nil_r|].
  destruct (select_user _ _); [exists []; by rewrite app_nil_r|].
  by eexists.
Qed.

Lemma put_task_users d uid taskId b :
  users (put_task d uid taskId b).1 = users d.
Proof.
  destruct (put_task_cases d uid taskId b)
    as [(? & _ & _ & ->)|[[_ ->]|(r & _ & ->)]]; done.
Qed.

Lemma remove_task_users d uid taskId :
  users (remove_task d uid taskId).1 = users d.
Proof.
  unfold remove_task, delete_task. by destruct (owned_row d taskId uid).
Qed.

Lemma create_task_users d uid b : users (create_task d uid b).1 = users d.
Proof.
  unfold create_task, insert_task. by destruct (_ <? _)%nat.
Qed.

Lemma login_same d e b : (login d e b).1 = d.
Proof.
  unfold login. destruct (select_user _ _); [|done]. by destruct (negb _).
Qed.

Lemma handle_users d e r :
  exists extra, users (handle d e r).1 = (users d ++ extra)%list.
Proof.
  destruct r as [|b|b|auth|auth b|auth taskId b|auth taskId];
    cbn [handle]; try apply register_users;
    try (exists []; rewrite app_nil_r);
    rewrite ?login_same; try done;
    unfold protected; destruct (requireAuth _ _); try done;
    auto using create_task_users, put_task_users, remove_task_users.
Qed.

Lemma serve_users d rs :
  exists extra, users (serve d rs).1 = (users d ++ extra)%list.
Proof.
  revert d. induction rs as [|[e r] rs IH]; intros d.
  - exists []. simpl. by rewrite app_nil_r.
  - simpl. destruct (handle_users d e r) as [x1 H1].
    destruct (handle d e r) as [d1 a]. destruct (IH d1) as [x2 H2].
    destruct (serve d1 rs) as [d2 answers]. simpl in *.
    exists (x1 ++ x2)%list. by rewrite H2, H1, app_assoc.
Qed.

(** Once registered, a user can log in after any further requests. *)
Lemma register_then_login d e b d1 tok rs e' :
  bcrypt_compareSync (text_field (body_password b))
    (bcrypt_hashSync (salt e) (text_field (body_password b)) 10) = true ->
  register d e b = (d1, Response 201 (TokenBody tok)) ->
  exists c,
    tok = Jwt.Signed c JWT_SECRET /\
    login (serve d1 rs).1 e' b =
      ((serve d1 rs).1,
       Response 200
         (TokenBody
            (Jwt.Signed
               (Jwt.Claims (Jwt.id c) (Jwt.email c) (now e') (now e' + 7200))
               JWT_SECRET))).
Proof.
  intros Hbcrypt Hreg.
  set (mail := toLowerCase (trim (text_field (body_email b)))).
  set (password := text_field (body_password b)).
  destruct (includes mail "@") eqn:Hat;
    [|rewrite (register_no_at d e b Hat) in Hreg; discriminate].
  destruct (Nat.lt_ge_cases (String.length password) 4) as [Hlt|Hge];
    [rewrite (register_short d e b Hat Hlt) in Hreg; discriminate|].
  destruct (select_user d mail) as [v|] eqn:Hsel;
    [rewrite (register_taken d e b v Hat Hge Hsel) in Hreg; discriminate|].
  rewrite (register_created d e b Hat Hge Hsel) in Hreg.
  injection Hreg as <- <-. eexists. split; [reflexivity|]. simpl.
  set (row := UserRow (users_id_seq d + 1) mail
                      (bcrypt_hashSync (salt e) password 10)).
  set (d1 := Db (users d ++ [row]) (tasks d) (users_id_seq d + 1)
                (tasks_id_seq d)).
  assert (Hrow : select_user d1 mail = Some row)
    by by apply select_user_appended.
  destruct (serve_users d1 rs) as [extra Hextra].
  pose proof (select_user_grows d1 _ mail row extra Hextra Hrow) as Hlater.
  by rewrite (login_granted _ e' b row Hlater).
Qed.

(** *** What every reachable database satisfies *)

(** The users table: e-mails and ids without duplicates, ids issued by the
    sequence, every e-mail with an ["@"] and in normal form. *)
Definition users_inv (d : db) : Prop :=
  0 <= users_id_seq d /\
  NoDup (u_email <$> users d) /\
  NoDup (u_id <$> users d) /\
  Forall (fun u => 1 <= u_id u <= users_id_seq d /\
                   includes (u_email u) "@" = true /\
                   toLowerCase (trim (u_email u)) = u_email u) (users d).

(** The tasks table: ids issued by the sequence, every title trimmed and
    of at least 2 characters. *)
Definition tasks_inv (d : db) : Prop :=
  0 <= tasks_id_seq d /\
  forall i r, tasks d !! i = Some r ->
    1 <= i <= tasks_id_seq d /\
    trim (title r) = title r /\ (2 <= String.length (title r))%nat.

Lemma initDb_inv : users_inv initDb /\ tasks_inv initDb.
Proof.
  split.
  - repeat split; simpl; try lia; constructor.
  - split; [done|]. intros i r. simpl. by rewrite lookup_empty.
Qed.

Lemma register_tasks d e b :
  tasks (register d e b).1 = tasks d /\
  tasks_id_seq (register d e b).1 = tasks_id_seq d.
Proof.
  unfold register, insert_user. destruct (negb _); [done|].
  destruct (_ <? _)%nat; [done|]. by destruct (select_user _ _).
Qed.

Lemma register_users_inv d e b : users_inv d -> users_inv (register d e b).1.
Proof.
  intros (Hseq & Hmails & Hids & Hall). unfold register, insert_user.
  destruct (includes _ "@") eqn:Hat; [|done]. simpl.
  destruct (_ <? _)%nat; [done|].
  destruct (select_user _ _) eqn:Hsel; [done|]. simpl.
  rewrite select_user_None in Hsel. rewrite Forall_forall in Hall.
  unfold users_inv. simpl. split; [lia|]. rewrite !fmap_app. simpl.
  split; [|split].
  - apply NoDup_app. split; [done|]. split; [|apply NoDup_singleton].
    intros m Hm ->%list_elem_of_singleton.
    apply list_elem_of_fmap in Hm as (u & Hu & Hin). by destruct (Hsel u Hin).
  - apply NoDup_app. split; [done|]. split; [|apply NoDup_singleton].
    intros m Hm ->%list_elem_of_singleton.
    apply list_elem_of_fmap in Hm as (u & Hu & Hin).
    destruct (Hall u Hin) as [Hid _]. lia.
  - apply Forall_app. split.
    + apply Forall_forall. intros u Hu.
      destruct (Hall u Hu) as (Hid & ? & ?). repeat split; try done; lia.
    + apply Forall_singleton. simpl. repeat split; try done; try lia.
      apply normal_form_fixed.
Qed.

Lemma put_task_cases_valid d uid taskId b :
  put_task d uid taskId b =
    (d, Response 400 (ErrorBody "Title must be at least 2 characters.")) \/
  put_task d uid taskId b = (d, Response 404 (ErrorBody "Task not found."))
  \/ (exists r, owned_row d taskId uid = Some r /\
        (forall t, requested_title b = Some t ->
                   (2 <= String.length t)%nat) /\
        put_task d uid taskId b =
          (with_tasks d (<[taskId := updated r b]> (tasks d)),
           Response 200 SuccessBody)).
Proof.
  destruct (put_task_cases d uid taskId b)
    as [(t & Ht & Hlen & Heq)|[[_ Heq]|(r & Hrow & Heq)]]; [by left|auto|].
  right. right. exists r. split; [done|]. split; [|done].
  intros t Ht. destruct (Nat.lt_ge_cases (String.length t) 2); [|done].
  rewrite (put_task_rejected d uid taskId b t Ht) in Heq by done.
  discriminate.
Qed.

Lemma put_task_tasks_inv d uid taskId b :
  tasks_inv d -> tasks_inv (put_task d uid taskId b).1.
Proof.
  intros [Hseq Hall].
  destruct (put_task_cases_valid d uid taskId b)
    as [->|[->|(r & Hrow & Hok & ->)]]; try done.
  apply owned_row_Some in Hrow as [Hr _]. split; [done|].
  intros i r'. simpl. rewrite lookup_insert. case_decide; [|by apply Hall].
  subst i. intros [= <-]. destruct (Hall _ _ Hr) as (Hi & Htrim & Hlen).
  split; [done|]. unfold updated. simpl.
  destruct (requested_title b) as [t|] eqn:Ht; simpl; [|done].
  split; [|by apply Hok]. unfold requested_title in Ht.
  destruct (body_title b); try discriminate. injection Ht as <-.
  apply trim_idem.
Qed.

Lemma remove_task_tasks_inv d uid taskId :
  tasks_inv d -> tasks_inv (remove_task d uid taskId).1.
Proof.
  intros [Hseq Hall]. unfold remove_task, delete_task.
  destruct (owned_row d taskId uid); [|done]. split; [done|].
  intros i r. simpl. intros [_ Hi]%lookup_delete_Some. by apply Hall.
Qed.

Lemma create_task_tasks_inv d uid b :
  tasks_inv d -> tasks_inv (create_task d uid b).1.
Proof.
  intros [Hseq Hall]. unfold create_task, insert_task.
  destruct (String.length _ <? 2)%nat eqn:Hlen; [done|].
  apply Nat.ltb_ge in Hlen. split; [simpl; lia|].
  intros i r. simpl. rewrite lookup_insert. case_decide.
  - subst i. intros [= <-]. simpl. split; [lia|]. split; [|done].
    apply trim_idem.
  - intros Hi. destruct (Hall _ _ Hi) as (Hr & Htrim & Hlen').
    split; [lia|]. by split.
Qed.

Lemma handle_inv d e r :
  users_inv d /\ tasks_inv d ->
  users_inv (handle d e r).1 /\ tasks_inv (handle d e r).1.
Proof.
  intros [Hu Ht].
  assert (Hsame : forall d' : db,
            users d' = users d -> users_id_seq d' = users_id_seq d ->
            users_inv d').
  { intros d' Hus Hs. unfold users_inv. by rewrite Hus, Hs. }
  destruct r as [|b|b|auth|auth b|auth taskId b|auth taskId]; cbn [handle].
  - done.
  - split; [by apply register_users_inv|].
    destruct (register_tasks d e b) as [Ht1 Ht2].
    unfold tasks_inv. by rewrite Ht1, Ht2.
  - by rewrite login_same.
  - unfold protected. by destruct (requireAuth _ _).
  - unfold protected. destruct (requireAuth _ _); [done|].
    split; [|by apply create_task_tasks_inv].
    apply Hsame; [apply create_task_users|].
    unfold create_task, insert_task. by destruct (_ <? _)%nat.
  - unfold protected. destruct (requireAuth _ _); [done|].
    split; [|by apply put_task_tasks_inv].
    apply Hsame; [apply put_task_users|].
    destruct (put_task_cases d (Jwt.id c) taskId b)
      as [(? & _ & _ & ->)|[[_ ->]|(r & _ & ->)]]; done.
  - unfold protected. destruct (requireAuth _ _); [done|].
    split; [|by apply remove_task_tasks_inv].
    apply Hsame; [apply remove_task_users|].
    unfold remove_task, delete_task. by destruct (owned_row _ _ _).
Qed.

Lemma serve_inv d rs :
  users_inv d /\ tasks_inv d ->
  users_inv (serve d rs).1 /\ tasks_inv (serve d rs).1.
Proof.
  revert d. induction rs as [|[e r] rs IH]; intros d Hinv; [done|]. simpl.
  pose proof (handle_inv d e r Hinv) as H1.
  destruct (handle d e r) as [d1 a]. specialize (IH d1 H1).
  by destruct (serve d1 rs).
Qed.

(** *** How the list changes with each operation *)

Lemma desc_NoDup (l : list (Z * task_row)) :
  StronglySorted (fun a b => b.1 < a.1) l -> NoDup l.
Proof.
  induction 1 as [|a l Hs IH Hall]; constructor; [|done].
  intros Hin. rewrite Forall_forall in Hall. specialize (Hall a Hin). lia.
Qed.

Lemma desc_id_desc (l : list (Z * task_row)) :
  StronglySorted (fun a b => b.1 < a.1) l -> StronglySorted id_desc l.
Proof.
  induction 1 as [|a l Hs IH Hall]; constructor; [done|].
  eapply Forall_impl; [done|]. unfold id_desc. simpl. lia.
Qed.

Lemma desc_filter (P : Z * task_row -> Prop) `{!forall x, Decision (P x)}
    (l : list (Z * task_row)) :
  StronglySorted (fun a b => b.1 < a.1) l ->
  StronglySorted (fun a b => b.1 < a.1) (filter P l).
Proof.
  induction 1 as [|a l Hs IH Hall]; [constructor|].
  rewrite filter_cons. destruct (decide (P a)); [|done].
  constructor; [done|]. rewrite Forall_forall in Hall |- *.
  intros b [_ Hb]%list_elem_of_filter. by apply Hall.
Qed.

(** The query returns the one strictly descending list of the caller's
    rows. *)
Lemma select_tasks_unique d uid (l : list (Z * task_row)) :
  StronglySorted (fun a b => b.1 < a.1) l ->
  (forall i r, (i, r) ∈ l <-> tasks d !! i = Some r /\ owner_id r = uid) ->
  select_tasks d uid = l.
Proof.
  intros Hs Hin. apply (StronglySorted_unique_strong id_desc).
  - intros [i1 r1] [i2 r2] H1 H2 H12 H21.
    unfold id_desc in H12, H21. simpl in H12, H21.
    assert (i1 = i2) as -> by lia.
    apply elem_of_select_tasks in H1 as [H1 _]. apply Hin in H2 as [H2 _].
    congruence.
  - apply StronglySorted_merge_sort; apply _.
  - by apply desc_id_desc.
  - apply NoDup_Permutation.
    + eapply NoDup_fmap_1, select_tasks_NoDup.
    + by apply desc_NoDup.
    + intros [i r]. by rewrite elem_of_select_tasks, Hin.
Qed.

(** Rows of other owners play no part in the query. *)
Lemma select_tasks_ext d d' uid :
  (forall i r, owner_id r = uid ->
     tasks d' !! i = Some r <-> tasks d !! i = Some r) ->
  select_tasks d' uid = select_tasks d uid.
Proof.
  intros Hsame. apply select_tasks_unique; [apply select_tasks_sorted|].
  intros i r. rewrite elem_of_select_tasks. split.
  - intros [Hr Ho]. split; [|done]. by apply Hsame.
  - intros [Hr Ho]. split; [|done]. by apply Hsame.
Qed.

Lemma select_tasks_insert d uid t :
  db_wf d ->
  select_tasks (insert_task d uid t).1 uid =
    (tasks_id_seq d + 1, TaskRow uid t false) :: select_tasks d uid.
Proof.
  intros Hwf. apply select_tasks_unique.
  - constructor; [apply select_tasks_sorted|].
    apply Forall_forall. intros [i r] [Hr _]%elem_of_select_tasks.
    apply Hwf in Hr. simpl. lia.
  - intros i r. unfold insert_task. simpl.
    rewrite elem_of_cons, elem_of_select_tasks, lookup_insert.
    case_decide as Hi.
    + subst i. split.
      * intros [[= ->]|[Hr _]]; [done|]. apply Hwf in Hr. lia.
      * intros [[= <-] _]. by left.
    + split.
      * intros [[= ? _]|?]; [lia|done].
      * intros ?. by right.
Qed.

Lemma select_tasks_replace d uid taskId r r' :
  tasks d !! taskId = Some r -> owner_id r = uid -> owner_id r' = uid ->
  select_tasks (with_tasks d (<[taskId := r']> (tasks d))) uid =
    (fun kv => if decide (kv.1 = taskId) then (taskId, r') else kv)
      <$> select_tasks d uid.
Proof.
  intros Hr Ho Ho'. apply select_tasks_unique.
  - eapply StronglySorted_fmap; [|apply select_tasks_sorted].
    intros [i1 r1] [i2 r2]. simpl. by repeat case_decide; subst; simpl.
  - intros i x. simpl. rewrite lookup_insert, list_elem_of_fmap. split.
    + intros ([j y] & Heq & [Hy Hoy]%elem_of_select_tasks). simpl in Heq.
      case_decide as Hj; injection Heq as -> ->.
      * subst j. by rewrite decide_True by done.
      * by rewrite decide_False by done.
    + case_decide as Hi.
      * subst i. intros [[= <-] _]. exists (taskId, r). simpl.
        rewrite decide_True by done. split; [done|].
        by apply elem_of_select_tasks.
      * intros [Hx Hox]. exists (i, x). simpl.
        rewrite decide_False by done. split; [done|].
        by apply elem_of_select_tasks.
Qed.

Lemma select_tasks_delete d uid taskId :
  select_tasks (with_tasks d (delete taskId (tasks d))) uid =
    filter (fun kv => kv.1 <> taskId) (select_tasks d uid).
Proof.
  apply select_tasks_unique.
  - apply desc_filter, select_tasks_sorted.
  - intros i r. simpl.
    rewrite list_elem_of_filter, elem_of_select_tasks, lookup_delete_Some.
    simpl. naive_solver.
Qed.

(** The row the client shows after an update that was answered 200. *)
Lemma to_json_updated taskId r b :
  to_json (taskId, updated r b) = patch_json b (to_json (taskId, r)).
Proof.
  unfold to_json, patch_json, updated, requested_title, requested_completed.
  simpl. by destruct (body_title b), (body_completed b).
Qed.

Lemma create_then_list d uid b d' row :
  db_wf d ->
  create_task d uid b = (d', Response 201 (TaskBody row)) ->
  list_tasks d' uid =
    (d', Response 200
           (TasksBody (row :: (to_json <$> select_tasks d uid)))) /\
  forall other, other <> uid ->
    select_tasks d' other = select_tasks d other.
Proof.
  intros Hwf. unfold create_task.
  destruct (_ <? _)%nat; [discriminate|].
  pose proof (select_tasks_insert d uid
                (trim (text_field (new_title b))) Hwf) as Hins.
  unfold insert_task in *. simpl in *. intros [= <- <-]. split.
  - unfold list_tasks. by rewrite Hins.
  - intros other Hne. apply select_tasks_ext. intros i r Ho. simpl.
    rewrite lookup_insert. case_decide; [|done]. subst i. split.
    + intros [= <-]. simpl in Ho. congruence.
    + intros Hr%Hwf. lia.
Qed.

Lemma update_then_list d uid taskId b d' :
  put_task d uid taskId b = (d', Response 200 SuccessBody) ->
  to_json <$> select_tasks d' uid =
    (fun j => if decide (json_id j = taskId) then patch_json b j else j)
      <$> (to_json <$> select_tasks d uid) /\
  forall other, other <> uid ->
    select_tasks d' other = select_tasks d other.
Proof.
  destruct (put_task_cases d uid taskId b)
    as [(? & _ & _ & ->)|[[_ ->]|(r & Hrow & ->)]]; try discriminate.
  intros [= <-]. apply owned_row_Some in Hrow as [Hr Ho]. split.
  - rewrite (select_tasks_replace d uid taskId r (updated r b) Hr Ho)
      by done.
    rewrite <- !list_fmap_compose. apply list_fmap_ext.
    intros k [i x] Hk. simpl.
    apply list_elem_of_lookup_2, elem_of_select_tasks in Hk as [Hx _].
    case_decide as Hi; [|done]. subst i.
    assert (x = r) as -> by congruence. apply to_json_updated.
  - intros other Hne. apply select_tasks_ext. intros i x Hox. simpl.
    rewrite lookup_insert. case_decide; [|done]. subst i. split.
    + intros [= <-]. simpl in Hox. congruence.
    + intros Hx. congruence.
Qed.

Lemma delete_then_list d uid taskId d' :
  remove_task d uid taskId = (d', Response 200 SuccessBody) ->
  to_json <$> select_tasks d' uid =
    filter (fun j => json_id j <> taskId) (to_json <$> select_tasks d uid) /\
  tasks d' !! taskId = None /\
  forall other, other <> uid ->
    select_tasks d' other = select_tasks d other.
Proof.
  destruct (owned_row d taskId uid) as [r|] eqn:Hrow.
  - rewrite (remove_task_found d uid taskId r Hrow). intros [= <-].
    apply owned_row_Some in Hrow as [Hr Ho]. split; [|split].
    + rewrite select_tasks_delete. generalize (select_tasks d uid).
      intros l. induction l as [|[i x] l IH]; [done|]. csimpl.
      rewrite !filter_cons. simpl. case_decide; csimpl; by rewrite IH.
    + simpl. apply lookup_delete_eq.
    + intros other Hne. apply select_tasks_ext. intros i x Hox. simpl.
      rewrite lookup_delete_Some. split; [by intros [_ ?]|].
      intros Hx. split; [|done]. intros <-. congruence.
  - rewrite (remove_task_missing d uid taskId Hrow). discriminate.
Qed.

(** An update or a removal that is not answered 200 changes nothing. *)
Lemma put_task_failed d uid taskId b d' a :
  put_task d uid taskId b = (d', a) -> a <> Response 200 SuccessBody ->
  d' = d.
Proof.
  destruct (put_task_cases d uid taskId b)
    as [(? & _ & _ & ->)|[[_ ->]|(r & _ & ->)]]; by intros [= <- <-].
Qed.

Lemma remove_task_failed d uid taskId d' a :
  remove_task d uid taskId = (d', a) -> a <> Response 200 SuccessBody ->
  d' = d.
Proof.
  destruct (owned_row d taskId uid) as [r|] eqn:Hrow.
  - rewrite (remove_task_found d uid taskId r Hrow). by intros [= <- <-].
  - rewrite (remove_task_missing d uid taskId Hrow). by intros [= <- <-].
Qed.

(** *** Repeating a request *)

Lemma updated_idem r b : updated (updated r b) b = updated r b.
Proof.
  unfold updated. simpl.
  by destruct (requested_title b), (requested_completed b).
Qed.

Lemma put_task_idem d uid taskId b :
  put_task (put_task d uid taskId b).1 uid taskId b = put_task d uid taskId b.
Proof.
  destruct (put_task_cases_valid d uid taskId b)
    as [Heq|[Heq|(r & Hrow & Hok & Heq)]]; rewrite Heq; simpl; try done.
  apply owned_row_Some in Hrow as [Hr Ho].
  assert (Hreq : is_Some (requested_title b) \/
                 is_Some (requested_completed b)).
  { destruct (requested_title b) eqn:Ht; [left; by eexists|].
    destruct (requested_completed b) eqn:Hc; [right; by eexists|].
    rewrite (put_task_nothing d uid taskId b Ht Hc) in Heq. discriminate. }
  rewrite (put_task_found _ uid taskId b (updated r b)); try done.
  - simpl. unfold with_tasks. simpl.
    by rewrite updated_idem, insert_insert_eq.
  - by apply owned_row_with_tasks.
Qed.


(** *** Who can change a task *)

(** From [d] to [d'], only rows owned by [uid] were changed or removed,
    and none changed owner. *)
Definition touched_by (uid : Z) (d d' : db) : Prop :=
  forall i t, tasks d !! i = Some t ->
    tasks d' !! i = Some t \/
    (owner_id t = uid /\
     (tasks d' !! i = None \/
      exists t', tasks d' !! i = Some t' /\ owner_id t' = uid)).

Lemma put_task_touched d uid taskId b :
  touched_by uid d (put_task d uid taskId b).1.
Proof.
  intros i t Hi.
  destruct (put_task_cases d uid taskId b)
    as [(? & _ & _ & ->)|[[_ ->]|(r & Hrow & ->)]]; try by left.
  apply owned_row_Some in Hrow as [Hr Ho]. simpl.
  rewrite lookup_insert. case_decide; [|by left]. subst i.
  right. assert (t = r) as -> by congruence. split; [done|].
  right. by exists (updated r b).
Qed.

Lemma remove_task_touched d uid taskId :
  touched_by uid d (remove_task d uid taskId).1.
Proof.
  intros i t Hi. destruct (owned_row d taskId uid) as [r|] eqn:Hrow.
  - rewrite (remove_task_found d uid taskId r Hrow). simpl.
    apply owned_row_Some in Hrow as [Hr Ho].
    destruct (decide (i = taskId)) as [->|Hne].
    + right. assert (t = r) as -> by congruence. split; [done|]. left.
      apply lookup_delete_eq.
    + left. by rewrite lookup_delete_ne.
  - rewrite (remove_task_missing d uid taskId Hrow). by left.
Qed.

Lemma create_task_touched d uid b :
  db_wf d -> touched_by uid d (create_task d uid b).1.
Proof. intros Hwf i t Hi. left. by apply create_task_frame. Qed.

Lemma handle_rejected d e r auth a :
  credentials r = Some auth -> requireAuth auth (now e) = inl a ->
  handle d e r = (d, a).
Proof.
  destruct r; simpl; try discriminate; intros [= ->] Hno;
    unfold protected; by rewrite Hno.
Qed.

Lemma requireAuth_inl auth t a :
  requireAuth auth t = inl a ->
  a = Response 401 (ErrorBody "Missing token") \/
  a = Response 401 (ErrorBody "Invalid or expired token").
Proof.
  unfold requireAuth. destruct auth as [|s|tok]; try (intros [= <-]; by left).
  destruct (Jwt.verify _ _ _); [discriminate|]. intros [= <-]. by right.
Qed.

(** A request changes or removes a task only if it carries a token that
    [requireAuth] accepts as the owner of the task. *)
Lemma handle_touched d e r i t :
  db_wf d -> tasks d !! i = Some t ->
  tasks (handle d e r).1 !! i = Some t \/
  (exists auth c,
     credentials r = Some auth /\ requireAuth auth (now e) = inr c /\
     Jwt.id c = owner_id t /\
     (tasks (handle d e r).1 !! i = None \/
      exists t', tasks (handle d e r).1 !! i = Some t' /\
                 owner_id t' = owner_id t)).
Proof.
  intros Hwf Hi.
  assert (Hvia : forall auth (k : Z -> db * response),
    credentials r = Some auth ->
    handle d e r = protected d e auth k ->
    (forall uid, touched_by uid d (k uid).1) ->
    tasks (handle d e r).1 !! i = Some t \/
    (exists auth c,
       credentials r = Some auth /\ requireAuth auth (now e) = inr c /\
       Jwt.id c = owner_id t /\
       (tasks (handle d e r).1 !! i = None \/
        exists t', tasks (handle d e r).1 !! i = Some t' /\
                   owner_id t' = owner_id t))).
  { intros auth k Hcred -> Hk. unfold protected.
    destruct (requireAuth auth (now e)) as [a|c] eqn:Hauth; [by left|].
    destruct (Hk (Jwt.id c) i t Hi) as [?|[Ho Hnew]]; [by left|].
    right. exists auth, c. repeat split; try done. rewrite Ho.
    destruct Hnew as [?|(t' & ? & ?)]; [by left|]. right. by exists t'. }
  destruct r as [|b|b|auth|auth b|auth taskId b|auth taskId].
  - by left.
  - left. cbn [handle]. destruct (register_tasks d e b) as [-> _]. done.
  - left. cbn [handle]. by rewrite login_same.
  - apply (Hvia auth (fun uid => list_tasks d uid)); try done.
    intros uid j x Hj. by left.
  - apply (Hvia auth (fun uid => create_task d uid b)); try done.
    intros uid. by apply create_task_touched.
  - apply (Hvia auth (fun uid => put_task d uid taskId b)); try done.
    intros uid. apply put_task_touched.
  - apply (Hvia auth (fun uid => remove_task d uid taskId)); try done.
    intros uid. apply remove_task_touched.
Qed.

(** *** Ids are not given out twice *)

Lemma handle_seq d e r : tasks_id_seq d <= tasks_id_seq (handle d e r).1.
Proof.
  destruct r as [|b|b|auth|auth b|auth taskId b|auth taskId]; cbn [handle];
    try done.
  - destruct (register_tasks d e b) as [_ ->]. done.
  - by rewrite login_same.
  - unfold protected. by destruct (requireAuth _ _).
  - unfold protected. destruct (requireAuth _ _); [done|].
    unfold create_task, insert_task. destruct (_ <? _)%nat; simpl; lia.
  - unfold protected. destruct (requireAuth _ _) as [a|c]; [done|].
    destruct (put_task_cases d (Jwt.id c) taskId b)
      as [(? & _ & _ & ->)|[[_ ->]|(r & _ & ->)]]; done.
  - unfold protected. destruct (requireAuth _ _) as [a|c]; [done|].
    unfold remove_task, delete_task. by destruct (owned_row _ _ _).
Qed.

Lemma handle_unused d e r i :
  db_wf d -> i <= tasks_id_seq d -> tasks d !! i = None ->
  tasks (handle d e r).1 !! i = None.
Proof.
  intros Hwf Hle Hi.
  destruct r as [|b|b|auth|auth b|auth taskId b|auth taskId]; cbn [handle];
    try done.
  - destruct (register_tasks d e b) as [-> _]. done.
  - by rewrite login_same.
  - unfold protected. by destruct (requireAuth _ _).
  - unfold protected. destruct (requireAuth _ _); [done|].
    unfold create_task, insert_task. destruct (_ <? _)%nat; [done|]. simpl.
    rewrite lookup_insert_ne; [done|]. lia.
  - unfold protected. destruct (requireAuth _ _) as [a|c]; [done|].
    destruct (put_task_cases d (Jwt.id c) taskId b)
      as [(? & _ & _ & ->)|[[_ ->]|(r & Hrow & ->)]]; try done.
    apply owned_row_Some in Hrow as [Hr _]. simpl.
    rewrite lookup_insert_ne; [done|]. intros <-. congruence.
  - unfold protected. destruct (requireAuth _ _) as [a|c]; [done|].
    unfold remove_task, delete_task.
    destruct (owned_row _ _ _); [|done]. simpl.
    destruct (decide (taskId = i)) as [->|Hne];
      [apply lookup_delete_eq|by rewrite lookup_delete_ne].
Qed.

Lemma serve_unused d rs i :
  db_wf d -> i <= tasks_id_seq d -> tasks d !! i = None ->
  tasks (serve d rs).1 !! i = None.
Proof.
  revert d. induction rs as [|[e r] rs IH]; intros d Hwf Hle Hi; [done|].
  simpl. pose proof (handle_wf d e r Hwf) as Hwf1.
  pose proof (handle_seq d e r) as Hseq.
  pose proof (handle_unused d e r i Hwf Hle Hi) as Hi1.
  destruct (handle d e r) as [d1 a]. simpl in *.
  specialize (IH d1 Hwf1 ltac:(lia) Hi1). by destruct (serve d1 rs).
Qed.

End Handlers.
End PostgresMore.

(** ** More on the SQLite server *)

Module SqliteMore.
Import Js Http Sqlite SqliteFacts.
#[local] Existing Instances id_desc_trans id_desc_total.

(** *** Users are only ever added *)

Lemma lite_stmtFindUserByEmail_grows d d' mail u extra :
  users d' = (users d ++ extra)%list ->
  stmtFindUserByEmail d mail = Some u -> stmtFindUserByEmail d' mail = Some u.
Proof.
  unfold stmtFindUserByEmail. intros ->. generalize (users d). intros l.
  induction l as [|v l IH]; simpl; [done|].
  destruct (String.eqb (u_email v) mail); [done|]. apply IH.
Qed.

Lemma lite_stmtFindUserByEmail_appended d mail row :
  stmtFindUserByEmail d mail = None -> u_email row = mail ->
  stmtFindUserByEmail (Db (users d ++ [row]) (tasks d) (users_seq d + 1)
                  (tasks_seq d)) mail = Some row.
Proof.
  unfold stmtFindUserByEmail. simpl. generalize (users d). intros l Hnone Hrow.
  induction l as [|v l IH]; simpl in *.
  - by rewrite Hrow, String.eqb_refl.
  - destruct (String.eqb (u_email v) mail); [discriminate|]. by apply IH.
Qed.

Section Handlers.
Context `{Runtime}.

Lemma lite_register_users d e b :
  exists extra, users (register d e b).1 = (users d ++ extra)%list.
Proof.
  unfold register, stmtCreateUser.
  destruct (negb _); [exists []; by rewrite app_nil_r|].
  destruct (_ <? _)%nat; [exists []; by rewrite app_nil_r|].
  destruct (stmtFindUserByEmail _ _); [exists []; by rewrite app_nil_r|].
  by eexists.
Qed.

Lemma lite_put_task_users d uid taskId b :
  users (put_task d uid taskId b).1 = users d.
Proof.
  destruct (lite_put_task_cases d uid taskId b)
    as [(? & _ & _ & ->)|[[_ ->]|(r & _ & ->)]]; done.
Qed.

Lemma lite_remove_task_users d uid taskId :
  users (remove_task d uid taskId).1 = users d.
Proof.
  unfold remove_task, stmtDeleteTask. by destruct (owned_row d taskId uid).
Qed.

Lemma lite_create_task_users d uid b : users (create_task d uid b).1 = users d.
Proof.
  unfold create_task, stmtInsertTask. by destruct (_ <? _)%nat.
Qed.

Lemma lite_login_same d e b : (login d e b).1 = d.
Proof.
  unfold login. destruct (stmtFindUserByEmail _ _); [|done]. by destruct (negb _).
Qed.

Lemma lite_handle_users d e r :
  exists extra, users (handle d e r).1 = (users d ++ extra)%list.
Proof.
  destruct r as [|b|b|auth|auth b|auth taskId b|auth taskId];
    cbn [handle]; try apply lite_register_users;
    try (exists []; rewrite app_nil_r);
    rewrite ?lite_login_same; try done;
    unfold protected; destruct (requireAuth _ _); try done;
    auto using lite_create_task_users, lite_put_task_users, lite_remove_task_users.
Qed.

Lemma lite_serve_users d rs :
  exists extra, users (serve d rs).1 = (users d ++ extra)%list.
Proof.
  revert d. induction rs as [|[e r] rs IH]; intros d.
  - exists []. simpl. by rewrite app_nil_r.
  - simpl. destruct (lite_handle_users d e r) as [x1 H1].
    destruct (handle d e r) as [d1 a]. destruct (IH d1) as [x2 H2].
    destruct (serve d1 rs) as [d2 answers]. simpl in *.
    exists (x1 ++ x2)%list. by rewrite H2, H1, app_assoc.
Qed.

(** Once registered, a user can log in after any further requests. *)
Lemma lite_register_then_login d e b d1 tok rs e' :
  bcrypt_compareSync (text_field (body_password b))
    (bcrypt_hashSync (salt e) (text_field (body_password b)) 10) = true ->
  register d e b = (d1, Response 201 (TokenBody tok)) ->
  exists c,
    tok = Jwt.Signed c JWT_SECRET /\
    login (serve d1 rs).1 e' b =
      ((serve d1 rs).1,
       Response 200
         (TokenBody
            (Jwt.Signed
               (Jwt.Claims (Jwt.id c) (Jwt.email c) (now e') (now e' + 7200))
               JWT_SECRET))).
Proof.
  intros Hbcrypt Hreg.
  set (mail := toLowerCase (trim (text_field (body_email b)))).
  set (password := text_field (body_password b)).
  destruct (includes mail "@") eqn:Hat;
    [|rewrite (lite_register_no_at d e b Hat) in Hreg; discriminate].
  destruct (Nat.lt_ge_cases (String.length password) 4) as [Hlt|Hge];
    [rewrite (lite_register_short d e b Hat Hlt) in Hreg; discriminate|].
  destruct (stmtFindUserByEmail d mail) as [v|] eqn:Hsel;
    [rewrite (lite_register_taken d e b v Hat Hge Hsel) in Hreg; discriminate|].
  rewrite (lite_register_created d e b Hat Hge Hsel) in Hreg.
  injection Hreg as <- <-. eexists. split; [reflexivity|]. simpl.
  set (row := UserRow (users_seq d + 1) mail
                      (bcrypt_hashSync (salt e) password 10)).
  set (d1 := Db (users d ++ [row]) (tasks d) (users_seq d + 1)
                (tasks_seq d)).
  assert (Hrow : stmtFindUserByEmail d1 mail = Some row)
    by by apply lite_stmtFindUserByEmail_appended.
  destruct (lite_serve_users d1 rs) as [extra Hextra].
  pose proof (lite_stmtFindUserByEmail_grows d1 _ mail row extra Hextra Hrow) as Hlater.
  by rewrite (lite_login_granted _ e' b row Hlater).
Qed.

(** *** What every reachable database satisfies *)

(** The users table: e-mails and ids without duplicates, ids issued by the
    sequence, every e-mail with an ["@"] and in normal form. *)
Definition users_inv (d : db) : Prop :=
  0 <= users_seq d /\
  NoDup (u_email <$> users d) /\
  NoDup (u_id <$> users d) /\
  Forall (fun u => 1 <= u_id u <= users_seq d /\
                   includes (u_email u) "@" = true /\
                   toLowerCase (trim (u_email u)) = u_email u) (users d).

(** The tasks table: ids issued by the sequence, every title trimmed and
    of at least 2 characters, every flag 0 or 1. *)
Definition tasks_inv (d : db) : Prop :=
  0 <= tasks_seq d /\
  forall i r, tasks d !! i = Some r ->
    1 <= i <= tasks_seq d /\
    trim (title r) = title r /\ (2 <= String.length (title r))%nat /\
    (completed r = 0 \/ completed r = 1).

Lemma lite_fresh_inv : users_inv fresh /\ tasks_inv fresh.
Proof.
  split.
  - repeat split; simpl; try lia; constructor.
  - split; [done|]. intros i r. simpl. by rewrite lookup_empty.
Qed.

Lemma lite_register_tasks d e b :
  tasks (register d e b).1 = tasks d /\
  tasks_seq (register d e b).1 = tasks_seq d.
Proof.
  unfold register, stmtCreateUser. destruct (negb _); [done|].
  destruct (_ <? _)%nat; [done|]. by destruct (stmtFindUserByEmail _ _).
Qed.

Lemma lite_register_users_inv d e b : users_inv d -> users_inv (register d e b).1.
Proof.
  intros (Hseq & Hmails & Hids & Hall). unfold register, stmtCreateUser.
  destruct (includes _ "@") eqn:Hat; [|done]. simpl.
  destruct (_ <? _)%nat; [done|].
  destruct (stmtFindUserByEmail _ _) eqn:Hsel; [done|]. simpl.
  rewrite stmtFindUserByEmail_None in Hsel. rewrite Forall_forall in Hall.
  unfold users_inv. simpl. split; [lia|]. rewrite !fmap_app. simpl.
  split; [|split].
  - apply NoDup_app. split; [done|]. split; [|apply NoDup_singleton].
    intros m Hm ->%list_elem_of_singleton.
    apply list_elem_of_fmap in Hm as (u & Hu & Hin). by destruct (Hsel u Hin).
  - apply NoDup_app. split; [done|]. split; [|apply NoDup_singleton].
    intros m Hm ->%list_elem_of_singleton.
    apply list_elem_of_fmap in Hm as (u & Hu & Hin).
    destruct (Hall u Hin) as [Hid _]. lia.
  - apply Forall_app. split.
    + apply Forall_forall. intros u Hu.
      destruct (Hall u Hu) as (Hid & ? & ?). repeat split; try done; lia.
    + apply Forall_singleton. simpl. repeat split; try done; try lia.
      apply normal_form_fixed.
Qed.

Lemma lite_put_task_cases_valid d uid taskId b :
  put_task d uid taskId b =
    (d, Response 400 (ErrorBody "Title must be at least 2 characters.")) \/
  put_task d uid taskId b = (d, Response 404 (ErrorBody "Task not found."))
  \/ (exists r, owned_row d taskId uid = Some r /\
        (forall t, requested_title b = Some t ->
                   (2 <= String.length t)%nat) /\
        put_task d uid taskId b =
          (with_tasks d (<[taskId := updated r b]> (tasks d)),
           Response 200 SuccessBody)).
Proof.
  destruct (lite_put_task_cases d uid taskId b)
    as [(t & Ht & Hlen & Heq)|[[_ Heq]|(r & Hrow & Heq)]]; [by left|auto|].
  right. right. exists r. split; [done|]. split; [|done].
  intros t Ht. destruct (Nat.lt_ge_cases (String.length t) 2); [|done].
  rewrite (lite_put_task_rejected d uid taskId b t Ht) in Heq by done.
  discriminate.
Qed.

Lemma lite_put_task_tasks_inv d uid taskId b :
  tasks_inv d -> tasks_inv (put_task d uid taskId b).1.
Proof.
  intros [Hseq Hall].
  destruct (lite_put_task_cases_valid d uid taskId b)
    as [->|[->|(r & Hrow & Hok & ->)]]; try done.
  apply lite_owned_row_Some in Hrow as [Hr _]. split; [done|].
  intros i r'. simpl. rewrite lookup_insert. case_decide; [|by apply Hall].
  subst i. intros [= <-].
  destruct (Hall _ _ Hr) as (Hi & Htrim & Hlen & Hflag).
  split; [done|]. unfold updated. simpl.
  assert (Hflag' : default (completed r) (requested_completed b) = 0 \/
                   default (completed r) (requested_completed b) = 1).
  { unfold requested_completed.
    destruct (body_completed b) as [| |[]| | | |]; simpl; auto. }
  destruct (requested_title b) as [t|] eqn:Ht; simpl; [|done].
  split; [|split; [by apply Hok|done]]. unfold requested_title in Ht.
  destruct (body_title b); try discriminate. injection Ht as <-.
  apply trim_idem.
Qed.

Lemma lite_remove_task_tasks_inv d uid taskId :
  tasks_inv d -> tasks_inv (remove_task d uid taskId).1.
Proof.
  intros [Hseq Hall]. unfold remove_task, stmtDeleteTask.
  destruct (owned_row d taskId uid); [|done]. split; [done|].
  intros i r. simpl. intros [_ Hi]%lookup_delete_Some. by apply Hall.
Qed.

Lemma lite_create_task_tasks_inv d uid b :
  tasks_inv d -> tasks_inv (create_task d uid b).1.
Proof.
  intros [Hseq Hall]. unfold create_task, stmtInsertTask.
  destruct (String.length _ <? 2)%nat eqn:Hlen; [done|].
  apply Nat.ltb_ge in Hlen. split; [simpl; lia|].
  intros i r. simpl. rewrite lookup_insert. case_decide.
  - subst i. intros [= <-]. simpl. split; [lia|].
    split; [apply trim_idem|]. split; [done|by left].
  - intros Hi. destruct (Hall _ _ Hi) as (Hr & Htrim & Hlen' & Hflag).
    split; [lia|]. by repeat split.
Qed.

Lemma lite_handle_inv d e r :
  users_inv d /\ tasks_inv d ->
  users_inv (handle d e r).1 /\ tasks_inv (handle d e r).1.
Proof.
  intros [Hu Ht].
  assert (Hsame : forall d' : db,
            users d' = users d -> users_seq d' = users_seq d ->
            users_inv d').
  { intros d' Hus Hs. unfold users_inv. by rewrite Hus, Hs. }
  destruct r as [|b|b|auth|auth b|auth taskId b|auth taskId]; cbn [handle].
  - done.
  - split; [by apply lite_register_users_inv|].
    destruct (lite_register_tasks d e b) as [Ht1 Ht2].
    unfold tasks_inv. by rewrite Ht1, Ht2.
  - by rewrite lite_login_same.
  - unfold protected. by destruct (requireAuth _ _).
  - unfold protected. destruct (requireAuth _ _); [done|].
    split; [|by apply lite_create_task_tasks_inv].
    apply Hsame; [apply lite_create_task_users|].
    unfold create_task, stmtInsertTask. by destruct (_ <? _)%nat.
  - unfold protected. destruct (requireAuth _ _); [done|].
    split; [|by apply lite_put_task_tasks_inv].
    apply Hsame; [apply lite_put_task_users|].
    destruct (lite_put_task_cases d (Jwt.id c) taskId b)
      as [(? & _ & _ & ->)|[[_ ->]|(r & _ & ->)]]; done.
  - unfold protected. destruct (requireAuth _ _); [done|].
    split; [|by apply lite_remove_task_tasks_inv].
    apply Hsame; [apply lite_remove_task_users|].
    unfold remove_task, stmtDeleteTask. by destruct (owned_row _ _ _).
Qed.

Lemma lite_serve_inv d rs :
  users_inv d /\ tasks_inv d ->
  users_inv (serve d rs).1 /\ tasks_inv (serve d rs).1.
Proof.
  revert d. induction rs as [|[e r] rs IH]; intros d Hinv; [done|]. simpl.
  pose proof (lite_handle_inv d e r Hinv) as H1.
  destruct (handle d e r) as [d1 a]. specialize (IH d1 H1).
  by destruct (serve d1 rs).
Qed.

(** *** How the list changes with each operation *)

Lemma lite_desc_NoDup (l : list (Z * task_row)) :
  StronglySorted (fun a b => b.1 < a.1) l -> NoDup l.
Proof.
  induction 1 as [|a l Hs IH Hall]; constructor; [|done].
  intros Hin. rewrite Forall_forall in Hall. specialize (Hall a Hin). lia.
Qed.

Lemma lite_desc_id_desc (l : list (Z * task_row)) :
  StronglySorted (fun a b => b.1 < a.1) l -> StronglySorted id_desc l.
Proof.
  induction 1 as [|a l Hs IH Hall]; constructor; [done|].
  eapply Forall_impl; [done|]. unfold id_desc. simpl. lia.
Qed.

Lemma lite_desc_filter (P : Z * task_row -> Prop) `{!forall x, Decision (P x)}
    (l : list (Z * task_row)) :
  StronglySorted (fun a b => b.1 < a.1) l ->
  StronglySorted (fun a b => b.1 < a.1) (filter P l).
Proof.
  induction 1 as [|a l Hs IH Hall]; [constructor|].
  rewrite filter_cons. destruct (decide (P a)); [|done].
  constructor; [done|]. rewrite Forall_forall in Hall |- *.
  intros b [_ Hb]%list_elem_of_filter. by apply Hall.
Qed.

(** The query returns the one strictly descending list of the caller's
    rows. *)
Lemma lite_stmtGetAllTasksForUser_unique d uid (l : list (Z * task_row)) :
  StronglySorted (fun a b => b.1 < a.1) l ->
  (forall i r, (i, r) ∈ l <-> tasks d !! i = Some r /\ owner_id r = uid) ->
  stmtGetAllTasksForUser d uid = l.
Proof.
  intros Hs Hin. apply (StronglySorted_unique_strong id_desc).
  - intros [i1 r1] [i2 r2] H1 H2 H12 H21.
    unfold id_desc in H12, H21. simpl in H12, H21.
    assert (i1 = i2) as -> by lia.
    apply elem_of_stmtGetAllTasksForUser in H1 as [H1 _]. apply Hin in H2 as [H2 _].
    congruence.
  - apply StronglySorted_merge_sort; apply _.
  - by apply lite_desc_id_desc.
  - apply NoDup_Permutation.
    + eapply NoDup_fmap_1, stmtGetAllTasksForUser_NoDup.
    + by apply lite_desc_NoDup.
    + intros [i r]. by rewrite elem_of_stmtGetAllTasksForUser, Hin.
Qed.

(** Rows of other owners play no part in the query. *)
Lemma lite_stmtGetAllTasksForUser_ext d d' uid :
  (forall i r, owner_id r = uid ->
     tasks d' !! i = Some r <-> tasks d !! i = Some r) ->
  stmtGetAllTasksForUser d' uid = stmtGetAllTasksForUser d uid.
Proof.
  intros Hsame. apply lite_stmtGetAllTasksForUser_unique; [apply stmtGetAllTasksForUser_sorted|].
  intros i r. rewrite elem_of_stmtGetAllTasksForUser. split.
  - intros [Hr Ho]. split; [|done]. by apply Hsame.
  - intros [Hr Ho]. split; [|done]. by apply Hsame.
Qed.

Lemma lite_stmtGetAllTasksForUser_insert d uid t :
  db_wf d ->
  stmtGetAllTasksForUser (stmtInsertTask d uid t).1 uid =
    (tasks_seq d + 1, TaskRow uid t 0) :: stmtGetAllTasksForUser d uid.
Proof.
  intros Hwf. apply lite_stmtGetAllTasksForUser_unique.
  - constructor; [apply stmtGetAllTasksForUser_sorted|].
    apply Forall_forall. intros [i r] [Hr _]%elem_of_stmtGetAllTasksForUser.
    apply Hwf in Hr. simpl. lia.
  - intros i r. unfold stmtInsertTask. simpl.
    rewrite elem_of_cons, elem_of_stmtGetAllTasksForUser, lookup_insert.
    case_decide as Hi.
    + subst i. split.
      * intros [[= ->]|[Hr _]]; [done|]. apply Hwf in Hr. lia.
      * intros [[= <-] _]. by left.
    + split.
      * intros [[= ? _]|?]; [lia|done].
      * intros ?. by right.
Qed.

Lemma lite_stmtGetAllTasksForUser_replace d uid taskId r r' :
  tasks d !! taskId = Some r -> owner_id r = uid -> owner_id r' = uid ->
  stmtGetAllTasksForUser (with_tasks d (<[taskId := r']> (tasks d))) uid =
    (fun kv => if decide (kv.1 = taskId) then (taskId, r') else kv)
      <$> stmtGetAllTasksForUser d uid.
Proof.
  intros Hr Ho Ho'. apply lite_stmtGetAllTasksForUser_unique.
  - eapply StronglySorted_fmap; [|apply stmtGetAllTasksForUser_sorted].
    intros [i1 r1] [i2 r2]. simpl. by repeat case_decide; subst; simpl.
  - intros i x. simpl. rewrite lookup_insert, list_elem_of_fmap. split.
    + intros ([j y] & Heq & [Hy Hoy]%elem_of_stmtGetAllTasksForUser). simpl in Heq.
      case_decide as Hj; injection Heq as -> ->.
      * subst j. by rewrite decide_True by done.
      * by rewrite decide_False by done.
    + case_decide as Hi.
      * subst i. intros [[= <-] _]. exists (taskId, r). simpl.
        rewrite decide_True by done. split; [done|].
        by apply elem_of_stmtGetAllTasksForUser.
      * intros [Hx Hox]. exists (i, x). simpl.
        rewrite decide_False by done. split; [done|].
        by apply elem_of_stmtGetAllTasksForUser.
Qed.

Lemma lite_stmtGetAllTasksForUser_delete d uid taskId :
  stmtGetAllTasksForUser (with_tasks d (delete taskId (tasks d))) uid =
    filter (fun kv => kv.1 <> taskId) (stmtGetAllTasksForUser d uid).
Proof.
  apply lite_stmtGetAllTasksForUser_unique.
  - apply lite_desc_filter, stmtGetAllTasksForUser_sorted.
  - intros i r. simpl.
    rewrite list_elem_of_filter, elem_of_stmtGetAllTasksForUser, lookup_delete_Some.
    simpl. naive_solver.
Qed.

(** The row the client shows after an update that was answered 200. *)
Lemma lite_to_json_updated taskId r b :
  to_json (taskId, updated r b) = patch_json b (to_json (taskId, r)).
Proof.
  unfold to_json, patch_json, updated, requested_title, requested_completed.
  simpl. by destruct (body_title b), (body_completed b) as [| |[]| | | |].
Qed.

Lemma lite_create_then_list d uid b d' row :
  db_wf d ->
  create_task d uid b = (d', Response 201 (TaskBody row)) ->
  list_tasks d' uid =
    (d', Response 200
           (TasksBody (row :: (to_json <$> stmtGetAllTasksForUser d uid)))) /\
  forall other, other <> uid ->
    stmtGetAllTasksForUser d' other = stmtGetAllTasksForUser d other.
Proof.
  intros Hwf. unfold create_task.
  destruct (_ <? _)%nat; [discriminate|].
  pose proof (lite_stmtGetAllTasksForUser_insert d uid
                (trim (text_field (new_title b))) Hwf) as Hins.
  unfold stmtInsertTask in *. simpl in *. intros [= <- <-]. split.
  - unfold list_tasks. by rewrite Hins.
  - intros other Hne. apply lite_stmtGetAllTasksForUser_ext. intros i r Ho. simpl.
    rewrite lookup_insert. case_decide; [|done]. subst i. split.
    + intros [= <-]. simpl in Ho. congruence.
    + intros Hr%Hwf. lia.
Qed.

Lemma lite_update_then_list d uid taskId b d' :
  put_task d uid taskId b = (d', Response 200 SuccessBody) ->
  to_json <$> stmtGetAllTasksForUser d' uid =
    (fun j => if decide (json_id j = taskId) then patch_json b j else j)
      <$> (to_json <$> stmtGetAllTasksForUser d uid) /\
  forall other, other <> uid ->
    stmtGetAllTasksForUser d' other = stmtGetAllTasksForUser d other.
Proof.
  destruct (lite_put_task_cases d uid taskId b)
    as [(? & _ & _ & ->)|[[_ ->]|(r & Hrow & ->)]]; try discriminate.
  intros [= <-]. apply lite_owned_row_Some in Hrow as [Hr Ho]. split.
  - rewrite (lite_stmtGetAllTasksForUser_replace d uid taskId r (updated r b) Hr Ho)
      by done.
    rewrite <- !list_fmap_compose. apply list_fmap_ext.
    intros k [i x] Hk. simpl.
    apply list_elem_of_lookup_2, elem_of_stmtGetAllTasksForUser in Hk as [Hx _].
    case_decide as Hi; [|done]. subst i.
    assert (x = r) as -> by congruence. apply lite_to_json_updated.
  - intros other Hne. apply lite_stmtGetAllTasksForUser_ext. intros i x Hox. simpl.
    rewrite lookup_insert. case_decide; [|done]. subst i. split.
    + intros [= <-]. simpl in Hox. congruence.
    + intros Hx. congruence.
Qed.

Lemma lite_delete_then_list d uid taskId d' :
  remove_task d uid taskId = (d', Response 200 SuccessBody) ->
  to_json <$> stmtGetAllTasksForUser d' uid =
    filter (fun j => json_id j <> taskId) (to_json <$> stmtGetAllTasksForUser d uid) /\
  tasks d' !! taskId = None /\
  forall other, other <> uid ->
    stmtGetAllTasksForUser d' other = stmtGetAllTasksForUser d other.
Proof.
  destruct (owned_row d taskId uid) as [r|] eqn:Hrow.
  - rewrite (lite_remove_task_found d uid taskId r Hrow). intros [= <-].
    apply lite_owned_row_Some in Hrow as [Hr Ho]. split; [|split].
    + rewrite lite_stmtGetAllTasksForUser_delete. generalize (stmtGetAllTasksForUser d uid).
      intros l. induction l as [|[i x] l IH]; [done|]. csimpl.
      rewrite !filter_cons. simpl. case_decide; csimpl; by rewrite IH.
    + simpl. apply lookup_delete_eq.
    + intros other Hne. apply lite_stmtGetAllTasksForUser_ext. intros i x Hox. simpl.
      rewrite lookup_delete_Some. split; [by intros [_ ?]|].
      intros Hx. split; [|done]. intros <-. congruence.
  - rewrite (lite_remove_task_missing d uid taskId Hrow). discriminate.
Qed.

(** An update or a removal that is not answered 200 changes nothing. *)
Lemma lite_put_task_failed d uid taskId b d' a :
  put_task d uid taskId b = (d', a) -> a <> Response 200 SuccessBody ->
  d' = d.
Proof.
  destruct (lite_put_task_cases d uid taskId b)
    as [(? & _ & _ & ->)|[[_ ->]|(r & _ & ->)]]; by intros [= <- <-].
Qed.

Lemma lite_remove_task_failed d uid taskId d' a :
  remove_task d uid taskId = (d', a) -> a <> Response 200 SuccessBody ->
  d' = d.
Proof.
  destruct (owned_row d taskId uid) as [r|] eqn:Hrow.
  - rewrite (lite_remove_task_found d uid taskId r Hrow). by intros [= <- <-].
  - rewrite (lite_remove_task_missing d uid taskId Hrow). by intros [= <- <-].
Qed.

(** *** Repeating a request *)

Lemma lite_updated_idem r b : updated (updated r b) b = updated r b.
Proof.
  unfold updated. simpl.
  by destruct (requested_title b), (requested_completed b).
Qed.

Lemma lite_put_task_idem d uid taskId b :
  put_task (put_task d uid taskId b).1 uid taskId b = put_task d uid taskId b.
Proof.
  destruct (lite_put_task_cases_valid d uid taskId b)
    as [Heq|[Heq|(r & Hrow & Hok & Heq)]]; rewrite Heq; simpl; try done.
  apply lite_owned_row_Some in Hrow as [Hr Ho].
  assert (Hreq : is_Some (requested_title b) \/
                 is_Some (requested_completed b)).
  { destruct (requested_title b) eqn:Ht; [left; by eexists|].
    destruct (requested_completed b) eqn:Hc; [right; by eexists|].
    rewrite (lite_put_task_nothing d uid taskId b Ht Hc) in Heq. discriminate. }
  rewrite (lite_put_task_found _ uid taskId b (updated r b)); try done.
  - simpl. unfold with_tasks. simpl.
    by rewrite lite_updated_idem, insert_insert_eq.
  - by apply lite_owned_row_with_tasks.
Qed.


(** *** Who can change a task *)

(** From [d] to [d'], only rows owned by [uid] were changed or removed,
    and none changed owner. *)
Definition touched_by (uid : Z) (d d' : db) : Prop :=
  forall i t, tasks d !! i = Some t ->
    tasks d' !! i = Some t \/
    (owner_id t = uid /\
     (tasks d' !! i = None \/
      exists t', tasks d' !! i = Some t' /\ owner_id t' = uid)).

Lemma lite_put_task_touched d uid taskId b :
  touched_by uid d (put_task d uid taskId b).1.
Proof.
  intros i t Hi.
  destruct (lite_put_task_cases d uid taskId b)
    as [(? & _ & _ & ->)|[[_ ->]|(r & Hrow & ->)]]; try by left.
  apply lite_owned_row_Some in Hrow as [Hr Ho]. simpl.
  rewrite lookup_insert. case_decide; [|by left]. subst i.
  right. assert (t = r) as -> by congruence. split; [done|].
  right. by exists (updated r b).
Qed.

Lemma lite_remove_task_touched d uid taskId :
  touched_by uid d (remove_task d uid taskId).1.
Proof.
  intros i t Hi. destruct (owned_row d taskId uid) as [r|] eqn:Hrow.
  - rewrite (lite_remove_task_found d uid taskId r Hrow). simpl.
    apply lite_owned_row_Some in Hrow as [Hr Ho].
    destruct (decide (i = taskId)) as [->|Hne].
    + right. assert (t = r) as -> by congruence. split; [done|]. left.
      apply lookup_delete_eq.
    + left. by rewrite lookup_delete_ne.
  - rewrite (lite_remove_task_missing d uid taskId Hrow). by left.
Qed.

Lemma lite_create_task_touched d uid b :
  db_wf d -> touched_by uid d (create_task d uid b).1.
Proof. intros Hwf i t Hi. left. by apply lite_create_task_frame. Qed.

Lemma lite_handle_rejected d e r auth a :
  credentials r = Some auth -> requireAuth auth (now e) = inl a ->
  handle d e r = (d, a).
Proof.
  destruct r; simpl; try discriminate; intros [= ->] Hno;
    unfold protected; by rewrite Hno.
Qed.

Lemma lite_requireAuth_inl auth t a :
  requireAuth auth t = inl a ->
  a = Response 401 (ErrorBody "Missing token") \/
  a = Response 401 (ErrorBody "Invalid or expired token").
Proof.
  unfold requireAuth. destruct auth as [|s|tok]; try (intros [= <-]; by left).
  destruct (Jwt.verify _ _ _); [discriminate|]. intros [= <-]. by right.
Qed.

(** A request changes or removes a task only if it carries a token that
    [requireAuth] accepts as the owner of the task. *)
Lemma lite_handle_touched d e r i t :
  db_wf d -> tasks d !! i = Some t ->
  tasks (handle d e r).1 !! i = Some t \/
  (exists auth c,
     credentials r = Some auth /\ requireAuth auth (now e) = inr c /\
     Jwt.id c = owner_id t /\
     (tasks (handle d e r).1 !! i = None \/
      exists t', tasks (handle d e r).1 !! i = Some t' /\
                 owner_id t' = owner_id t)).
Proof.
  intros Hwf Hi.
  assert (Hvia : forall auth (k : Z -> db * response),
    credentials r = Some auth ->
    handle d e r = protected d e auth k ->
    (forall uid, touched_by uid d (k uid).1) ->
    tasks (handle d e r).1 !! i = Some t \/
    (exists auth c,
       credentials r = Some auth /\ requireAuth auth (now e) = inr c /\
       Jwt.id c = owner_id t /\
       (tasks (handle d e r).1 !! i = None \/
        exists t', tasks (handle d e r).1 !! i = Some t' /\
                   owner_id t' = owner_id t))).
  { intros auth k Hcred -> Hk. unfold protected.
    destruct (requireAuth auth (now e)) as [a|c] eqn:Hauth; [by left|].
    destruct (Hk (Jwt.id c) i t Hi) as [?|[Ho Hnew]]; [by left|].
    right. exists auth, c. repeat split; try done. rewrite Ho.
    destruct Hnew as [?|(t' & ? & ?)]; [by left|]. right. by exists t'. }
  destruct r as [|b|b|auth|auth b|auth taskId b|auth taskId].
  - by left.
  - left. cbn [handle]. destruct (lite_register_tasks d e b) as [-> _]. done.
  - left. cbn [handle]. by rewrite lite_login_same.
  - apply (Hvia auth (fun uid => list_tasks d uid)); try done.
    intros uid j x Hj. by left.
  - apply (Hvia auth (fun uid => create_task d uid b)); try done.
    intros uid. by apply lite_create_task_touched.
  - apply (Hvia auth (fun uid => put_task d uid taskId b)); try done.
    intros uid. apply lite_put_task_touched.
  - apply (Hvia auth (fun uid => remove_task d uid taskId)); try done.
    intros uid. apply lite_remove_task_touched.
Qed.

(** *** Ids are not given out twice *)

Lemma lite_handle_seq d e r : tasks_seq d <= tasks_seq (handle d e r).1.
Proof.
  destruct r as [|b|b|auth|auth b|auth taskId b|auth taskId]; cbn [handle];
    try done.
  - destruct (lite_register_tasks d e b) as [_ ->]. done.
  - by rewrite lite_login_same.
  - unfold protected. by destruct (requireAuth _ _).
  - unfold protected. destruct (requireAuth _ _); [done|].
    unfold create_task, stmtInsertTask. destruct (_ <? _)%nat; simpl; lia.
  - unfold protected. destruct (requireAuth _ _) as [a|c]; [done|].
    destruct (lite_put_task_cases d (Jwt.id c) taskId b)
      as [(? & _ & _ & ->)|[[_ ->]|(r & _ & ->)]]; done.
  - unfold protected. destruct (requireAuth _ _) as [a|c]; [done|].
    unfold remove_task, stmtDeleteTask. by destruct (owned_row _ _ _).
Qed.

Lemma lite_handle_unused d e r i :
  db_wf d -> i <= tasks_seq d -> tasks d !! i = None ->
  tasks (handle d e r).1 !! i = None.
Proof.
  intros Hwf Hle Hi.
  destruct r as [|b|b|auth|auth b|auth taskId b|auth taskId]; cbn [handle];
    try done.
  - destruct (lite_register_tasks d e b) as [-> _]. done.
  - by rewrite lite_login_same.
  - unfold protected. by destruct (requireAuth _ _).
  - unfold protected. destruct (requireAuth _ _); [done|].
    unfold create_task, stmtInsertTask. destruct (_ <? _)%nat; [done|]. simpl.
    rewrite lookup_insert_ne; [done|]. lia.
  - unfold protected. destruct (requireAuth _ _) as [a|c]; [done|].
    destruct (lite_put_task_cases d (Jwt.id c) taskId b)
      as [(? & _ & _ & ->)|[[_ ->]|(r & Hrow & ->)]]; try done.
    apply lite_owned_row_Some in Hrow as [Hr _]. simpl.
    rewrite lookup_insert_ne; [done|]. intros <-. congruence.
  - unfold protected. destruct (requireAuth _ _) as [a|c]; [done|].
    unfold remove_task, stmtDeleteTask.
    destruct (owned_row _ _ _); [|done]. simpl.
    destruct (decide (taskId = i)) as [->|Hne];
      [apply lookup_delete_eq|by rewrite lookup_delete_ne].
Qed.

Lemma lite_serve_unused d rs i :
  db_wf d -> i <= tasks_seq d -> tasks d !! i = None ->
  tasks (serve d rs).1 !! i = None.
Proof.
  revert d. induction rs as [|[e r] rs IH]; intros d Hwf Hle Hi; [done|].
  simpl. pose proof (lite_handle_wf d e r Hwf) as Hwf1.
  pose proof (lite_handle_seq d e r) as Hseq.
  pose proof (lite_handle_unused d e r i Hwf Hle Hi) as Hi1.
  destruct (handle d e r) as [d1 a]. simpl in *.
  specialize (IH d1 Hwf1 ltac:(lia) Hi1). by destruct (serve d1 rs).
Qed.

End Handlers.
End SqliteMore.

(** ** Both servers: accounts *)

(** X1. A registration answered 201 can be followed by any requests: a
    login with the same body is then answered 200 with a token for the
    same user id and e-mail, provided [bcrypt.compareSync] accepts the
    password against the hash made at registration. *)
Theorem registered_user_can_log_in `{Runtime} (e e' : env) (b : auth_body)
    (tok : Jwt.token) (rs : list (env * request)) :
  bcrypt_compareSync (text_field (body_password b))
    (bcrypt_hashSync (salt e) (text_field (body_password b)) 10) = true ->
  (forall d d1 : Postgres.db,
     Postgres.register d e b = (d1, Response 201 (TokenBody tok)) ->
     exists c,
       tok = Jwt.Signed c JWT_SECRET /\
       Postgres.login (Postgres.serve d1 rs).1 e' b =
         ((Postgres.serve d1 rs).1,
          Response 200
            (TokenBody
               (Jwt.Signed
                  (Jwt.Claims (Jwt.id c) (Jwt.email c) (now e')
                              (now e' + 7200))
                  JWT_SECRET)))) /\
  (forall d d1 : Sqlite.db,
     Sqlite.register d e b = (d1, Response 201 (TokenBody tok)) ->
     exists c,
       tok = Jwt.Signed c JWT_SECRET /\
       Sqlite.login (Sqlite.serve d1 rs).1 e' b =
         ((Sqlite.serve d1 rs).1,
          Response 200
            (TokenBody
               (Jwt.Signed
                  (Jwt.Claims (Jwt.id c) (Jwt.email c) (now e')
                              (now e' + 7200))
                  JWT_SECRET)))).
Proof.
  intros Hbcrypt. split.
  - intros d d1. by apply PostgresMore.register_then_login.
  - intros d d1. by apply SqliteMore.lite_register_then_login.
Qed.

(** Carol registers on the SQLite server, Alice deletes a task, and Carol
    logs in. *)
Lemma registered_user_can_log_in_witness :
  let carol := AuthBody (JStr " Carol@Example.ORG") (JStr "pass") in
  let d1 := (@Sqlite.register Demo.runtime Demo.lite (Env 200 "s3") carol).1 in
  let rs := [(Env 210 "", DeleteTask (Demo.alice_token 100) 1)] in
  (@Sqlite.login Demo.runtime (@Sqlite.serve Demo.runtime d1 rs).1
     (Env 300 "") carol).2 =
    Response 200
      (TokenBody (Jwt.Signed (Jwt.Claims 3 "carol@example.org" 300 7500)
                             "dev-fallback")).
Proof.
  intros carol d1 rs.
  destruct (@registered_user_can_log_in Demo.runtime (Env 200 "s3")
              (Env 300 "") carol
              (Jwt.Signed (Jwt.Claims 3 "carol@example.org" 200 7400)
                          "dev-fallback") rs eq_refl) as [_ Hs].
  destruct (Hs Demo.lite d1 eq_refl) as (c & [= <-] & ->). reflexivity.
Defined.

(** X2. Whatever requests a server has answered since it was started on a
    fresh database, its users table has no two rows with the same e-mail
    or the same id, every id lies between 1 and the sequence, and every
    e-mail contains ["@"] and is in normal form (trimmed, lower case). *)
Theorem reachable_users_consistent `{Runtime} (rs : list (env * request)) :
  PostgresMore.users_inv (Postgres.serve Postgres.initDb rs).1 /\
  SqliteMore.users_inv (Sqlite.serve Sqlite.fresh rs).1.
Proof.
  split.
  - apply PostgresMore.serve_inv, PostgresMore.initDb_inv.
  - apply SqliteMore.lite_serve_inv, SqliteMore.lite_fresh_inv.
Qed.

(** X3. Whatever requests a server has answered since it was started on a
    fresh database, every stored task has an id between 1 and the
    sequence and a title that is trimmed and has at least 2 characters;
    on SQLite its [completed] column is 0 or 1. *)
Theorem reachable_tasks_consistent `{Runtime} (rs : list (env * request)) :
  PostgresMore.tasks_inv (Postgres.serve Postgres.initDb rs).1 /\
  SqliteMore.tasks_inv (Sqlite.serve Sqlite.fresh rs).1.
Proof.
  split.
  - apply PostgresMore.serve_inv, PostgresMore.initDb_inv.
  - apply SqliteMore.lite_serve_inv, SqliteMore.lite_fresh_inv.
Qed.

(** ** Both servers: how the list follows the other operations *)

(** X4. In a well-formed database, after a creation answered 201 with
    [row], the creator's list is [row] followed by the list as it was, and
    the list of every other user is as it was. *)
Theorem created_task_heads_list :
  (forall (d d' : Postgres.db) uid b row,
     PostgresFacts.db_wf d ->
     Postgres.create_task d uid b = (d', Response 201 (TaskBody row)) ->
     (Postgres.list_tasks d' uid).2 =
       Response 200
         (TasksBody
            (row :: (Postgres.to_json <$> Postgres.select_tasks d uid))) /\
     forall other, other <> uid ->
       (Postgres.list_tasks d' other).2 = (Postgres.list_tasks d other).2) /\
  (forall (d d' : Sqlite.db) uid b row,
     SqliteFacts.db_wf d ->
     Sqlite.create_task d uid b = (d', Response 201 (TaskBody row)) ->
     (Sqlite.list_tasks d' uid).2 =
       Response 200
         (TasksBody
            (row :: (Sqlite.to_json <$> Sqlite.stmtGetAllTasksForUser d uid)))
     /\
     forall other, other <> uid ->
       (Sqlite.list_tasks d' other).2 = (Sqlite.list_tasks d other).2).
Proof.
  split.
  - intros d d' uid b row Hwf Hc.
    destruct (PostgresMore.create_then_list d uid b d' row Hwf Hc)
      as [Hl Ho].
    split; [by rewrite Hl|]. intros other Hne.
    unfold Postgres.list_tasks. simpl. by rewrite (Ho other Hne).
  - intros d d' uid b row Hwf Hc.
    destruct (SqliteMore.lite_create_then_list d uid b d' row Hwf Hc)
      as [Hl Ho].
    split; [by rewrite Hl|]. intros other Hne.
    unfold Sqlite.list_tasks. simpl. by rewrite (Ho other Hne).
Qed.

(** Bob adds a task: his list is the new task and then "Pay rent";
    Alice's list is as before. *)
Lemma created_task_heads_list_witness :
  let d' := (Postgres.create_task Demo.pg 2 (CreateBody (JStr "Water"))).1 in
  (Postgres.list_tasks d' 2).2 =
    Response 200 (TasksBody [TaskJson 4 "Water" false;
                             TaskJson 2 "Pay rent" false]) /\
  (Postgres.list_tasks d' 1).2 = (Postgres.list_tasks Demo.pg 1).2.
Proof.
  intros d'. destruct created_task_heads_list as [Hp _].
  destruct (Hp Demo.pg d' 2 (CreateBody (JStr "Water"))
              (TaskJson 4 "Water" false)) as [Hl Ho].
  - apply (@PostgresFacts.serve_wf Demo.runtime), PostgresFacts.initDb_wf.
  - reflexivity.
  - split; [by rewrite Hl|]. apply Ho. lia.
Defined.

(** X5. After an update answered 200, the caller's list is the list as it
    was with the row of that id patched (trimmed title if a string title
    was sent, flag if a boolean was sent), in the same order, and the list
    of every other user is as it was. An update answered otherwise leaves
    the database as it was. *)
Theorem update_reflected_in_list :
  (forall (d d' : Postgres.db) uid taskId b a,
     Postgres.put_task d uid taskId b = (d', a) ->
     (a = Response 200 SuccessBody ->
        Postgres.to_json <$> Postgres.select_tasks d' uid =
          (fun j => if decide (json_id j = taskId) then patch_json b j
                    else j)
            <$> (Postgres.to_json <$> Postgres.select_tasks d uid) /\
        forall other, other <> uid ->
          Postgres.select_tasks d' other = Postgres.select_tasks d other) /\
     (a <> Response 200 SuccessBody -> d' = d)) /\
  (forall (d d' : Sqlite.db) uid taskId b a,
     Sqlite.put_task d uid taskId b = (d', a) ->
     (a = Response 200 SuccessBody ->
        Sqlite.to_json <$> Sqlite.stmtGetAllTasksForUser d' uid =
          (fun j => if decide (json_id j = taskId) then patch_json b j
                    else j)
            <$> (Sqlite.to_json <$> Sqlite.stmtGetAllTasksForUser d uid) /\
        forall other, other <> uid ->
          Sqlite.stmtGetAllTasksForUser d' other =
            Sqlite.stmtGetAllTasksForUser d other) /\
     (a <> Response 200 SuccessBody -> d' = d)).
Proof.
  split.
  - intros d d' uid taskId b a Hput. split.
    + intros ->. by apply PostgresMore.update_then_list.
    + by apply (PostgresMore.put_task_failed d uid taskId b).
  - intros d d' uid taskId b a Hput. split.
    + intros ->. by apply SqliteMore.lite_update_then_list.
    + by apply (SqliteMore.lite_put_task_failed d uid taskId b).
Qed.

(** Alice closes task 1 on the SQLite server. *)
Lemma update_reflected_in_list_witness :
  let b := UpdateBody JUndefined (JBool true) in
  (Sqlite.list_tasks (Sqlite.put_task Demo.lite 1 1 b).1 1).2 =
    Response 200 (TasksBody [TaskJson 3 "Call mum" false;
                             TaskJson 1 "Buy milk" true]).
Proof.
  intros b. destruct update_reflected_in_list as [_ Hs].
  destruct (Hs Demo.lite (Sqlite.put_task Demo.lite 1 1 b).1 1 1 b
              (Response 200 SuccessBody) eq_refl) as [Hok _].
  destruct (Hok eq_refl) as [Hrows _].
  unfold Sqlite.list_tasks. simpl. by rewrite Hrows.
Defined.

(** X6. After a removal answered 200, no row has that id, the caller's
    list is the list as it was without the task of that id, in the same
    order, and the list of every other user is as it was. A removal
    answered otherwise leaves the database as it was. *)
Theorem delete_reflected_in_list :
  (forall (d d' : Postgres.db) uid taskId a,
     Postgres.remove_task d uid taskId = (d', a) ->
     (a = Response 200 SuccessBody ->
        Postgres.to_json <$> Postgres.select_tasks d' uid =
          filter (fun j => json_id j <> taskId)
                 (Postgres.to_json <$> Postgres.select_tasks d uid) /\
        Postgres.tasks d' !! taskId = None /\
        forall other, other <> uid ->
          Postgres.select_tasks d' other = Postgres.select_tasks d other) /\
     (a <> Response 200 SuccessBody -> d' = d)) /\
  (forall (d d' : Sqlite.db) uid taskId a,
     Sqlite.remove_task d uid taskId = (d', a) ->
     (a = Response 200 SuccessBody ->
        Sqlite.to_json <$> Sqlite.stmtGetAllTasksForUser d' uid =
          filter (fun j => json_id j <> taskId)
                 (Sqlite.to_json <$> Sqlite.stmtGetAllTasksForUser d uid) /\
        Sqlite.tasks d' !! taskId = None /\
        forall other, other <> uid ->
          Sqlite.stmtGetAllTasksForUser d' other =
            Sqlite.stmtGetAllTasksForUser d other) /\
     (a <> Response 200 SuccessBody -> d' = d)).
Proof.
  split.
  - intros d d' uid taskId a Hdel. split.
    + intros ->. by apply PostgresMore.delete_then_list.
    + by apply (PostgresMore.remove_task_failed d uid taskId).
  - intros d d' uid taskId a Hdel. split.
    + intros ->. by apply SqliteMore.lite_delete_then_list.
    + by apply (SqliteMore.lite_remove_task_failed d uid taskId).
Qed.

(** Alice removes task 3 on the Postgres server. *)
Lemma delete_reflected_in_list_witness :
  (Postgres.list_tasks (Postgres.remove_task Demo.pg 1 3).1 1).2 =
    Response 200 (TasksBody [TaskJson 1 "Buy milk" false]).
Proof.
  destruct delete_reflected_in_list as [Hp _].
  destruct (Hp Demo.pg (Postgres.remove_task Demo.pg 1 3).1 1 3
              (Response 200 SuccessBody) eq_refl) as [Hok _].
  destruct (Hok eq_refl) as [Hrows _].
  unfold Postgres.list_tasks. simpl. by rewrite Hrows.
Defined.

(** ** Both servers: repeating and rejecting requests *)

(** X7. An update is idempotent: sent again with the same body on the
    database the first one left, it leaves that database as it is and is
    answered as the first one was. *)
Theorem update_is_idempotent :
  (forall (d : Postgres.db) uid taskId b,
     Postgres.put_task (Postgres.put_task d uid taskId b).1 uid taskId b =
       Postgres.put_task d uid taskId b) /\
  (forall (d : Sqlite.db) uid taskId b,
     Sqlite.put_task (Sqlite.put_task d uid taskId b).1 uid taskId b =
       Sqlite.put_task d uid taskId b).
Proof.
  split.
  - apply PostgresMore.put_task_idem.
  - apply SqliteMore.lite_put_task_idem.
Qed.


(** X9. In a well-formed database, whatever the request, a stored task is
    the same afterwards unless the request is to a protected route and
    carries a token that [requireAuth] accepts with the id of the task's
    owner; the task is then removed or still has the same owner. *)
Theorem only_owner_token_changes_task `{Runtime} (e : env) (r : request)
    (i : Z) :
  (forall (d : Postgres.db) t,
     PostgresFacts.db_wf d -> Postgres.tasks d !! i = Some t ->
     Postgres.tasks (Postgres.handle d e r).1 !! i = Some t \/
     exists auth c,
       credentials r = Some auth /\
       Postgres.requireAuth auth (now e) = inr c /\
       Jwt.id c = Postgres.owner_id t /\
       (Postgres.tasks (Postgres.handle d e r).1 !! i = None \/
        exists t', Postgres.tasks (Postgres.handle d e r).1 !! i = Some t' /\
                   Postgres.owner_id t' = Postgres.owner_id t)) /\
  (forall (d : Sqlite.db) t,
     SqliteFacts.db_wf d -> Sqlite.tasks d !! i = Some t ->
     Sqlite.tasks (Sqlite.handle d e r).1 !! i = Some t \/
     exists auth c,
       credentials r = Some auth /\
       Sqlite.requireAuth auth (now e) = inr c /\
       Jwt.id c = Sqlite.owner_id t /\
       (Sqlite.tasks (Sqlite.handle d e r).1 !! i = None \/
        exists t', Sqlite.tasks (Sqlite.handle d e r).1 !! i = Some t' /\
                   Sqlite.owner_id t' = Sqlite.owner_id t)).
Proof.
  split.
  - intros d t. apply PostgresMore.handle_touched.
  - intros d t. apply SqliteMore.lite_handle_touched.
Qed.

(** Bob's token on Alice's task 1: the update is answered, and task 1 is
    as it was. *)
Lemma only_owner_token_changes_task_witness :
  Postgres.tasks
    (@Postgres.handle Demo.runtime Demo.pg (Env 200 "")
       (PutTask (Demo.bob_token 101) 1
                (UpdateBody (JStr "Mine now") (JBool true)))).1 !! 1 =
    Some (Postgres.TaskRow 1 "Buy milk" false).
Proof.
  destruct (@only_owner_token_changes_task Demo.runtime (Env 200 "")
              (PutTask (Demo.bob_token 101) 1
                       (UpdateBody (JStr "Mine now") (JBool true))) 1)
    as [Hp _].
  destruct (Hp Demo.pg (Postgres.TaskRow 1 "Buy milk" false))
    as [Hsame|(auth & c & [= <-] & Hc & Hid & _)].
  - apply (@PostgresFacts.serve_wf Demo.runtime), PostgresFacts.initDb_wf.
  - reflexivity.
  - exact Hsame.
  - vm_compute in Hc. injection Hc as <-. discriminate Hid.
Defined.

(** X10. A request to a protected route whose header is absent, is not a
    bearer token, holds a text that does not decode, or holds a token
    signed with another key or expired, is answered 401 by both servers
    and changes nothing. *)
Theorem rejected_token_changes_nothing `{Runtime} (e : env) (r : request)
    (auth : authorization) :
  credentials r = Some auth ->
  auth = NoAuthorization \/ (exists s, auth = OtherScheme s) \/
  auth = Bearer Jwt.Malformed \/
  (exists c key, auth = Bearer (Jwt.Signed c key) /\
                 (key <> JWT_SECRET \/ Jwt.exp c <= now e)) ->
  exists message,
    (forall d : Postgres.db,
       Postgres.handle d e r = (d, Response 401 (ErrorBody message))) /\
    (forall d : Sqlite.db,
       Sqlite.handle d e r = (d, Response 401 (ErrorBody message))).
Proof.
  intros Hcred Hbad.
  assert (Hno : exists message,
            Postgres.requireAuth auth (now e) =
              inl (Response 401 (ErrorBody message)) /\
            Sqlite.requireAuth auth (now e) =
              inl (Response 401 (ErrorBody message))).
  { destruct Hbad as [->|[[s ->]|[->|(c & key & -> & Hwhy)]]];
      try (eexists; split; reflexivity).
    exists "Invalid or expired token".
    unfold Postgres.requireAuth, Sqlite.requireAuth, Jwt.verify.
    destruct (String.eqb_spec key JWT_SECRET) as [->|Hne]; simpl; [|done].
    destruct Hwhy as [?|Hexp]; [done|].
    apply Z.leb_le in Hexp. by rewrite Hexp. }
  destruct Hno as (message & Hp & Hs). exists message. split.
  - intros d. by apply (PostgresMore.handle_rejected d e r auth).
  - intros d. by apply (SqliteMore.lite_handle_rejected d e r auth).
Qed.

(** Alice's token of time 100 at time 7300, and a token signed with
    another key. *)
Lemma rejected_token_changes_nothing_witness :
  @Sqlite.handle Demo.runtime Demo.lite (Env 7300 "")
    (DeleteTask (Demo.alice_token 100) 1) =
    (Demo.lite, Response 401 (ErrorBody "Invalid or expired token")) /\
  @Postgres.handle Demo.runtime Demo.pg (Env 200 "")
    (DeleteTask
       (Bearer (Jwt.Signed (Jwt.Claims 1 "alice@example.org" 100 7300)
                           "guess")) 1) =
    (Demo.pg, Response 401 (ErrorBody "Invalid or expired token")).
Proof.
  split.
  - destruct (@rejected_token_changes_nothing Demo.runtime (Env 7300 "")
                (DeleteTask (Demo.alice_token 100) 1)
                (Demo.alice_token 100) eq_refl) as (m & _ & Hs).
    + right. right. right. eexists _, _. split; [reflexivity|].
      right. simpl. lia.
    + rewrite Hs. pose proof (Hs Demo.lite) as Hm.
      vm_compute in Hm. by injection Hm as <-.
  - set (auth := Bearer (Jwt.Signed (Jwt.Claims 1 "alice@example.org" 100 7300)
                                    "guess")).
    destruct (@rejected_token_changes_nothing Demo.runtime (Env 200 "")
                (DeleteTask auth 1) auth eq_refl) as (m & Hp & _).
    + right. right. right. eexists _, _. split; [reflexivity|].
      left. discriminate.
    + rewrite Hp. pose proof (Hp Demo.pg) as Hm.
      vm_compute in Hm. by injection Hm as <-.
Defined.

(** X11. In a well-formed database an id that the sequence has passed and
    that no task has stays without a task whatever requests follow: the
    id of a removed task is not given to a later task. *)
Theorem task_ids_not_reused `{Runtime} (rs : list (env * request)) (i : Z) :
  (forall d : Postgres.db,
     PostgresFacts.db_wf d -> i <= Postgres.tasks_id_seq d ->
     Postgres.tasks d !! i = None ->
     Postgres.tasks (Postgres.serve d rs).1 !! i = None) /\
  (forall d : Sqlite.db,
     SqliteFacts.db_wf d -> i <= Sqlite.tasks_seq d ->
     Sqlite.tasks d !! i = None ->
     Sqlite.tasks (Sqlite.serve d rs).1 !! i = None).
Proof.
  split.
  - intros d. apply PostgresMore.serve_unused.
  - intros d. apply SqliteMore.lite_serve_unused.
Qed.

(** Alice removes task 3 and creates another task: it is task 4, and
    there is no task 3. *)
Lemma task_ids_not_reused_witness :
  let d := (Sqlite.remove_task Demo.lite 1 3).1 in
  let rs := [(Env 200 "", PostTasks (Demo.alice_token 100)
                                    (CreateBody (JStr "Call dad")))] in
  Sqlite.tasks (@Sqlite.serve Demo.runtime d rs).1 !! 3 = None /\
  Sqlite.tasks (@Sqlite.serve Demo.runtime d rs).1 !! 4 =
    Some (Sqlite.TaskRow 1 "Call dad" 0).
Proof.
  intros d rs. split; [|reflexivity].
  destruct (@task_ids_not_reused Demo.runtime rs 3) as [_ Hs].
  apply Hs; [|vm_compute; discriminate|reflexivity].
  apply SqliteFacts.lite_remove_task_wf.
  apply (@SqliteFacts.lite_serve_wf Demo.runtime), SqliteFacts.fresh_wf.
Defined.

(** ** The origin check *)

(** X12. A request without an [Origin] header passes the check, and one
    with the header passes exactly when the origin is the empty text, one
    of the three built-in origins, or [CLIENT_URL]; any other origin is
    blocked with a message that names it. *)
Theorem cors_origin_allowed (CLIENT_URL : option string) (o : string) :
  Cors.origin CLIENT_URL None = Cors.Allowed /\
  (Cors.origin CLIENT_URL (Some o) = Cors.Allowed <->
     o = "" \/ o = "http://localhost:5173" \/ o = "https://yourtaskist.com" \/
     o = "https://www.yourtaskist.com" \/ CLIENT_URL = Some o) /\
  (Cors.origin CLIENT_URL (Some o) = Cors.Allowed \/
   Cors.origin CLIENT_URL (Some o) =
     Cors.Blocked ("CORS blocked for origin: " +:+ o)).
Proof.
  split; [done|].
  destruct o as [|c o]; [split; [split; [by left|done]|by left]|].
  unfold Cors.origin, Cors.allowedOrigins. simpl.
  assert (Hin : String c o ∈
                  "http://localhost:5173"
                  :: "https://yourtaskist.com"
                  :: "https://www.yourtaskist.com"
                  :: Cors.filterBoolean [CLIENT_URL] <->
                String c o = "http://localhost:5173" \/
                String c o = "https://yourtaskist.com" \/
                String c o = "https://www.yourtaskist.com" \/
                CLIENT_URL = Some (String c o)).
  { rewrite !elem_of_cons.
    destruct CLIENT_URL as [[|c' u]|]; simpl;
      rewrite ?elem_of_cons, ?elem_of_nil; naive_solver. }
  case_bool_decide as Hdec.
  - split; [|by left]. split; [|done]. intros _. right. by apply Hin.
  - split; [|by right]. split; [done|]. intros [?|Hor]; [done|].
    by destruct Hdec; apply Hin.
Qed.

(** ** More on the client's view *)

Module ClientMore.
Import Client.



(** A list that is in order already is left as it is. *)
Lemma sort_in_order cmp l :
  StronglySorted (fun a b => cmp a b <= 0) l -> sort cmp l = l.
Proof.
  induction 1 as [|x l Hs IH Hall]; simpl; [done|]. rewrite IH.
  destruct Hall as [|y l Hxy _]; simpl; [done|].
  apply Z.leb_le in Hxy. by rewrite Hxy.
Qed.

(** The due date [sort] compares: [a.dueDate ?? a.due_date ?? ""]. *)
Definition due (t : task) : string :=
  nullish (dueDate t) (nullish (due_date t) "").

Definition undated (t : task) : bool := String.eqb (due t) "".

Lemma compare_due_date localeCompare a b :
  compare localeCompare "due_date" a b =
    if undated a && undated b then 0
    else if undated a then 1
    else if undated b then -1
    else localeCompare (due a) (due b).
Proof. reflexivity. Qed.

Lemma insert_by_due_date localeCompare x l1 l2 :
  Forall (fun t => undated t = false) l1 ->
  Forall (fun t => undated t = true) l2 ->
  exists l1',
    sort_insert (compare localeCompare "due_date") x (l1 ++ l2)%list =
      (l1' ++ (if undated x then x :: l2 else l2))%list /\
    Forall (fun t => undated t = false) l1'.
Proof.
  intros H1 H2. induction H1 as [|y l1 Hy H1 IH].
  - simpl. destruct (undated x) eqn:Hx.
    + exists []. split; [|done]. destruct H2 as [|y l2 Hy _]; [done|].
      simpl. by rewrite compare_due_date, Hx, Hy.
    + exists [x]. split; [|by repeat constructor].
      destruct H2 as [|y l2 Hy _]; [done|].
      simpl. by rewrite compare_due_date, Hx, Hy.
  - destruct IH as (l1' & Heq & Hl1'). simpl.
    destruct (compare localeCompare "due_date" x y <=? 0) eqn:Hc.
    + destruct (undated x) eqn:Hx.
      * rewrite compare_due_date, Hx, Hy in Hc. discriminate.
      * exists (x :: y :: l1). split; [done|]. by repeat constructor.
    + rewrite Heq. exists (y :: l1'). split; [done|]. by constructor.
Qed.

Lemma sort_by_due_date localeCompare l :
  exists l1,
    sort (compare localeCompare "due_date") l =
      (l1 ++ List.filter undated l)%list /\
    Forall (fun t => undated t = false) l1.
Proof.
  induction l as [|x l (l1 & Heq & Hl1)]; simpl.
  - by exists [].
  - rewrite Heq.
    destruct (insert_by_due_date localeCompare x l1 (List.filter undated l)
                Hl1) as (l1' & -> & Hl1').
    { apply Forall_forall. intros t Ht%list_elem_of_In.
      by apply filter_In in Ht as [_ ?]. }
    exists l1'. split; [|done]. by destruct (undated x).
Qed.

(** What the view compares on tasks parsed from a server's JSON, which has
    neither priority nor due date. *)
Lemma compare_parsed localeCompare sortBy a b :
  compare localeCompare sortBy (TaskApp.parsed a) (TaskApp.parsed b) =
    if String.eqb sortBy "priority" then 0
    else if String.eqb sortBy "due_date" then 0
    else Http.json_id b - Http.json_id a.
Proof.
  unfold compare. simpl.
  destruct (String.eqb sortBy "priority"); [done|].
  by destruct (String.eqb sortBy "due_date").
Qed.

Lemma parsed_in_order localeCompare sortBy rows :
  StronglySorted (fun a b => Http.json_id b < Http.json_id a) rows ->
  StronglySorted (fun a b => compare localeCompare sortBy a b <= 0)
                 (TaskApp.parsed <$> rows).
Proof.
  intros Hs. eapply StronglySorted_fmap; [|done].
  intros a b Hab. cbv beta in Hab. rewrite compare_parsed.
  destruct (String.eqb sortBy "priority"); [done|].
  destruct (String.eqb sortBy "due_date"); [done|]. lia.
Qed.

Lemma filter_parsed filterStatus rows :
  List.filter
    (fun t =>
       let s := nullish (status t) "todo" in
       if String.eqb filterStatus "all" then true
       else String.eqb s filterStatus)
    (TaskApp.parsed <$> rows) =
  if String.eqb filterStatus "all" || String.eqb filterStatus "todo"
  then TaskApp.parsed <$> rows else [].
Proof.
  destruct (String.eqb filterStatus "all") eqn:Hall; simpl.
  - induction rows as [|j rows IH]; csimpl; [done|]. by rewrite IH.
  - destruct (String.eqb filterStatus "todo") eqn:Htodo;
      induction rows as [|j rows IH]; cbn -[String.eqb]; try done;
      rewrite (String.eqb_sym "todo" filterStatus), Htodo;
      cbn -[String.eqb] in IH; by rewrite IH.
Qed.

End ClientMore.

(** ** The client's view: properties *)


(** X14. With [sortBy = "due_date"], the view lists every task that has a
    due date before every task that has none, and the tasks that have
    none in the order they were held, whatever the locale. *)
Theorem view_undated_last (localeCompare : string -> string -> Z)
    (l : list Client.task) :
  exists dated,
    Client.visibleTasks localeCompare (Some l) "all" "due_date" =
      (dated ++ List.filter ClientMore.undated l)%list /\
    Forall (fun t => ClientMore.undated t = false) dated.
Proof.
  unfold Client.visibleTasks. simpl.
  assert (Hall : List.filter (fun _ : Client.task => true) l = l).
  { induction l as [|x l IH]; simpl; [done|]. by rewrite IH. }
  rewrite Hall. apply ClientMore.sort_by_due_date.
Qed.

(** X15. For the tasks a server sends (strictly descending ids, no
    priority, status or due date), the view keeps the order received
    whatever the sort key; it shows all of them under the filters ["all"]
    and ["todo"] and none under any other filter. *)
Theorem view_of_server_rows (localeCompare : string -> string -> Z)
    (rows : list task_json) (filterStatus sortBy : string) :
  StronglySorted (fun a b => json_id b < json_id a) rows ->
  Client.visibleTasks localeCompare (Some (TaskApp.parsed <$> rows))
    filterStatus sortBy =
    if String.eqb filterStatus "all" || String.eqb filterStatus "todo"
    then TaskApp.parsed <$> rows else [].
Proof.
  intros Hs. unfold Client.visibleTasks. simpl.
  rewrite ClientMore.filter_parsed. destruct (_ || _); [|done].
  by apply ClientMore.sort_in_order, ClientMore.parsed_in_order.
Qed.

(** The two tasks Alice gets from the server, sorted by priority and
    filtered by ["done"]. *)
Lemma view_of_server_rows_witness :
  let rows := [TaskJson 3 "Call mum" false; TaskJson 1 "Buy milk" false] in
  Client.visibleTasks (fun _ _ => 0) (Some (TaskApp.parsed <$> rows))
    "all" "priority" = TaskApp.parsed <$> rows /\
  Client.visibleTasks (fun _ _ => 0) (Some (TaskApp.parsed <$> rows))
    "done" "newest" = [].
Proof.
  intros rows. split.
  - apply (view_of_server_rows (fun _ _ => 0) rows "all" "priority").
    repeat constructor; simpl; lia.
  - apply (view_of_server_rows (fun _ _ => 0) rows "done" "newest").
    repeat constructor; simpl; lia.
Defined.

(** ** The client against a server *)

(** One client action against a server that is in state [d] and answers at
    [e]: the state the server is left in and the state of the component,
    or [None] where the response leaves the model. *)
Definition against {DB : Type}
    (handle : DB -> env -> request -> DB * response)
    (d : DB) (e : env) (f : TaskApp.fetching) : option (DB * TaskApp.state) :=
  match f with
  | TaskApp.Done s => Some (d, s)
  | TaskApp.Fetch r k =>
      let '(d', res) := handle d e r in
      match k res with
      | Some s => Some (d', s)
      | None => None
      end
  end.

Module Sync.
Import TaskApp.

Lemma authHeaders_setError v s : authHeaders (setError v s) = authHeaders s.
Proof. by destruct s. Qed.

Lemma tasks_setError v s : tasks (setError v s) = tasks s.
Proof. by destruct s. Qed.

Lemma tasks_setTasks l s : tasks (setTasks l s) = l.
Proof. by destruct s. Qed.

Lemma tasks_added l s :
  tasks (setDueDate "" (setStatus "todo" (setPriority "medium"
           (setTitle "" (setTasks l s))))) = l.
Proof. by destruct s. Qed.

Lemma tasks_cancelEdit s : tasks (cancelEdit s) = tasks s.
Proof. by destruct s. Qed.

Lemma filter_parsed_id i rows :
  List.filter (fun t => negb (bool_decide (Client.id t = Some i)))
              (parsed <$> rows) =
    parsed <$> filter (fun j => json_id j <> i) rows.
Proof.
  induction rows as [|j rows IH]; [done|]. csimpl. rewrite filter_cons, IH.
  simpl. case_bool_decide as Heq; case_decide as Hne; simpl; try done.
  - injection Heq as Heq. by destruct Hne.
  - destruct Heq. congruence.
Qed.

Lemma map_title_parsed i (t : string) rows :
  Js.trim t = t ->
  List.map
    (fun x => if bool_decide (Client.id x = Some i)
              then Client.Task (Client.id x) t (Client.completed x)
                     (Client.priority x) (Client.status x)
                     (Client.dueDate x) (Client.due_date x)
              else x)
    (parsed <$> rows) =
  parsed <$>
    ((fun j => if decide (json_id j = i)
               then patch_json (UpdateBody (Js.JStr t) Js.JUndefined) j
               else j) <$> rows).
Proof.
  intros Ht. induction rows as [|j rows IH]; [done|]. csimpl. rewrite IH.
  case_bool_decide as Heq; case_decide as Hne.
  - unfold patch_json, parsed. simpl. by rewrite Ht.
  - injection Heq as Heq. by destruct Hne.
  - destruct Heq. simpl. congruence.
  - done.
Qed.

Section Server.
Context {DB : Type}.
Variable handle : DB -> env -> request -> DB * response.
Variable requireAuth : authorization -> Z -> response + Jwt.claims.
Variable rows : DB -> Z -> list task_json.
Variable wf : DB -> Prop.

Hypothesis rejected : forall d e r auth a,
  credentials r = Some auth -> requireAuth auth (now e) = inl a ->
  handle d e r = (d, a) /\ ok a = false.
Hypothesis listed : forall d e auth c,
  requireAuth auth (now e) = inr c ->
  handle d e (GetTasks auth) =
    (d, Response 200 (TasksBody (rows d (Jwt.id c)))).
Hypothesis created : forall d e auth c b,
  requireAuth auth (now e) = inr c -> wf d ->
  (exists a, handle d e (PostTasks auth b) = (d, a) /\ ok a = false) \/
  (exists d' row,
     handle d e (PostTasks auth b) = (d', Response 201 (TaskBody row)) /\
     rows d' (Jwt.id c) = row :: rows d (Jwt.id c)).
Hypothesis changed : forall d e auth c i b,
  requireAuth auth (now e) = inr c ->
  (exists a, handle d e (PutTask auth i b) = (d, a) /\ ok a = false) \/
  (exists d',
     handle d e (PutTask auth i b) = (d', Response 200 SuccessBody) /\
     rows d' (Jwt.id c) =
       (fun j => if decide (json_id j = i) then patch_json b j else j)
         <$> rows d (Jwt.id c)).
Hypothesis removed : forall d e auth c i,
  requireAuth auth (now e) = inr c ->
  (exists a, handle d e (DeleteTask auth i) = (d, a) /\ ok a = false) \/
  (exists d',
     handle d e (DeleteTask auth i) = (d', Response 200 SuccessBody) /\
     rows d' (Jwt.id c) = filter (fun j => json_id j <> i) (rows d (Jwt.id c))).
Hypothesis distinct : forall d uid, NoDup (json_id <$> rows d uid).

Lemma load_sync d e s c :
  isAuthed s = true -> requireAuth (authHeaders s) (now e) = inr c ->
  exists s',
    against handle d e (loadTasks s) = Some (d, s') /\
    tasks s' = parsed <$> rows d (Jwt.id c).
Proof.
  intros Hin Hauth. unfold loadTasks, against. rewrite Hin. simpl.
  rewrite authHeaders_setError, (listed d e _ c Hauth). simpl.
  eexists. split; [reflexivity|]. apply tasks_setTasks.
Qed.

Lemma add_sync d e s uid :
  wf d ->
  (forall c, requireAuth (authHeaders s) (now e) = inr c -> Jwt.id c = uid) ->
  tasks s = parsed <$> rows d uid ->
  exists d' s',
    against handle d e (addTask s) = Some (d', s') /\
    tasks s' = parsed <$> rows d' uid.
Proof.
  intros Hwf Hwho Hsync. unfold addTask, against.
  destruct (_ <? _)%nat; [by exists d, s|]. rewrite authHeaders_setError.
  destruct (requireAuth (authHeaders s) (now e)) as [a|c] eqn:Hauth.
  - destruct (rejected d e (PostTasks (authHeaders s)
                (CreateBody (Js.JStr (Js.trim (title s)))))
                (authHeaders s) a eq_refl Hauth) as [-> Hno].
    rewrite Hno. simpl. eexists d, _. split; [reflexivity|].
    by rewrite !tasks_setError.
  - rewrite <- (Hwho c eq_refl) in *.
    destruct (created d e (authHeaders s) c
                (CreateBody (Js.JStr (Js.trim (title s)))) Hauth Hwf)
      as [(a & -> & Hno)|(d' & row & -> & Hrows)].
    + rewrite Hno. simpl. eexists d, _. split; [reflexivity|].
      by rewrite !tasks_setError.
    + simpl. eexists d', _. split; [reflexivity|].
      by rewrite tasks_added, !tasks_setError, Hrows, Hsync.
Qed.

Lemma delete_sync d e s uid i :
  (forall c, requireAuth (authHeaders s) (now e) = inr c -> Jwt.id c = uid) ->
  tasks s = parsed <$> rows d uid ->
  exists d' s',
    against handle d e (deleteTask s i) = Some (d', s') /\
    tasks s' = parsed <$> rows d' uid.
Proof.
  intros Hwho Hsync. unfold deleteTask, against.
  rewrite authHeaders_setError.
  destruct (requireAuth (authHeaders s) (now e)) as [a|c] eqn:Hauth.
  - destruct (rejected d e (DeleteTask (authHeaders s) i)
                (authHeaders s) a eq_refl Hauth) as [-> Hno].
    rewrite Hno. simpl. eexists d, _. split; [reflexivity|].
    by rewrite !tasks_setError.
  - rewrite <- (Hwho c eq_refl) in *.
    destruct (removed d e (authHeaders s) c i Hauth)
      as [(a & -> & Hno)|(d' & -> & Hrows)].
    + rewrite Hno. simpl. eexists d, _. split; [reflexivity|].
      by rewrite !tasks_setError.
    + simpl. eexists d', _. split; [reflexivity|].
      by rewrite tasks_setTasks, !tasks_setError, Hrows, Hsync,
        filter_parsed_id.
Qed.

Lemma save_sync d e s uid i :
  (forall c, requireAuth (authHeaders s) (now e) = inr c -> Jwt.id c = uid) ->
  tasks s = parsed <$> rows d uid ->
  exists d' s',
    against handle d e (saveEdit s i) = Some (d', s') /\
    tasks s' = parsed <$> rows d' uid.
Proof.
  intros Hwho Hsync. unfold saveEdit, against.
  destruct (_ <? _)%nat.
  { eexists d, _. split; [reflexivity|]. by rewrite !tasks_setError. }
  rewrite authHeaders_setError.
  set (b := UpdateBody (Js.JStr (Js.trim (editingTitle s))) Js.JUndefined).
  destruct (requireAuth (authHeaders s) (now e)) as [a|c] eqn:Hauth.
  - destruct (rejected d e (PutTask (authHeaders s) i b)
                (authHeaders s) a eq_refl Hauth) as [-> Hno].
    rewrite Hno. simpl. eexists d, _. split; [reflexivity|].
    by rewrite !tasks_setError.
  - rewrite <- (Hwho c eq_refl) in *.
    destruct (changed d e (authHeaders s) c i b Hauth)
      as [(a & -> & Hno)|(d' & -> & Hrows)].
    + rewrite Hno. simpl. eexists d, _. split; [reflexivity|].
      by rewrite !tasks_setError.
    + simpl. eexists d', _. split; [reflexivity|].
      rewrite tasks_cancelEdit, tasks_setTasks, !tasks_setError, Hrows, Hsync.
      by rewrite map_title_parsed by apply trim_idem.
Qed.

Lemma toggle_sync d e s uid task :
  (forall c, requireAuth (authHeaders s) (now e) = inr c -> Jwt.id c = uid) ->
  tasks s = parsed <$> rows d uid ->
  task ∈ tasks s ->
  exists f d' s',
    toggleCompleted s task = Some f /\
    against handle d e f = Some (d', s') /\
    tasks s' = parsed <$> rows d' uid.
Proof.
  intros Hwho Hsync Hin. rewrite Hsync in Hin.
  apply list_elem_of_fmap in Hin as (j0 & -> & Hj0).
  unfold toggleCompleted. simpl.
  match goal with
  | |- exists f d' s', Some ?F = Some f /\ _ => set (F0 := F)
  end.
  cut (exists d' s', against handle d e F0 = Some (d', s') /\
                     tasks s' = parsed <$> rows d' uid).
  { intros (d' & s' & ? & ?). by exists F0, d', s'. }
  unfold F0, against. rewrite authHeaders_setError.
  set (b := UpdateBody Js.JUndefined (Js.JBool (negb (json_completed j0)))).
  destruct (requireAuth (authHeaders s) (now e)) as [a|c] eqn:Hauth.
  - destruct (rejected d e (PutTask (authHeaders s) (json_id j0) b)
                (authHeaders s) a eq_refl Hauth) as [-> Hno].
    rewrite Hno. simpl. eexists d, _. split; [reflexivity|].
    by rewrite !tasks_setError.
  - rewrite <- (Hwho c eq_refl) in *.
    destruct (changed d e (authHeaders s) c (json_id j0) b Hauth)
      as [(a & -> & Hno)|(d' & -> & Hrows)].
    + rewrite Hno. simpl. eexists d, _. split; [reflexivity|].
      by rewrite !tasks_setError.
    + simpl. eexists d', _. split; [reflexivity|].
      rewrite tasks_setTasks, !tasks_setError, Hrows, Hsync.
      pose proof (distinct d (Jwt.id c)) as Hnd.
      change (List.map ?f ?l) with (f <$> l).
      rewrite <- !list_fmap_compose. apply list_fmap_ext.
      intros k j Hj. simpl.
      case_bool_decide as Heq; case_decide as Hne; try done.
      * assert (j = j0) as ->.
        { apply list_elem_of_lookup_2 in Hj.
          apply list_elem_of_lookup in Hj0 as [k0 Hk0].
          apply list_elem_of_lookup in Hj as [k1 Hk1].
          assert (k1 = k0) as ->; [|congruence].
          apply (NoDup_lookup _ _ _ (json_id j) Hnd).
          - by rewrite list_lookup_fmap, Hk1.
          - by rewrite list_lookup_fmap, Hk0, Hne. }
        done.
      * injection Heq as Heq. by destruct Hne.
      * destruct Heq. congruence.
Qed.

End Server.
End Sync.

(** *** The Postgres server as seen by the client *)

Module SyncPostgres.
Import Js Http Postgres PostgresFacts PostgresMore.

(** The rows [GET /api/tasks] sends to user [uid]. *)
Definition rows (d : db) (uid : Z) : list task_json :=
  to_json <$> select_tasks d uid.

Section Handlers.
Context `{Runtime}.

Lemma rejected d e r auth a :
  credentials r = Some auth -> requireAuth auth (now e) = inl a ->
  handle d e r = (d, a) /\ TaskApp.ok a = false.
Proof.
  intros Hcred Hno. split; [by apply (handle_rejected d e r auth)|].
  by destruct (requireAuth_inl _ _ _ Hno) as [->| ->].
Qed.

Lemma listed d e auth c :
  requireAuth auth (now e) = inr c ->
  handle d e (GetTasks auth) =
    (d, Response 200 (TasksBody (rows d (Jwt.id c)))).
Proof. intros Hauth. cbn [handle]. unfold protected. by rewrite Hauth. Qed.

Lemma created d e auth c b :
  requireAuth auth (now e) = inr c -> db_wf d ->
  (exists a, handle d e (PostTasks auth b) = (d, a) /\ TaskApp.ok a = false)
  \/
  (exists d' row,
     handle d e (PostTasks auth b) = (d', Response 201 (TaskBody row)) /\
     rows d' (Jwt.id c) = row :: rows d (Jwt.id c)).
Proof.
  intros Hauth Hwf. cbn [handle]. unfold protected. rewrite Hauth.
  destruct (Nat.lt_ge_cases
              (String.length (trim (text_field (new_title b)))) 2)
    as [Hlt|Hge].
  - left. rewrite (create_task_rejected d (Jwt.id c) b Hlt). by eexists.
  - right. pose proof (create_task_created d (Jwt.id c) b Hge) as Hc.
    eexists _, _. split; [exact Hc|].
    destruct (create_then_list d (Jwt.id c) b _ _ Hwf Hc) as [Hl _].
    unfold list_tasks in Hl. by injection Hl.
Qed.

Lemma changed d e auth c i b :
  requireAuth auth (now e) = inr c ->
  (exists a, handle d e (PutTask auth i b) = (d, a) /\ TaskApp.ok a = false)
  \/
  (exists d',
     handle d e (PutTask auth i b) = (d', Response 200 SuccessBody) /\
     rows d' (Jwt.id c) =
       (fun j => if decide (json_id j = i) then patch_json b j else j)
         <$> rows d (Jwt.id c)).
Proof.
  intros Hauth. cbn [handle]. unfold protected. rewrite Hauth.
  destruct (put_task_cases d (Jwt.id c) i b)
    as [(? & _ & _ & Heq)|[[_ Heq]|(r & _ & Heq)]].
  - left. rewrite Heq. by eexists.
  - left. rewrite Heq. by eexists.
  - right. eexists. split; [exact Heq|].
    by destruct (update_then_list d (Jwt.id c) i b _ Heq).
Qed.

Lemma removed d e auth c i :
  requireAuth auth (now e) = inr c ->
  (exists a, handle d e (DeleteTask auth i) = (d, a) /\ TaskApp.ok a = false)
  \/
  (exists d',
     handle d e (DeleteTask auth i) = (d', Response 200 SuccessBody) /\
     rows d' (Jwt.id c) =
       filter (fun j => json_id j <> i) (rows d (Jwt.id c))).
Proof.
  intros Hauth. cbn [handle]. unfold protected. rewrite Hauth.
  destruct (owned_row d i (Jwt.id c)) as [r|] eqn:Hrow.
  - right. pose proof (remove_task_found d (Jwt.id c) i r Hrow) as Heq.
    eexists. split; [exact Heq|].
    by destruct (delete_then_list d (Jwt.id c) i _ Heq).
  - left. rewrite (remove_task_missing d (Jwt.id c) i Hrow). by eexists.
Qed.

Lemma distinct d uid : NoDup (json_id <$> rows d uid).
Proof.
  unfold rows. rewrite <- list_fmap_compose.
  apply (select_tasks_NoDup d uid).
Qed.

Lemma sorted d uid :
  StronglySorted (fun a b => json_id b < json_id a) (rows d uid).
Proof.
  eapply StronglySorted_fmap; [|apply select_tasks_sorted]. by intros [] [].
Qed.

(** What [submitAuth] leaves behind. *)
Lemma signed_in d e s :
  exists d' s',
    against handle d e (TaskApp.submitAuth s) = Some (d', s') /\
    ((exists u,
        u ∈ users d' /\
        TaskApp.token s' =
          Some (Jwt.Signed
                  (Jwt.Claims (u_id u) (u_email u) (now e) (now e + 7200))
                  JWT_SECRET) /\
        TaskApp.localStorage_token s' = TaskApp.token s' /\
        TaskApp.email s' = "" /\ TaskApp.password s' = "" /\
        forall later, later < now e + 7200 ->
          requireAuth (TaskApp.authHeaders s') later =
            inr (Jwt.Claims (u_id u) (u_email u) (now e) (now e + 7200)))
     \/
     (d' = d /\ TaskApp.token s' = TaskApp.token s /\
      TaskApp.localStorage_token s' = TaskApp.localStorage_token s /\
      TaskApp.tasks s' = TaskApp.tasks s /\
      TaskApp.error s' ∈
        ["Enter a valid email."; "Password must be at least 4 characters.";
         "Email already registered."; "Invalid credentials."])).
Proof.
  assert (Hgood : forall d' tok u,
    u ∈ users d' ->
    tok = Jwt.Signed (Jwt.Claims (u_id u) (u_email u) (now e) (now e + 7200))
                     JWT_SECRET ->
    exists u,
      u ∈ users d' /\
      TaskApp.token
        (TaskApp.setPassword ""
           (TaskApp.setEmail ""
              (TaskApp.setToken (Some tok)
                 (TaskApp.setStored (Some tok) (TaskApp.setError "" s))))) =
        Some (Jwt.Signed
                (Jwt.Claims (u_id u) (u_email u) (now e) (now e + 7200))
                JWT_SECRET) /\
      TaskApp.localStorage_token
        (TaskApp.setPassword ""
           (TaskApp.setEmail ""
              (TaskApp.setToken (Some tok)
                 (TaskApp.setStored (Some tok) (TaskApp.setError "" s))))) =
      TaskApp.token
        (TaskApp.setPassword ""
           (TaskApp.setEmail ""
              (TaskApp.setToken (Some tok)
                 (TaskApp.setStored (Some tok) (TaskApp.setError "" s))))) /\
      TaskApp.email
        (TaskApp.setPassword ""
           (TaskApp.setEmail ""
              (TaskApp.setToken (Some tok)
                 (TaskApp.setStored (Some tok) (TaskApp.setError "" s))))) = ""
      /\
      TaskApp.password
        (TaskApp.setPassword ""
           (TaskApp.setEmail ""
              (TaskApp.setToken (Some tok)
                 (TaskApp.setStored (Some tok) (TaskApp.setError "" s))))) = ""
      /\
      forall later, later < now e + 7200 ->
        requireAuth
          (TaskApp.authHeaders
             (TaskApp.setPassword ""
                (TaskApp.setEmail ""
                   (TaskApp.setToken (Some tok)
                      (TaskApp.setStored (Some tok)
                         (TaskApp.setError "" s)))))) later =
          inr (Jwt.Claims (u_id u) (u_email u) (now e) (now e + 7200))).
  { intros d' tok u Hu ->. exists u. destruct s.
    repeat split; try done. intros later Hlater.
    change (TaskApp.authHeaders _)
      with (Bearer (Jwt.Signed
                      (Jwt.Claims (u_id u) (u_email u) (now e)
                                  (now e + 7200)) JWT_SECRET)).
    rewrite requireAuth_signed.
    destruct (Z.leb_spec (now e + 7200) later); [lia|done]. }
  assert (Hbad : forall msg fallback,
    msg ∈ ["Enter a valid email."; "Password must be at least 4 characters.";
           "Email already registered."; "Invalid credentials."] ->
    let s' := TaskApp.setError
                (TaskApp.error_or (ErrorBody msg) fallback)
                (TaskApp.setError "" s) in
    d = d /\ TaskApp.token s' = TaskApp.token s /\
    TaskApp.localStorage_token s' = TaskApp.localStorage_token s /\
    TaskApp.tasks s' = TaskApp.tasks s /\
    TaskApp.error s' ∈
      ["Enter a valid email."; "Password must be at least 4 characters.";
       "Email already registered."; "Invalid credentials."]).
  { intros msg fallback Hmsg s'. subst s'. destruct s. simpl.
    repeat split; try done.
    repeat (apply elem_of_cons in Hmsg as [->|Hmsg]; [set_solver|]).
    by apply elem_of_nil in Hmsg. }
  unfold TaskApp.submitAuth, against.
  set (b := AuthBody (JStr (TaskApp.email (TaskApp.setError "" s)))
                     (JStr (TaskApp.password (TaskApp.setError "" s)))).
  destruct (String.eqb (TaskApp.mode (TaskApp.setError "" s)) "register").
  - cbn [handle].
    destruct (includes (toLowerCase (trim (text_field (body_email b)))) "@")
      eqn:Hat.
    2:{ rewrite (register_no_at d e b Hat). simpl. eexists d, _.
        split; [reflexivity|]. right. apply (Hbad "Enter a valid email." "Auth failed"). set_solver. }
    destruct (Nat.lt_ge_cases
                (String.length (text_field (body_password b))) 4)
      as [Hlt|Hge].
    { rewrite (register_short d e b Hat Hlt). simpl. eexists d, _.
      split; [reflexivity|]. right. apply (Hbad "Password must be at least 4 characters." "Auth failed"). set_solver. }
    destruct (select_user d (toLowerCase (trim (text_field (body_email b)))))
      as [v|] eqn:Hsel.
    { rewrite (register_taken d e b v Hat Hge Hsel). simpl. eexists d, _.
      split; [reflexivity|]. right. apply (Hbad "Email already registered." "Auth failed"). set_solver. }
    pose proof (register_created d e b Hat Hge Hsel) as Hreg.
    destruct (register_token d e b _ _ Hreg) as (u & Hu & Htok).
    rewrite Hreg. simpl. eexists _, _. split; [reflexivity|]. left.
    exact (Hgood _ _ u Hu Htok).
  - cbn [handle].
    destruct (select_user d (toLowerCase (trim (text_field (body_email b)))))
      as [v|] eqn:Hsel.
    2:{ rewrite (login_unknown d e b Hsel). simpl. eexists d, _.
        split; [reflexivity|]. right. apply (Hbad "Invalid credentials." "Auth failed"). set_solver. }
    destruct (bcrypt_compareSync (text_field (body_password b))
                (u_password_hash v)) eqn:Hok.
    2:{ rewrite (login_mismatch d e b v Hsel Hok). simpl. eexists d, _.
        split; [reflexivity|]. right. apply (Hbad "Invalid credentials." "Auth failed"). set_solver. }
    pose proof (login_granted d e b v Hsel Hok) as Hlog.
    destruct (login_token d e b _ _ Hlog) as (u & Hu & Htok).
    rewrite Hlog. simpl. eexists _, _. split; [reflexivity|]. left.
    exact (Hgood _ _ u Hu Htok).
Qed.

End Handlers.
End SyncPostgres.

(** *** The SQLite server as seen by the client *)

Module SyncSqlite.
Import Js Http Sqlite SqliteFacts SqliteMore.

(** The rows [GET /api/tasks] sends to user [uid]. *)
Definition rows (d : db) (uid : Z) : list task_json :=
  to_json <$> stmtGetAllTasksForUser d uid.

Section Handlers.
Context `{Runtime}.

Lemma lite_rejected d e r auth a :
  credentials r = Some auth -> requireAuth auth (now e) = inl a ->
  handle d e r = (d, a) /\ TaskApp.ok a = false.
Proof.
  intros Hcred Hno. split; [by apply (lite_handle_rejected d e r auth)|].
  by destruct (lite_requireAuth_inl _ _ _ Hno) as [->| ->].
Qed.

Lemma lite_listed d e auth c :
  requireAuth auth (now e) = inr c ->
  handle d e (GetTasks auth) =
    (d, Response 200 (TasksBody (rows d (Jwt.id c)))).
Proof. intros Hauth. cbn [handle]. unfold protected. by rewrite Hauth. Qed.

Lemma lite_created d e auth c b :
  requireAuth auth (now e) = inr c -> db_wf d ->
  (exists a, handle d e (PostTasks auth b) = (d, a) /\ TaskApp.ok a = false)
  \/
  (exists d' row,
     handle d e (PostTasks auth b) = (d', Response 201 (TaskBody row)) /\
     rows d' (Jwt.id c) = row :: rows d (Jwt.id c)).
Proof.
  intros Hauth Hwf. cbn [handle]. unfold protected. rewrite Hauth.
  destruct (Nat.lt_ge_cases
              (String.length (trim (text_field (new_title b)))) 2)
    as [Hlt|Hge].
  - left. rewrite (lite_create_task_rejected d (Jwt.id c) b Hlt). by eexists.
  - right. pose proof (lite_create_task_created d (Jwt.id c) b Hge) as Hc.
    eexists _, _. split; [exact Hc|].
    destruct (lite_create_then_list d (Jwt.id c) b _ _ Hwf Hc) as [Hl _].
    unfold list_tasks in Hl. by injection Hl.
Qed.

Lemma lite_changed d e auth c i b :
  requireAuth auth (now e) = inr c ->
  (exists a, handle d e (PutTask auth i b) = (d, a) /\ TaskApp.ok a = false)
  \/
  (exists d',
     handle d e (PutTask auth i b) = (d', Response 200 SuccessBody) /\
     rows d' (Jwt.id c) =
       (fun j => if decide (json_id j = i) then patch_json b j else j)
         <$> rows d (Jwt.id c)).
Proof.
  intros Hauth. cbn [handle]. unfold protected. rewrite Hauth.
  destruct (lite_put_task_cases d (Jwt.id c) i b)
    as [(? & _ & _ & Heq)|[[_ Heq]|(r & _ & Heq)]].
  - left. rewrite Heq. by eexists.
  - left. rewrite Heq. by eexists.
  - right. eexists. split; [exact Heq|].
    by destruct (lite_update_then_list d (Jwt.id c) i b _ Heq).
Qed.

Lemma lite_removed d e auth c i :
  requireAuth auth (now e) = inr c ->
  (exists a, handle d e (DeleteTask auth i) = (d, a) /\ TaskApp.ok a = false)
  \/
  (exists d',
     handle d e (DeleteTask auth i) = (d', Response 200 SuccessBody) /\
     rows d' (Jwt.id c) =
       filter (fun j => json_id j <> i) (rows d (Jwt.id c))).
Proof.
  intros Hauth. cbn [handle]. unfold protected. rewrite Hauth.
  destruct (owned_row d i (Jwt.id c)) as [r|] eqn:Hrow.
  - right. pose proof (lite_remove_task_found d (Jwt.id c) i r Hrow) as Heq.
    eexists. split; [exact Heq|].
    by destruct (lite_delete_then_list d (Jwt.id c) i _ Heq).
  - left. rewrite (lite_remove_task_missing d (Jwt.id c) i Hrow). by eexists.
Qed.

Lemma lite_distinct d uid : NoDup (json_id <$> rows d uid).
Proof.
  unfold rows. rewrite <- list_fmap_compose.
  apply (stmtGetAllTasksForUser_NoDup d uid).
Qed.

Lemma lite_sorted d uid :
  StronglySorted (fun a b => json_id b < json_id a) (rows d uid).
Proof.
  eapply StronglySorted_fmap; [|apply stmtGetAllTasksForUser_sorted]. by intros [] [].
Qed.

(** What [submitAuth] leaves behind. *)
Lemma lite_signed_in d e s :
  exists d' s',
    against handle d e (TaskApp.submitAuth s) = Some (d', s') /\
    ((exists u,
        u ∈ users d' /\
        TaskApp.token s' =
          Some (Jwt.Signed
                  (Jwt.Claims (u_id u) (u_email u) (now e) (now e + 7200))
                  JWT_SECRET) /\
        TaskApp.localStorage_token s' = TaskApp.token s' /\
        TaskApp.email s' = "" /\ TaskApp.password s' = "" /\
        forall later, later < now e + 7200 ->
          requireAuth (TaskApp.authHeaders s') later =
            inr (Jwt.Claims (u_id u) (u_email u) (now e) (now e + 7200)))
     \/
     (d' = d /\ TaskApp.token s' = TaskApp.token s /\
      TaskApp.localStorage_token s' = TaskApp.localStorage_token s /\
      TaskApp.tasks s' = TaskApp.tasks s /\
      TaskApp.error s' ∈
        ["Enter a valid email."; "Password must be at least 4 characters.";
         "Email already registered."; "Invalid credentials."])).
Proof.
  assert (Hgood : forall d' tok u,
    u ∈ users d' ->
    tok = Jwt.Signed (Jwt.Claims (u_id u) (u_email u) (now e) (now e + 7200))
                     JWT_SECRET ->
    exists u,
      u ∈ users d' /\
      TaskApp.token
        (TaskApp.setPassword ""
           (TaskApp.setEmail ""
              (TaskApp.setToken (Some tok)
                 (TaskApp.setStored (Some tok) (TaskApp.setError "" s))))) =
        Some (Jwt.Signed
                (Jwt.Claims (u_id u) (u_email u) (now e) (now e + 7200))
                JWT_SECRET) /\
      TaskApp.localStorage_token
        (TaskApp.setPassword ""
           (TaskApp.setEmail ""
              (TaskApp.setToken (Some tok)
                 (TaskApp.setStored (Some tok) (TaskApp.setError "" s))))) =
      TaskApp.token
        (TaskApp.setPassword ""
           (TaskApp.setEmail ""
              (TaskApp.setToken (Some tok)
                 (TaskApp.setStored (Some tok) (TaskApp.setError "" s))))) /\
      TaskApp.email
        (TaskApp.setPassword ""
           (TaskApp.setEmail ""
              (TaskApp.setToken (Some tok)
                 (TaskApp.setStored (Some tok) (TaskApp.setError "" s))))) = ""
      /\
      TaskApp.password
        (TaskApp.setPassword ""
           (TaskApp.setEmail ""
              (TaskApp.setToken (Some tok)
                 (TaskApp.setStored (Some tok) (TaskApp.setError "" s))))) = ""
      /\
      forall later, later < now e + 7200 ->
        requireAuth
          (TaskApp.authHeaders
             (TaskApp.setPassword ""
                (TaskApp.setEmail ""
                   (TaskApp.setToken (Some tok)
                      (TaskApp.setStored (Some tok)
                         (TaskApp.setError "" s)))))) later =
          inr (Jwt.Claims (u_id u) (u_email u) (now e) (now e + 7200))).
  { intros d' tok u Hu ->. exists u. destruct s.
    repeat split; try done. intros later Hlater.
    change (TaskApp.authHeaders _)
      with (Bearer (Jwt.Signed
                      (Jwt.Claims (u_id u) (u_email u) (now e)
                                  (now e + 7200)) JWT_SECRET)).
    rewrite lite_requireAuth_signed.
    destruct (Z.leb_spec (now e + 7200) later); [lia|done]. }
  assert (Hbad : forall msg fallback,
    msg ∈ ["Enter a valid email."; "Password must be at least 4 characters.";
           "Email already registered."; "Invalid credentials."] ->
    let s' := TaskApp.setError
                (TaskApp.error_or (ErrorBody msg) fallback)
                (TaskApp.setError "" s) in
    d = d /\ TaskApp.token s' = TaskApp.token s /\
    TaskApp.localStorage_token s' = TaskApp.localStorage_token s /\
    TaskApp.tasks s' = TaskApp.tasks s /\
    TaskApp.error s' ∈
      ["Enter a valid email."; "Password must be at least 4 characters.";
       "Email already registered."; "Invalid credentials."]).
  { intros msg fallback Hmsg s'. subst s'. destruct s. simpl.
    repeat split; try done.
    repeat (apply elem_of_cons in Hmsg as [->|Hmsg]; [set_solver|]).
    by apply elem_of_nil in Hmsg. }
  unfold TaskApp.submitAuth, against.
  set (b := AuthBody (JStr (TaskApp.email (TaskApp.setError "" s)))
                     (JStr (TaskApp.password (TaskApp.setError "" s)))).
  destruct (String.eqb (TaskApp.mode (TaskApp.setError "" s)) "register").
  - cbn [handle].
    destruct (includes (toLowerCase (trim (text_field (body_email b)))) "@")
      eqn:Hat.
    2:{ rewrite (lite_register_no_at d e b Hat). simpl. eexists d, _.
        split; [reflexivity|]. right. apply (Hbad "Enter a valid email." "Auth failed"). set_solver. }
    destruct (Nat.lt_ge_cases
                (String.length (text_field (body_password b))) 4)
      as [Hlt|Hge].
    { rewrite (lite_register_short d e b Hat Hlt). simpl. eexists d, _.
      split; [reflexivity|]. right. apply (Hbad "Password must be at least 4 characters." "Auth failed"). set_solver. }
    destruct (stmtFindUserByEmail d (toLowerCase (trim (text_field (body_email b)))))
      as [v|] eqn:Hsel.
    { rewrite (lite_register_taken d e b v Hat Hge Hsel). simpl. eexists d, _.
      split; [reflexivity|]. right. apply (Hbad "Email already registered." "Auth failed"). set_solver. }
    pose proof (lite_register_created d e b Hat Hge Hsel) as Hreg.
    destruct (lite_register_token d e b _ _ Hreg) as (u & Hu & Htok).
    rewrite Hreg. simpl. eexists _, _. split; [reflexivity|]. left.
    exact (Hgood _ _ u Hu Htok).
  - cbn [handle].
    destruct (stmtFindUserByEmail d (toLowerCase (trim (text_field (body_email b)))))
      as [v|] eqn:Hsel.
    2:{ rewrite (lite_login_unknown d e b Hsel). simpl. eexists d, _.
        split; [reflexivity|]. right. apply (Hbad "Invalid credentials." "Auth failed"). set_solver. }
    destruct (bcrypt_compareSync (text_field (body_password b))
                (u_password_hash v)) eqn:Hok.
    2:{ rewrite (lite_login_mismatch d e b v Hsel Hok). simpl. eexists d, _.
        split; [reflexivity|]. right. apply (Hbad "Invalid credentials." "Auth failed"). set_solver. }
    pose proof (lite_login_granted d e b v Hsel Hok) as Hlog.
    destruct (lite_login_token d e b _ _ Hlog) as (u & Hu & Htok).
    rewrite Hlog. simpl. eexists _, _. split; [reflexivity|]. left.
    exact (Hgood _ _ u Hu Htok).
Qed.

End Handlers.
End SyncSqlite.

(** ** The client against both servers: properties *)

(** Alice's component, holding the token of her registration and the list
    a server sent. *)
Definition alice_app (rows : list task_json) : TaskApp.state :=
  TaskApp.setTasks (TaskApp.parsed <$> rows)
    (TaskApp.initial
       (Some (Jwt.sign 1 "alice@example.org" "dev-fallback" 7200 100))).

(** X16. [loadTasks] sends nothing when the component holds no token.
    With a token that the server accepts, it leaves the server as it is
    and the component holding exactly the list the server sends to the
    user of the token. *)
Theorem load_shows_server_list `{Runtime} (e : env) (s : TaskApp.state)
    (c : Jwt.claims) :
  (TaskApp.token s = None -> TaskApp.loadTasks s = TaskApp.Done s) /\
  (TaskApp.isAuthed s = true ->
   (forall d : Postgres.db,
      Postgres.requireAuth (TaskApp.authHeaders s) (now e) = inr c ->
      exists s',
        against Postgres.handle d e (TaskApp.loadTasks s) = Some (d, s') /\
        TaskApp.tasks s' =
          TaskApp.parsed <$> SyncPostgres.rows d (Jwt.id c)) /\
   (forall d : Sqlite.db,
      Sqlite.requireAuth (TaskApp.authHeaders s) (now e) = inr c ->
      exists s',
        against Sqlite.handle d e (TaskApp.loadTasks s) = Some (d, s') /\
        TaskApp.tasks s' =
          TaskApp.parsed <$> SyncSqlite.rows d (Jwt.id c))).
Proof.
  split.
  - intros Hnone. unfold TaskApp.loadTasks, TaskApp.isAuthed.
    by rewrite Hnone.
  - intros Hin. split.
    + intros d Hc.
      by apply (Sync.load_sync Postgres.handle Postgres.requireAuth
                  SyncPostgres.rows SyncPostgres.listed).
    + intros d Hc.
      by apply (Sync.load_sync Sqlite.handle Sqlite.requireAuth
                  SyncSqlite.rows SyncSqlite.lite_listed).
Qed.

Lemma load_shows_server_list_witness :
  exists s',
    against (@Postgres.handle Demo.runtime) Demo.pg (Env 200 "")
      (TaskApp.loadTasks (alice_app [])) = Some (Demo.pg, s') /\
    TaskApp.tasks s' =
      TaskApp.parsed <$> [TaskJson 3 "Call mum" false;
                          TaskJson 1 "Buy milk" false].
Proof.
  destruct (@load_shows_server_list Demo.runtime (Env 200 "") (alice_app [])
              (Jwt.Claims 1 "alice@example.org" 100 7300)) as [_ Hload].
  destruct (Hload eq_refl) as [Hp _]. apply (Hp Demo.pg). reflexivity.
Defined.

(** X17. If the component holds the list the server sends to the user of
    its token, it still does after [addTask], whether the server accepted
    the task, refused it, or rejected the token; the database is
    well-formed. *)
Theorem client_add_stays_in_sync `{Runtime} (e : env) (s : TaskApp.state)
    (uid : Z) :
  (forall d : Postgres.db,
     PostgresFacts.db_wf d ->
     (forall c, Postgres.requireAuth (TaskApp.authHeaders s) (now e) = inr c ->
                Jwt.id c = uid) ->
     TaskApp.tasks s = TaskApp.parsed <$> SyncPostgres.rows d uid ->
     exists d' s',
       against Postgres.handle d e (TaskApp.addTask s) = Some (d', s') /\
       TaskApp.tasks s' = TaskApp.parsed <$> SyncPostgres.rows d' uid) /\
  (forall d : Sqlite.db,
     SqliteFacts.db_wf d ->
     (forall c, Sqlite.requireAuth (TaskApp.authHeaders s) (now e) = inr c ->
                Jwt.id c = uid) ->
     TaskApp.tasks s = TaskApp.parsed <$> SyncSqlite.rows d uid ->
     exists d' s',
       against Sqlite.handle d e (TaskApp.addTask s) = Some (d', s') /\
       TaskApp.tasks s' = TaskApp.parsed <$> SyncSqlite.rows d' uid).
Proof.
  split.
  - intros d.
    apply (Sync.add_sync Postgres.handle Postgres.requireAuth
             SyncPostgres.rows PostgresFacts.db_wf
             SyncPostgres.rejected SyncPostgres.created).
  - intros d.
    apply (Sync.add_sync Sqlite.handle Sqlite.requireAuth
             SyncSqlite.rows SqliteFacts.db_wf
             SyncSqlite.lite_rejected SyncSqlite.lite_created).
Qed.

Lemma client_add_stays_in_sync_witness :
  let s := TaskApp.setTitle " Feed cat "
             (alice_app (SyncPostgres.rows Demo.pg 1)) in
  exists d' s',
    against (@Postgres.handle Demo.runtime) Demo.pg (Env 200 "")
      (TaskApp.addTask s) = Some (d', s') /\
    TaskApp.tasks s' = TaskApp.parsed <$> SyncPostgres.rows d' 1.
Proof.
  intros s.
  destruct (@client_add_stays_in_sync Demo.runtime (Env 200 "") s 1)
    as [Hp _].
  apply (Hp Demo.pg).
  - apply (@PostgresFacts.serve_wf Demo.runtime), PostgresFacts.initDb_wf.
  - intros c Hc. vm_compute in Hc. by injection Hc as <-.
  - reflexivity.
Defined.

(** X18. If the component holds the list the server sends to the user of
    its token, it still does after [deleteTask], whatever the id and
    whatever the server answers. *)
Theorem client_delete_stays_in_sync `{Runtime} (e : env) (s : TaskApp.state)
    (uid i : Z) :
  (forall d : Postgres.db,
     (forall c, Postgres.requireAuth (TaskApp.authHeaders s) (now e) = inr c ->
                Jwt.id c = uid) ->
     TaskApp.tasks s = TaskApp.parsed <$> SyncPostgres.rows d uid ->
     exists d' s',
       against Postgres.handle d e (TaskApp.deleteTask s i) = Some (d', s') /\
       TaskApp.tasks s' = TaskApp.parsed <$> SyncPostgres.rows d' uid) /\
  (forall d : Sqlite.db,
     (forall c, Sqlite.requireAuth (TaskApp.authHeaders s) (now e) = inr c ->
                Jwt.id c = uid) ->
     TaskApp.tasks s = TaskApp.parsed <$> SyncSqlite.rows d uid ->
     exists d' s',
       against Sqlite.handle d e (TaskApp.deleteTask s i) = Some (d', s') /\
       TaskApp.tasks s' = TaskApp.parsed <$> SyncSqlite.rows d' uid).
Proof.
  split.
  - intros d.
    apply (Sync.delete_sync Postgres.handle Postgres.requireAuth
             SyncPostgres.rows SyncPostgres.rejected SyncPostgres.removed).
  - intros d.
    apply (Sync.delete_sync Sqlite.handle Sqlite.requireAuth
             SyncSqlite.rows SyncSqlite.lite_rejected
             SyncSqlite.lite_removed).
Qed.

Lemma client_delete_stays_in_sync_witness :
  let s := alice_app (SyncSqlite.rows Demo.lite 1) in
  exists d' s',
    against (@Sqlite.handle Demo.runtime) Demo.lite (Env 200 "")
      (TaskApp.deleteTask s 3) = Some (d', s') /\
    TaskApp.tasks s' = TaskApp.parsed <$> SyncSqlite.rows d' 1.
Proof.
  intros s.
  destruct (@client_delete_stays_in_sync Demo.runtime (Env 200 "") s 1 3)
    as [_ Hs].
  apply (Hs Demo.lite).
  - intros c Hc. vm_compute in Hc. by injection Hc as <-.
  - reflexivity.
Defined.

(** X19. If the component holds the list the server sends to the user of
    its token, it still does after [toggleCompleted] on one of the tasks
    it holds, whatever the server answers. *)
Theorem client_toggle_stays_in_sync `{Runtime} (e : env)
    (s : TaskApp.state) (uid : Z) (task : Client.task) :
  task ∈ TaskApp.tasks s ->
  (forall d : Postgres.db,
     (forall c, Postgres.requireAuth (TaskApp.authHeaders s) (now e) = inr c ->
                Jwt.id c = uid) ->
     TaskApp.tasks s = TaskApp.parsed <$> SyncPostgres.rows d uid ->
     exists f d' s',
       TaskApp.toggleCompleted s task = Some f /\
       against Postgres.handle d e f = Some (d', s') /\
       TaskApp.tasks s' = TaskApp.parsed <$> SyncPostgres.rows d' uid) /\
  (forall d : Sqlite.db,
     (forall c, Sqlite.requireAuth (TaskApp.authHeaders s) (now e) = inr c ->
                Jwt.id c = uid) ->
     TaskApp.tasks s = TaskApp.parsed <$> SyncSqlite.rows d uid ->
     exists f d' s',
       TaskApp.toggleCompleted s task = Some f /\
       against Sqlite.handle d e f = Some (d', s') /\
       TaskApp.tasks s' = TaskApp.parsed <$> SyncSqlite.rows d' uid).
Proof.
  intros Hin. split.
  - intros d Hwho Hsync.
    by apply (Sync.toggle_sync Postgres.handle Postgres.requireAuth
                SyncPostgres.rows SyncPostgres.rejected SyncPostgres.changed
                SyncPostgres.distinct).
  - intros d Hwho Hsync.
    by apply (Sync.toggle_sync Sqlite.handle Sqlite.requireAuth
                SyncSqlite.rows SyncSqlite.lite_rejected
                SyncSqlite.lite_changed SyncSqlite.lite_distinct).
Qed.

Lemma client_toggle_stays_in_sync_witness :
  let s := alice_app (SyncSqlite.rows Demo.lite 1) in
  let task := TaskApp.parsed (TaskJson 1 "Buy milk" false) in
  exists f d' s',
    TaskApp.toggleCompleted s task = Some f /\
    against (@Sqlite.handle Demo.runtime) Demo.lite (Env 200 "") f =
      Some (d', s') /\
    TaskApp.tasks s' = TaskApp.parsed <$> SyncSqlite.rows d' 1.
Proof.
  intros s task.
  destruct (@client_toggle_stays_in_sync Demo.runtime (Env 200 "") s 1 task)
    as [_ Hs].
  - vm_compute. apply list_elem_of_further, list_elem_of_here.
  - apply (Hs Demo.lite).
    + intros c Hc. vm_compute in Hc. by injection Hc as <-.
    + reflexivity.
Defined.

(** X20. If the component holds the list the server sends to the user of
    its token, it still does after [saveEdit], whether the new title was
    too short to be sent, accepted, or refused. *)
Theorem client_save_stays_in_sync `{Runtime} (e : env) (s : TaskApp.state)
    (uid i : Z) :
  (forall d : Postgres.db,
     (forall c, Postgres.requireAuth (TaskApp.authHeaders s) (now e) = inr c ->
                Jwt.id c = uid) ->
     TaskApp.tasks s = TaskApp.parsed <$> SyncPostgres.rows d uid ->
     exists d' s',
       against Postgres.handle d e (TaskApp.saveEdit s i) = Some (d', s') /\
       TaskApp.tasks s' = TaskApp.parsed <$> SyncPostgres.rows d' uid) /\
  (forall d : Sqlite.db,
     (forall c, Sqlite.requireAuth (TaskApp.authHeaders s) (now e) = inr c ->
                Jwt.id c = uid) ->
     TaskApp.tasks s = TaskApp.parsed <$> SyncSqlite.rows d uid ->
     exists d' s',
       against Sqlite.handle d e (TaskApp.saveEdit s i) = Some (d', s') /\
       TaskApp.tasks s' = TaskApp.parsed <$> SyncSqlite.rows d' uid).
Proof.
  split.
  - intros d.
    apply (Sync.save_sync Postgres.handle Postgres.requireAuth
             SyncPostgres.rows SyncPostgres.rejected SyncPostgres.changed).
  - intros d.
    apply (Sync.save_sync Sqlite.handle Sqlite.requireAuth
             SyncSqlite.rows SyncSqlite.lite_rejected
             SyncSqlite.lite_changed).
Qed.

Lemma client_save_stays_in_sync_witness :
  let s := TaskApp.setEditingTitle " Buy oat milk "
             (alice_app (SyncPostgres.rows Demo.pg 1)) in
  exists d' s',
    against (@Postgres.handle Demo.runtime) Demo.pg (Env 200 "")
      (TaskApp.saveEdit s 1) = Some (d', s') /\
    TaskApp.tasks s' = TaskApp.parsed <$> SyncPostgres.rows d' 1.
Proof.
  intros s.
  destruct (@client_save_stays_in_sync Demo.runtime (Env 200 "") s 1 1)
    as [Hp _].
  apply (Hp Demo.pg).
  - intros c Hc. vm_compute in Hc. by injection Hc as <-.
  - reflexivity.
Defined.

(** X21. [submitAuth] always gets an answer it can use. Either the server
    registered or recognised a stored user: the component and
    [localStorage] then hold a token for that user issued at the time of
    the request, which [requireAuth] accepts for the next 7200 seconds,
    and the form is cleared. Or the server refused: the database, the
    token and the tasks are as they were and the component shows one of
    the server's four messages. *)
Theorem sign_in_stores_accepted_token `{Runtime} (e : env)
    (s : TaskApp.state) :
  (forall d : Postgres.db,
     exists d' s',
       against Postgres.handle d e (TaskApp.submitAuth s) = Some (d', s') /\
       ((exists u,
           u ∈ Postgres.users d' /\
           TaskApp.token s' =
             Some (Jwt.Signed
                     (Jwt.Claims (u_id u) (u_email u) (now e) (now e + 7200))
                     JWT_SECRET) /\
           TaskApp.localStorage_token s' = TaskApp.token s' /\
           TaskApp.email s' = "" /\ TaskApp.password s' = "" /\
           forall later, later < now e + 7200 ->
             Postgres.requireAuth (TaskApp.authHeaders s') later =
               inr (Jwt.Claims (u_id u) (u_email u) (now e) (now e + 7200)))
        \/
        (d' = d /\ TaskApp.token s' = TaskApp.token s /\
         TaskApp.localStorage_token s' = TaskApp.localStorage_token s /\
         TaskApp.tasks s' = TaskApp.tasks s /\
         TaskApp.error s' ∈
           ["Enter a valid email."; "Password must be at least 4 characters.";
            "Email already registered."; "Invalid credentials."]))) /\
  (forall d : Sqlite.db,
     exists d' s',
       against Sqlite.handle d e (TaskApp.submitAuth s) = Some (d', s') /\
       ((exists u,
           u ∈ Sqlite.users d' /\
           TaskApp.token s' =
             Some (Jwt.Signed
                     (Jwt.Claims (u_id u) (u_email u) (now e) (now e + 7200))
                     JWT_SECRET) /\
           TaskApp.localStorage_token s' = TaskApp.token s' /\
           TaskApp.email s' = "" /\ TaskApp.password s' = "" /\
           forall later, later < now e + 7200 ->
             Sqlite.requireAuth (TaskApp.authHeaders s') later =
               inr (Jwt.Claims (u_id u) (u_email u) (now e) (now e + 7200)))
        \/
        (d' = d /\ TaskApp.token s' = TaskApp.token s /\
         TaskApp.localStorage_token s' = TaskApp.localStorage_token s /\
         TaskApp.tasks s' = TaskApp.tasks s /\
         TaskApp.error s' ∈
           ["Enter a valid email."; "Password must be at least 4 characters.";
            "Email already registered."; "Invalid credentials."]))).
Proof.
  split.
  - intros d. apply SyncPostgres.signed_in.
  - intros d. apply SyncSqlite.lite_signed_in.
Qed.

Lemma sign_in_stores_accepted_token_witness :
  let s := TaskApp.setPassword "secret"
             (TaskApp.setEmail "alice@example.org" (TaskApp.initial None)) in
  exists d' s',
    against (@Postgres.handle Demo.runtime) Demo.pg (Env 300 "")
      (TaskApp.submitAuth s) = Some (d', s') /\
    @Postgres.requireAuth Demo.runtime (TaskApp.authHeaders s') 5000 =
      inr (Jwt.Claims 1 "alice@example.org" 300 7500).
Proof.
  intros s.
  destruct (@sign_in_stores_accepted_token Demo.runtime (Env 300 "") s)
    as [Hp _].
  destruct (Hp Demo.pg) as (d' & s' & Hrun & Hcases).
  exists d', s'. split; [exact Hrun|].
  vm_compute in Hrun. injection Hrun as <- <-.
  destruct Hcases as [(u & _ & Htok & _ & _ & _ & Hlater)|(_ & _ & _ & _ & Herr)].
  - rewrite (Hlater 5000); [|simpl; lia].
    simpl in Htok. injection Htok as <- <-. reflexivity.
  - simpl in Herr. rewrite !elem_of_cons in Herr.
    destruct Herr as [Herr|[Herr|[Herr|[Herr|Herr]]]];
      [discriminate..|by apply elem_of_nil in Herr].
Defined.


